(** * torchdeepretina: the training orchestration of [training.py]

    A shallow embedding of the orchestration code of
    [torchdeepretina/training.py]: the early-stopping monitor
    ([Trainer.stop_early]), the sweep engine ([fill_hyper_q]), the builder of
    the optimisation objects ([get_optim_objs]), the epoch loops of
    [Trainer.train_loop] and [Trainer.retinotopic_loop], the run entry
    [Trainer.train] and the sweep runner [hyper_search].

    Python dictionaries are finite maps from strings to dynamically typed
    values, exceptions are an explicit error result, the objects the code
    mutates (the [Trainer], the [hyps] dictionary, the queue, the model and
    optimiser) are threaded as state, and the numeric collaborators (torch,
    the data distributor, the pruning module) are an interface whose
    operations the loops call in the order the source calls them. *)

From Stdlib Require Import ZArith QArith Bool List String Lia.
From stdpp Require Import base option list gmap strings pretty.
Import ListNotations.

Local Open Scope string_scope.
Local Open Scope Z_scope.

(** ** Exceptions and results

    An [IndexError] carries its message, [str(e)], which [Trainer.train]
    prints when it catches one. *)

Inductive exn : Type :=
| IndexError (msg : string)
| KeyError (key : string)
| NameError (name : string)
| UnboundLocalError (name : string)
| AttributeError (name : string)
| TypeError
| ValueError
| ZeroDivisionError
| StopIteration.

Inductive outcome (A : Type) : Type :=
| Ok (a : A)
| Raise (e : exn).
Arguments Ok {A} a.
Arguments Raise {A} e.

(** Sequencing: an exception raised by the first statement skips the rest.
    The instances give the notation [x ← m; k]. *)
#[export] Instance outcome_bind : MBind outcome := fun A B k m =>
  match m with
  | Ok a => k a
  | Raise e => Raise e
  end.

#[export] Instance outcome_ret : MRet outcome := fun A a => Ok a.

(** ** Python floats, as an interface

    The orchestration only adds losses, divides them by a batch count,
    subtracts two accuracies, compares with [<] and asks [math.isnan] and
    [math.isinf].  The operations are kept abstract. *)

Class PyFloat : Type := {
  float : Type;
  of_int : Z -> float;
  fadd : float -> float -> float;
  fsub : float -> float -> float;
  fdiv_int : float -> Z -> float;
  fltb : float -> float -> bool;
  feqb : float -> float -> bool;
  isnan : float -> bool;
  isinf : float -> bool
}.

(** [math.isnan(x) or math.isinf(x)] *)
Definition nonfinite `{PyFloat} (x : float) : bool := isnan x || isinf x.


(** [x / n] for a float [x] and an int [n]. *)
Definition py_truediv `{PyFloat} (x : float) (n : Z) : outcome float :=
  if n =? 0 then Raise ZeroDivisionError else Ok (fdiv_int x n).

(** A small instance for examples: exact rationals with the two infinities
    and NaN. *)
Module XReal.

Inductive xreal : Type :=
| Fin (q : Q)
| PInf
| NInf
| NaN.

Definition add (x y : xreal) : xreal :=
  match x, y with
  | NaN, _ | _, NaN => NaN
  | PInf, NInf | NInf, PInf => NaN
  | PInf, _ | _, PInf => PInf
  | NInf, _ | _, NInf => NInf
  | Fin a, Fin b => Fin (Qred (a + b))
  end.

Definition neg (x : xreal) : xreal :=
  match x with
  | Fin a => Fin (Qred (- a))
  | PInf => NInf
  | NInf => PInf
  | NaN => NaN
  end.

Definition sub (x y : xreal) : xreal := add x (neg y).

Definition div_int (x : xreal) (n : Z) : xreal :=
  match x with
  | Fin a => Fin (Qred (a / inject_Z n))
  | PInf => if 0 <? n then PInf else NInf
  | NInf => if 0 <? n then NInf else PInf
  | NaN => NaN
  end.

Definition Qltb (a b : Q) : bool := negb (Qle_bool b a).

Definition ltb (x y : xreal) : bool :=
  match x, y with
  | NaN, _ | _, NaN => false
  | _, NInf => false
  | NInf, _ => true
  | PInf, _ => false
  | Fin _, PInf => true
  | Fin a, Fin b => Qltb a b
  end.

Definition eqb (x y : xreal) : bool :=
  match x, y with
  | Fin a, Fin b => Qeq_bool a b
  | PInf, PInf | NInf, NInf => true
  | _, _ => false
  end.

Definition is_nan (x : xreal) : bool :=
  match x with NaN => true | _ => false end.

Definition is_inf (x : xreal) : bool :=
  match x with PInf | NInf => true | _ => false end.

#[global] Instance xreal_float : PyFloat := {|
  float := xreal;
  of_int := fun z => Fin (inject_Z z);
  fadd := add;
  fsub := sub;
  fdiv_int := div_int;
  fltb := ltb;
  feqb := eqb;
  isnan := is_nan;
  isinf := is_inf
|}.

End XReal.

(** ** [Trainer]: the early-stopping monitor

    [__init__] stores [early_stopping] and [tolerance] and sets [prev_acc] to
    [None]; the attribute [stop_count] does not exist until the first
    observation. *)

Section EarlyStopping.
Context `{PyFloat}.

Record Trainer : Type := mkTrainer {
  early_stopping : Z;
  tolerance : float;
  prev_acc : option float;
  stop_count : option Z
}.

Definition Trainer_init (early_stopping : Z) (stop_tolerance : float) : Trainer :=
  mkTrainer early_stopping stop_tolerance None None.

Definition set_prev_acc (self : Trainer) (acc : float) : Trainer :=
  mkTrainer (early_stopping self) (tolerance self) (Some acc) (stop_count self).

Definition set_stop_count (self : Trainer) (c : Z) : Trainer :=
  mkTrainer (early_stopping self) (tolerance self) (prev_acc self) (Some c).

(** [self.stop_count += 1] *)
Definition incr_stop_count (self : Trainer) : outcome Trainer :=
  match stop_count self with
  | Some c => Ok (set_stop_count self (c + 1))
  | None => Raise (AttributeError "stop_count")
  end.

(** [Trainer.stop_early].  The [return True] sits inside the two nested
    [if]s; every other path of the third [if] falls through to the two
    assignments below it. *)
Definition stop_early (self : Trainer) (acc : float) : outcome (bool * Trainer) :=
  if early_stopping self <=? 0 then Ok (false, self)
  else
    match prev_acc self with
    | None => Ok (false, set_stop_count (set_prev_acc self acc) 0)
    | Some prev =>
        '(returned, self) ←
          (if fltb (fsub acc prev) (tolerance self) then
             self ← incr_stop_count self;
             match stop_count self with
             | Some c => Ok (c >=? early_stopping self, self)
             | None => Raise (AttributeError "stop_count")
             end
           else Ok (false, self));
        if returned : bool then Ok (true, self)
        else Ok (false, set_prev_acc (set_stop_count self 0) acc)
    end.

(** The monitor fed a sequence of metrics, one call after the other. *)
Fixpoint observe_all (self : Trainer) (accs : list float)
  : outcome (list bool * Trainer) :=
  match accs with
  | [] => Ok ([], self)
  | acc :: accs =>
      '(b, self) ← stop_early self acc;
      '(bs, self) ← observe_all self accs;
      Ok (b :: bs, self)
  end.

End EarlyStopping.

(** ** Python values and the [hyps] dictionary *)

#[local] Set Warnings "-register-all".

(** The values a hyperparameter takes.  A float literal is kept as its
    [repr], which is all the sweep engine does with it; a set is kept as the
    list of its elements. *)
Inductive value : Type :=
| VNone
| VBool (b : bool)
| VInt (z : Z)
| VFloat (repr : string)
| VStr (s : string)
| VList (l : list value)
| VSet (l : list value).

(** [repr(v)], for strings without quotes or escapes. *)
Fixpoint py_repr (v : value) : string :=
  match v with
  | VNone => "None"
  | VBool true => "True"
  | VBool false => "False"
  | VInt z => pretty z
  | VFloat r => r
  | VStr s => "'" +:+ s +:+ "'"
  | VList l => "[" +:+ String.concat ", " (map py_repr l) +:+ "]"
  | VSet [] => "set()"
  | VSet l => "{" +:+ String.concat ", " (map py_repr l) +:+ "}"
  end.

(** [str(v)] *)
Definition py_str (v : value) : string :=
  match v with
  | VStr s => s
  | _ => py_repr v
  end.

(** Truth value of [v] in an [if] or under [and], [or], [not]. *)
Definition truthy (v : value) : bool :=
  match v with
  | VNone => false
  | VBool b => b
  | VInt z => negb (z =? 0)
  | VFloat r => negb (String.eqb r "0.0" || String.eqb r "-0.0")
  | VStr s => negb (String.eqb s "")
  | VList l | VSet l => match l with [] => false | _ => true end
  end.

(** [v is None] *)
Definition is_None (v : value) : bool :=
  match v with VNone => true | _ => false end.

(** An [int] operand; [bool] is a subclass of [int]. *)
Definition as_int (v : value) : outcome Z :=
  match v with
  | VInt z => Ok z
  | VBool b => Ok (Z.b2z b)
  | _ => Raise TypeError
  end.

Abbreviation hyps := (gmap string value).

(** [d[key]] *)
Definition getitem {V : Type} (d : gmap string V) (key : string) : outcome V :=
  match d !! key with
  | Some v => Ok v
  | None => Raise (KeyError key)
  end.

(** [utils.try_key] *)
Definition try_key (dict_ : hyps) (key : string) (default : value) : value :=
  match dict_ !! key with
  | Some v => v
  | None => default
  end.

(** [hyps[key] = utils.try_key(hyps, key, default)] *)
Definition ensure (key : string) (default : value) (h : hyps) : hyps :=
  <[key := try_key h key default]> h.

(** ** The sweep engine: [fill_hyper_q] *)

Section SweepEngine.

(** [tdrio.load_checkpoint] is not part of this module; the sweep engine only
    uses [str(cp['exp_name'])+str(cp['exp_num'])] of the checkpoint stored at
    a path. *)
Variable checkpoint_tag : string -> outcome string.

(** The block under "Ensure necessary hyps are present". *)
Definition ensure_hyps (h : hyps) : outcome hyps :=
  let h := ensure "n_repeats" (VInt 1) h in
  let h := ensure "prune" (VBool false) h in
  let h := ensure "altn_layers" (VBool false) h in
  let h := ensure "abssum" (VBool false) h in
  let h := ensure "prune_layers" (VList []) h in
  let h := ensure "prune_intvl" VNone h in
  let h := ensure "prune_tolerance" (VFloat "0.01") h in
  intvl ← getitem h "prune_intvl";
  h ← (if is_None intvl then
         n ← getitem h "n_epochs"; Ok (<["prune_intvl" := n]> h)
       else Ok h);
  let h := ensure "alpha_steps" (VInt 5) h in
  let h := ensure "intg_bsize" (VInt 500) h in
  let h := ensure "scheduler" (VStr "ReduceLROnPlateau") h in
  let h := ensure "scheduler_thresh" (VFloat "0.01") h in
  let h := ensure "scheduler_patience" (VInt 10) h in
  let h := ensure "scheduler_scale" (VFloat "0.5") h in
  let h := ensure "cross_val" (VBool false) h in
  let h := ensure "cross_val_idx" (VInt 0) h in
  let h := ensure "n_cv_folds" (VInt 10) h in
  Ok h.

(** [hyps['search_keys'] += "_" + str(k) + v] *)
Definition append_search_key (k v : string) (h : hyps) : outcome hyps :=
  sk ← getitem h "search_keys";
  match sk with
  | VStr s => Ok (<["search_keys" := VStr (s +:+ "_" +:+ k +:+ v)]> h)
  | _ => Raise TypeError
  end.

(** The loop [for k in keys] that builds the search key. *)
Fixpoint build_search_keys (keys : list string) (h : hyps) : outcome hyps :=
  match keys with
  | [] => Ok h
  | k :: keys =>
      x ← getitem h k;
      v ← (if String.eqb k "startpt" && negb (is_None x)
           then checkpoint_tag (py_str x)
           else Ok (py_str x));
      h ← append_search_key k v h;
      build_search_keys keys h
  end.

(** The loop [for i in range(hyps['n_repeats'])]: every round rebuilds the
    search key and puts a copy of the dictionary on the queue. *)
Fixpoint load_q (rounds : nat) (keys : list string) (h : hyps) (hyper_q : list hyps)
  : outcome (hyps * list hyps) :=
  match rounds with
  | O => Ok (h, hyper_q)
  | S rounds =>
      h ← build_search_keys keys (<["search_keys" := VStr ""]> h);
      load_q rounds keys h (hyper_q ++ [h])
  end.

(** The base call, [idx >= len(keys)]. *)
Definition fill_base (keys : list string) (h : hyps) (hyper_q : list hyps)
  : outcome (hyps * list hyps) :=
  h ← ensure_hyps h;
  n ← getitem h "n_repeats";
  n ← as_int n;
  load_q (Z.to_nat n) keys h hyper_q.

(** The loop [for param in hyp_ranges[key]] of the non-base call; [body] is
    the recursive call at [idx+1]. *)
Fixpoint for_params (body : hyps -> list hyps -> outcome (hyps * list hyps))
    (key : string) (params : list value) (h : hyps) (hyper_q : list hyps)
  : outcome (hyps * list hyps) :=
  match params with
  | [] => Ok (h, hyper_q)
  | param :: params =>
      '(h, hyper_q) ← body (<[key := param]> h) hyper_q;
      for_params body key params h hyper_q
  end.

(** The recursion, on the keys from position [idx] on.  The dictionary is
    shared by all the calls: each returns it as it left it. *)
Fixpoint fill_from (hyp_ranges : gmap string (list value)) (keys rest : list string)
    (h : hyps) (hyper_q : list hyps) {struct rest} : outcome (hyps * list hyps) :=
  match rest with
  | [] => fill_base keys h hyper_q
  | key :: rest =>
      params ← getitem hyp_ranges key;
      for_params (fill_from hyp_ranges keys rest) key params h hyper_q
  end.

Definition fill_hyper_q (h : hyps) (hyp_ranges : gmap string (list value))
    (keys : list string) (hyper_q : list hyps) (idx : nat)
  : outcome (hyps * list hyps) :=
  fill_from hyp_ranges keys (drop idx keys) h hyper_q.

End SweepEngine.

(** ** The optimisation objects: [get_optim_objs] *)

(** [v == s] for a string literal [s]. *)
Definition eq_str (v : value) (s : string) : bool :=
  match v with
  | VStr s' => String.eqb s' s
  | _ => false
  end.

(** [torch.optim.Adam(model.parameters(), lr=..., weight_decay=...)] *)
Record optimizer_obj : Type := Adam {
  adam_lr : value;
  adam_weight_decay : value
}.

(** The three schedulers the function can build. *)
Inductive scheduler_obj : Type :=
| ReduceLROnPlateau (mode : string) (factor patience threshold : value)
| MultiStepLR (milestones : value) (gamma : string)
| NullScheduler.

Section OptimObjs.

(** The names bound in the module's namespace, [globals()], and the object
    that calling the one bound to [name] returns, with the keyword argument
    [log_input] when it is given. *)
Variable module_globals : gset string.
Variable loss_fn_obj : Type.
Variable call_global : string -> option value -> outcome loss_fn_obj.

(** The constructors of torch check their arguments and raise on those they
    do not accept: [torch.optim.Adam] on the learning rate and the weight
    decay (a negative one is a [ValueError], one that is no number a
    [TypeError]), [ReduceLROnPlateau] on the factor, the patience and the
    threshold, [MultiStepLR] on the milestones.  What they accept is torch's
    matter; the three names are bound by the imports of the module. *)
Variable check_Adam : value -> value -> outcome ().
Variable check_ReduceLROnPlateau : value -> value -> value -> outcome ().
Variable check_MultiStepLR : value -> outcome ().

(** [globals()[v](...)]: a key that is not a string bound in the module is a
    [KeyError]; a list or a set is not hashable. *)
Definition globals_call (v : value) (log_input : option value) : outcome loss_fn_obj :=
  match v with
  | VStr name =>
      if decide (name ∈ module_globals) then call_global name log_input
      else Raise (KeyError name)
  | VList _ | VSet _ => Raise TypeError
  | _ => Raise (KeyError (py_repr v))
  end.

Definition get_optim_objs (h : hyps)
  : outcome (hyps * (optimizer_obj * scheduler_obj * loss_fn_obj)) :=
  let h := match h !! "lossfxn" with
           | None => <["lossfxn" := VStr "PoissonNLLLoss"]> h
           | Some _ => h
           end in
  lossfxn ← getitem h "lossfxn";
  loss_fn ← (if eq_str lossfxn "PoissonNLLLoss" && bool_decide (is_Some (h !! "log_poisson"))
             then log_p ← getitem h "log_poisson"; globals_call lossfxn (Some log_p)
             else globals_call lossfxn None);
  lr ← getitem h "lr";
  l2 ← getitem h "l2";
  _ ← check_Adam lr l2;
  let optimizer := Adam lr l2 in
  scheduler ← getitem h "scheduler";
  if eq_str scheduler "ReduceLROnPlateau" then
    factor ← getitem h "scheduler_scale";
    patience ← getitem h "scheduler_patience";
    threshold ← getitem h "scheduler_thresh";
    _ ← check_ReduceLROnPlateau factor patience threshold;
    Ok (h, (optimizer, ReduceLROnPlateau "min" factor patience threshold, loss_fn))
  else if eq_str scheduler "MultiStepLR" then
    let milestones := try_key h "scheduler_milestones" (VList [VInt 10; VInt 20; VInt 30]) in
    _ ← check_MultiStepLR milestones;
    Ok (h, (optimizer, MultiStepLR milestones "0.1", loss_fn))
  else
    Ok (<["scheduler" := VStr "NullScheduler"]> h, (optimizer, NullScheduler, loss_fn)).

End OptimObjs.

(** ** The collaborators of the epoch loops

    The model, the optimiser, the scheduler and the data distributor live in
    one abstract [world]; the loops only call the operations below, in the
    order of the source. *)

Abbreviation zdict := (gmap string (gset Z)).

(** The keyword arguments threaded through [tdrprune.prune_channels]. *)
Record prune_dict (model_state : Type) `{PyFloat} : Type := mkPruneDict {
  pd_zero_dict : zdict;
  pd_prev_state_dict : option model_state;
  pd_cur_chan : Z;
  pd_cur_layer : option string;
  pd_prev_acc : float;
  pd_prev_lr : value;
  pd_min_acc : value
}.
Arguments mkPruneDict {model_state _}.
Arguments pd_zero_dict {model_state _}.
Arguments pd_prev_acc {model_state _}.
Arguments pd_prev_lr {model_state _}.

Class Collaborators `{PyFloat} : Type := {
  world : Type;
  batch : Type;
  outputs : Type;
  model_state : Type;
  optim_state : Type;
  (** [data_distr.n_loops] and [data_distr.val_shape[0]] *)
  n_loops : world -> Z;
  val_shape0 : world -> Z;
  (** [data_distr.train_sample()], the batches of one epoch *)
  train_sample : world -> list batch * world;
  (** [next(data_distr.train_sample(batch_size=bsize))] *)
  intg_sample : value -> world -> option batch * world;
  (** [data_distr.val_sample(step_size)] *)
  val_sample : Z -> world -> list batch;
  (** the calls to torch of one optimisation step: [zero_grad] and
      [static_eval], the penalty on the outputs with the coefficient
      [hyps['l1']] when there is one, [backward] and [optimizer.step]; gives
      [loss.item()] *)
  train_step : option value -> batch -> world -> float * world;
  (** the same step of [retinotopic_loop]: after the coefficient of the
      penalty, the scale of the one-hot loss and the coefficient of its
      penalty, each when it is positive *)
  retinotopic_step : option value -> option value -> option value -> batch -> world ->
                     float * world;
  (** [tdrprune.zero_chans(model, zero_dict, zero_bias)] *)
  zero_chans : zdict -> value -> world -> world;
  (** [model(val_x)] and [loss_fn(outs, val_y).item()] *)
  val_eval : batch -> world -> outputs * float;
  (** [(hyps['l1'] * torch.norm(outs, 1).float() / n).item()] *)
  val_l1 : value -> outputs -> float;
  (** [np.mean(utils.pearsonr(val_preds, val_targs))] *)
  mean_pearson : list outputs -> list batch -> float;
  (** [scheduler.step(val_acc)] and [scheduler.step()] *)
  scheduler_step : option float -> world -> world;
  (** [isinstance(scheduler, NullScheduler)] *)
  scheduler_is_null : world -> bool;
  (** the average test correlation, [None] when [test_data is None] *)
  test_pearson : world -> option float;
  (** [next(iter(optimizer.param_groups))['lr']] *)
  get_lr : world -> value;
  (** [for param_group in optimizer.param_groups: param_group['lr'] = lr] *)
  set_lr : value -> world -> world;
  model_state_dict : world -> model_state;
  optim_state_dict : world -> optim_state;
  load_model_state : model_state -> world -> world;
  load_optim_state : optim_state -> world -> world;
  (** [utils.get_conv_layer_names(model)] *)
  conv_layer_names : world -> list string;
  (** [tdrprune.prune_channels]: gives the new keyword dictionary and leaves
      its marks on [hyps] (the open layers) and on the model *)
  prune_channels : hyps -> batch -> float -> value -> prune_dict model_state ->
                   world -> prune_dict model_state * hyps * world;
  (** the lines of a run that number the experiment, seed the generators,
      load the data, build the model, the distributor and the optimisation
      objects and record the session.  They write to [hyps] as they go
      ([exp_num], [save_folder], ...), so the dictionary comes back as they
      left it also when one of them raises *)
  setup_run : hyps -> hyps * outcome world;
  (** [zero_dict] and [hyps['zero_bias']] of the checkpoint at a path, where
      it has them *)
  startpt_checkpoint : value -> option zdict * option value;
  (** [int(time.time())] *)
  clock : Z
}.

(** ** Results that keep the heap

    An exception leaves the objects the caller still holds, the [Trainer] and
    the [hyps] dictionary, as they were when it was raised. *)

Section Flow.
Context `{PyFloat}.

Inductive flow (A : Type) : Type :=
| Normal (a : A)
| Throw (e : exn) (self : Trainer) (h : hyps).

End Flow.
Arguments Normal {_ A} a.
Arguments Throw {_ A} e self h.

#[export] Instance flow_bind `{PyFloat} : MBind flow := fun A B k m =>
  match m with
  | Normal a => k a
  | Throw e self h => Throw e self h
  end.

(** A statement that may raise, run while the heap is [(self, h)]. *)
Definition at_heap `{PyFloat} {A : Type} (self : Trainer) (h : hyps) (m : outcome A)
  : flow A :=
  match m with
  | Ok a => Normal a
  | Raise e => Throw e self h
  end.

(** [len(v)] *)
Definition py_len (v : value) : outcome Z :=
  match v with
  | VList l | VSet l => Ok (Z.of_nat (length l))
  | VStr s => Ok (Z.of_nat (String.length s))
  | _ => Raise TypeError
  end.

(** [v > 0] for a number; a float is positive when its [repr] is neither
    signed, nor zero, nor [nan]. *)
Definition gt_zero (v : value) : outcome bool :=
  match v with
  | VInt z => Ok (0 <? z)
  | VBool b => Ok b
  | VFloat r => Ok (negb (String.prefix "-" r || String.eqb r "0.0" || String.eqb r "nan"))
  | _ => Raise TypeError
  end.

(** [v <= 0] for a number; a float is at most zero when its [repr] is
    signed or zero. *)
Definition le_zero (v : value) : outcome bool :=
  match v with
  | VInt z => Ok (z <=? 0)
  | VBool b => Ok (negb b)
  | VFloat r => Ok (String.prefix "-" r || String.eqb r "0.0")
  | _ => Raise TypeError
  end.

(** [a % b] on ints; the sign follows the divisor, as [Z.modulo] has it. *)
Definition py_mod (a b : Z) : outcome Z :=
  if b =? 0 then Raise ZeroDivisionError else Ok (a `mod` b).

(** ** [Trainer.train_loop] *)

Section TrainLoop.
Context `{Collaborators}.

(** [if 'gauss_reg' in hyps and hyps['gauss_reg'] > 0:]; the body reads
    [hyps['gauss_loss_coef']] and then the name [gauss_reg], which neither
    [train_loop] nor the module binds. *)
Definition gauss_penalty (h : hyps) : outcome () :=
  match h !! "gauss_reg" with
  | None => Ok ()
  | Some g =>
      positive ← gt_zero g;
      if positive : bool then
        _ ← getitem h "gauss_loss_coef";
        Raise (NameError "gauss_reg")
      else Ok ()
  end.

(** The coefficient of the penalty on the outputs: [hyps['l1']], unless it
    is zero or less. *)
Definition l1_coef (l1 : value) (nonpositive : bool) : option value :=
  if nonpositive then None else Some l1.

(** The train loop of an epoch.  [i] is the index [enumerate] gives; every
    batch reads [hyps['l1']] and looks for [gauss_reg], and the loss is
    accumulated before the two tests that leave the loop. *)
Fixpoint train_batches (h : hyps) (zero_dict : zdict) (zero_bias : value)
    (i : Z) (batches : list batch) (epoch_loss : float) (w : world)
  : outcome (float * world) :=
  match batches with
  | [] => Ok (epoch_loss, w)
  | b :: batches =>
      (* Error Evaluation *)
      l1 ← getitem h "l1";
      nonpositive ← le_zero l1;
      _ ← gauss_penalty h;
      (* Backwards Pass *)
      let '(loss, w) := train_step (l1_coef l1 nonpositive) b w in
      let w := zero_chans zero_dict zero_bias w in
      let epoch_loss := fadd epoch_loss loss in
      if nonfinite epoch_loss then Ok (epoch_loss, w)
      else
        exp_name ← getitem h "exp_name";
        if eq_str exp_name "test" && (i >=? 5) then Ok (epoch_loss, w)
        else train_batches h zero_dict zero_bias (i + 1) batches epoch_loss w
  end.

(** The loop of [validate_static]. *)
Fixpoint validate_batches (h : hyps) (w : world) (i : Z) (batches : list batch)
    (val_loss : float) (val_preds : list outputs) (val_targs : list batch)
  : outcome (float * list outputs * list batch) :=
  match batches with
  | [] => Ok (val_loss, val_preds, val_targs)
  | b :: batches =>
      let '(outs, loss) := val_eval b w in
      let val_preds := (val_preds ++ [outs])%list in
      let val_targs := (val_targs ++ [b])%list in
      let val_loss := fadd val_loss loss in
      l1 ← getitem h "l1";
      positive ← gt_zero l1;
      let val_loss := if positive : bool then fadd val_loss (val_l1 l1 outs) else val_loss in
      exp_name ← getitem h "exp_name";
      if eq_str exp_name "test" && (i >=? 3) then Ok (val_loss, val_preds, val_targs)
      else validate_batches h w (i + 1) batches val_loss val_preds val_targs
  end.

Definition validate_static (h : hyps) (w : world) (step_size : Z)
  : outcome (float * list outputs * list batch) :=
  validate_batches h w 0 (val_sample step_size w) (of_int 0) [] [].

(** The dictionary handed to [tdrio.save_checkpoint].  The keys of [hyps]
    that the loop copies into it afterwards are those of [sd_hyps]. *)
Record save_dict : Type := mkSaveDict {
  sd_model_state_dict : model_state;
  sd_optim_state_dict : optim_state;
  sd_hyps : hyps;
  sd_loss : float;
  sd_epoch : Z;
  sd_val_loss : float;
  sd_val_acc : float;
  sd_test_pearson : float;
  sd_zero_dict : option zdict;
  sd_cur_lr : option value
}.

(** ['save_every_epoch' in hyps and not hyps['save_every_epoch']] *)
Definition del_prev (h : hyps) : bool :=
  match h !! "save_every_epoch" with
  | Some v => negb (truthy v)
  | None => false
  end.

(** [og_state_dict = model.state_dict()] is taken before the loop and never
    copied: the dictionary holds the tensors of the model themselves, which
    every optimisation step and every zeroing of channels updates in place.
    Whenever it is read it shows the parameters as they are at that moment,
    not as they were when it was taken. *)
Definition og_state_dict (w : world) : model_state := model_state_dict w.

(** The locals of a fold that the epoch loop reads and never assigns.
    [optimizer.state_dict()] builds a new dictionary when it is called. *)
Record loop_env : Type := mkLoopEnv {
  og_optim_dict : optim_state;
  reset_sd : value;
  reset_lr : bool;
  min_prune_acc : value
}.

(** The four numbers an epoch leaves behind. *)
Record epoch_stats : Type := mkStats {
  avg_loss : float;
  val_loss : float;
  val_acc : float;
  avg_pearson : float
}.

(** The heap and the locals the epoch loop assigns.  A local that is not
    bound yet is [None]; [ckpts] lists the calls of [save_checkpoint], each
    with its [del_prev]. *)
Record loop_state : Type := mkLoop {
  ls_self : Trainer;
  ls_hyps : hyps;
  ls_world : world;
  ls_ckpts : list (save_dict * bool);
  ls_epoch : Z;
  ls_n_epochs : Z;
  ls_hyps_prune : value;
  ls_stop_training : bool;
  ls_zero_dict : zdict;
  ls_zero_bias : value;
  ls_prune_dict : option (prune_dict model_state);
  ls_cur_lr : option value;
  ls_stats : option epoch_stats
}.

(** A local read before it is bound. *)
Definition bound {A : Type} (name : string) (x : option A) : outcome A :=
  match x with
  | Some a => Ok a
  | None => Raise (UnboundLocalError name)
  end.

(** The block under "Integrated Gradient Pruning", entered when
    [prune and intvl].  [s] holds the locals as the validation left them. *)
Definition prune_block (env : loop_env) (s : loop_state) (prune_intvl : Z)
    (val_acc : float) : flow (float * loop_state) :=
  let self := ls_self s in
  let h := ls_hyps s in
  let epoch := ls_epoch s in
  let n_epochs := ls_n_epochs s in
  '(prune_dict, val_acc) ←
    (if epoch <=? n_epochs + prune_intvl then
       cur_lr ← at_heap self h (bound "cur_lr" (ls_cur_lr s));
       let prune_dict :=
         mkPruneDict (ls_zero_dict s) None (-1) None (of_int (-1)) cur_lr
                     (min_prune_acc env) in
       exp_name ← at_heap self h (getitem h "exp_name");
       Normal (Some prune_dict, if eq_str exp_name "test" then of_int 0 else val_acc)
     else Normal (ls_prune_dict s, val_acc));
  let cur_lr := get_lr (ls_world s) in
  bsize ← at_heap self h (getitem h "intg_bsize");
  let '(sample, w) := intg_sample bsize (ls_world s) in
  data_sample ← at_heap self h
    (match sample with Some b => Ok b | None => Raise StopIteration end);
  prune_dict ← at_heap self h (bound "prune_dict" prune_dict);
  let '(prune_dict, h, w) := prune_channels h data_sample val_acc cur_lr prune_dict w in
  open_layers ← at_heap self h (getitem h "open_layers");
  n_open ← at_heap self h (py_len open_layers);
  let stop_training := n_open =? 0 in
  w ← (if truthy (reset_sd env) then
         let w := load_model_state (og_state_dict w) w in
         let w := load_optim_state (og_optim_dict env) w in
         lr ← at_heap self h (getitem h "lr");
         Normal (set_lr lr w)
       else Normal (set_lr (pd_prev_lr prune_dict) w));
  w ← (if reset_lr env && negb (feqb (pd_prev_acc prune_dict) val_acc) then
         lr ← at_heap self h (getitem h "lr");
         Normal (set_lr lr w)
       else Normal w);
  let zero_dict := pd_zero_dict prune_dict in
  let zero_bias := try_key h "zero_bias" (VBool true) in
  let w := zero_chans zero_dict zero_bias w in
  '(stop_training, hyps_prune, n_epochs) ←
    (if stop_training && truthy (reset_sd env) then
       n ← at_heap self h (getitem h "n_epochs" ≫= as_int);
       Normal (false, VBool false, n + epoch)
     else Normal (stop_training, ls_hyps_prune s, n_epochs));
  Normal (val_acc,
          mkLoop self h w (ls_ckpts s) epoch n_epochs hyps_prune stop_training
                 zero_dict zero_bias (Some prune_dict) (Some cur_lr) (ls_stats s)).

(** The train phase of an epoch: the train loop, the average loss and the
    deletion of the batch variables. *)
Definition train_phase (s : loop_state) : flow (float * world) :=
  let self := ls_self s in
  let h := ls_hyps s in
  let n_loops_train := n_loops (ls_world s) in
  let '(batches, w) := train_sample (ls_world s) in
  '(epoch_loss, w) ← at_heap self h
    (train_batches h (ls_zero_dict s) (ls_zero_bias s) 0 batches (of_int 0) w);
  avg_loss ← at_heap self h (py_truediv epoch_loss n_loops_train);
  _ ← at_heap self h
    (match batches with [] => Raise (UnboundLocalError "x") | _ => Ok () end);
  Normal (avg_loss, w).

(** The validation phase: the validation loss and accuracy, the verdict of
    the early-stopping monitor and the step of the scheduler. *)
Definition validation_phase (self : Trainer) (h : hyps) (w : world)
  : flow (float * float * bool * Trainer * world) :=
  let step_size := if truthy (try_key h "self_attn" (VBool false)) then 128 else 500 in
  let n_loops_val := val_shape0 w `div` step_size in
  '(val_loss, val_preds, val_targs) ← at_heap self h (validate_static h w step_size);
  val_loss ← at_heap self h (py_truediv val_loss n_loops_val);
  _ ← at_heap self h
    (match val_preds with [] => Raise ValueError | _ => Ok () end);
  let val_acc := mean_pearson val_preds val_targs in
  '(stop, self) ← at_heap self h (stop_early self val_acc);
  let w := scheduler_step (Some val_acc) w in
  Normal (val_loss, val_acc, stop, self, w).

(** The locals after the validation of the epoch that follows [s]: the epoch
    counter has moved on and [stop_training] has been assigned at the top of
    the round. *)
Definition after_validation (s : loop_state) (self : Trainer) (w : world) : loop_state :=
  let epoch := ls_epoch s + 1 in
  let stop_training := (epoch >=? ls_n_epochs s) && negb (truthy (ls_hyps_prune s)) in
  mkLoop self (ls_hyps s) w (ls_ckpts s) epoch (ls_n_epochs s) (ls_hyps_prune s)
         stop_training (ls_zero_dict s) (ls_zero_bias s)
         (ls_prune_dict s) (ls_cur_lr s) (ls_stats s).

(** The pruning phase of an epoch, from the decision whether to prune down
    to the test that guards the printing of the zeroed channels. *)
Definition pruning_phase (env : loop_env) (s : loop_state) (val_acc : float)
  : flow (float * loop_state) :=
  let self := ls_self s in
  let h := ls_hyps s in
  let prune := truthy (ls_hyps_prune s) && (ls_epoch s >=? ls_n_epochs s - 1) in
  prune_intvl ← at_heap self h (getitem h "prune_intvl" ≫= as_int);
  r ← at_heap self h (py_mod (ls_epoch s - ls_n_epochs s) prune_intvl);
  let intvl := r =? 0 in
  '(val_acc, s) ←
    (if prune && intvl then prune_block env s prune_intvl val_acc
     else Normal (val_acc, s));
  (* Print Epoch Stats *)
  _ ← (if prune || truthy (ls_hyps_prune s) then Normal ()
       else at_heap (ls_self s) (ls_hyps s) (getitem (ls_hyps s) "prune" ≫= λ _, Ok ()));
  Normal (val_acc, s).

(** The end-of-epoch checkpoint: the dictionary that is saved. *)
Definition checkpoint (s : loop_state) (stats : epoch_stats) : save_dict :=
  mkSaveDict (model_state_dict (ls_world s)) (optim_state_dict (ls_world s))
             (ls_hyps s) (avg_loss stats) (ls_epoch s) (val_loss stats)
             (val_acc stats) (avg_pearson stats)
             (Some (ls_zero_dict s)) (Some (get_lr (ls_world s))).

(** The lines under "Final Model Snapshot": [cur_lr] is assigned and the
    checkpoint is saved. *)
Definition snapshot (s : loop_state) (stats : epoch_stats) : loop_state :=
  mkLoop (ls_self s) (ls_hyps s) (ls_world s)
         (ls_ckpts s ++ [(checkpoint s stats, del_prev (ls_hyps s))])
         (ls_epoch s) (ls_n_epochs s) (ls_hyps_prune s) (ls_stop_training s)
         (ls_zero_dict s) (ls_zero_bias s) (ls_prune_dict s)
         (Some (get_lr (ls_world s))) (Some stats).

(** One round of [while not stop_training]; the boolean tells whether the
    round ended on the [break] of its last line. *)
Definition iteration (env : loop_env) (s : loop_state) : flow (bool * loop_state) :=
  (* Train Loop *)
  '(avg_loss, w) ← train_phase s;
  (* Validation *)
  '(val_loss, val_acc, stop, self, w) ← validation_phase (ls_self s) (ls_hyps s) w;
  let avg_pearson := default (of_int 0) (test_pearson w) in
  (* Integrated Gradient Pruning, Print Epoch Stats *)
  '(val_acc, s) ← pruning_phase env (after_validation s self w) val_acc;
  (* Final Model Snapshot *)
  let s := snapshot s (mkStats avg_loss val_loss val_acc avg_pearson) in
  (* If loss is nan, training is futile *)
  Normal (nonfinite avg_loss || stop, s).

(** [while not stop_training: ...], with a bound on the number of rounds;
    [None] when the bound is reached. *)
Fixpoint epoch_loop (fuel : nat) (env : loop_env) (s : loop_state)
  : option (flow loop_state) :=
  match fuel with
  | O => None
  | S fuel =>
      if ls_stop_training s then Some (Normal s)
      else
        match iteration env s with
        | Throw e self h => Some (Throw e self h)
        | Normal (true, s) => Some (Normal s)
        | Normal (false, s) => epoch_loop fuel env s
        end
  end.

(** The dictionary a run returns; the layers of [zero_dict] are merged into
    it by [train_loop] only. *)
Record results : Type := mkResults {
  res_save_folder : value;
  res_Loss : float;
  res_ValAcc : float;
  res_ValLoss : float;
  res_TestPearson : float;
  res_zero_dict : option zdict
}.

(** The names in [hyps['prune_layers']], a list of strings; the model covers
    no other value of the option. *)
Definition layer_names (v : value) : outcome (list string) :=
  match v with
  | VList l =>
      foldr (λ x acc, names ← acc;
                      match x with
                      | VStr name => Ok (name :: names)
                      | _ => Raise TypeError
                      end) (Ok []) l
  | _ => Raise TypeError
  end.

(** [v == []] *)
Definition eq_nil (v : value) : bool :=
  match v with VList [] => true | _ => false end.

(** The lines of a fold from the two state dictionaries down to
    [epoch = -1]; [og_state_dict] needs no local, see above.  The epoch
    budget is an integer; the model covers no other. *)
Definition init_fold (self : Trainer) (h : hyps) (w : world)
    (ckpts : list (save_dict * bool)) : flow (loop_env * loop_state) :=
  let og_optim := optim_state_dict w in
  exp_name ← at_heap self h (getitem h "exp_name");
  let h := if eq_str exp_name "test"
           then <["prune_intvl" := VInt 2]> (<["n_epochs" := VInt 2]> h) else h in
  prune_layers ← at_heap self h (getitem h "prune_layers");
  let h := if eq_str prune_layers "all" || eq_nil prune_layers then
             let layers := VStr <$> removelast (conv_layer_names w) in
             <["open_layers" := VSet layers]> (<["prune_layers" := VList layers]> h)
           else h in
  let hyps_prune := try_key h "prune" (VBool false) in
  let reset_sd := try_key h "reset_sd" (VBool false) in
  let min_prune_acc := try_key h "min_prune_acc" (VInt 0) in
  let min_prune_acc := if is_None min_prune_acc then VInt 0 else min_prune_acc in
  let reset_lr := truthy (try_key h "reset_lr" (VBool false)) && negb (scheduler_is_null w) in
  n_epochs ← at_heap self h (getitem h "n_epochs");
  n_epochs ← (if truthy hyps_prune && truthy reset_sd
              then at_heap self h (getitem h "prune_intvl") else Normal n_epochs);
  n_epochs ← at_heap self h (as_int n_epochs);
  prune_layers ← at_heap self h (getitem h "prune_layers" ≫= layer_names);
  let zero_dict : zdict := list_to_map ((λ d, (d, ∅)) <$> prune_layers) in
  let zero_bias := try_key h "zero_bias" (VBool true) in
  let '(zero_dict, h) :=
    match h !! "startpt" with
    | Some path =>
        if is_None path then (zero_dict, h)
        else
          let '(zd, zb) := startpt_checkpoint path in
          (default zero_dict zd,
           match zb with Some b => <["zero_bias" := b]> h | None => h end)
    | None => (zero_dict, h)
    end in
  Normal (mkLoopEnv og_optim reset_sd reset_lr min_prune_acc,
          mkLoop self h w ckpts (-1) n_epochs hyps_prune false zero_dict zero_bias
                 None None None).

(** The "Final save" of a fold. *)
Definition final_save (s : loop_state) : flow (results * loop_state) :=
  let self := ls_self s in
  let h := ls_hyps s in
  save_folder ← at_heap self h (getitem h "save_folder");
  stats ← at_heap self h (bound "avg_loss" (ls_stats s));
  _ ← at_heap self h (getitem h "prune");
  Normal (mkResults save_folder (avg_loss stats) (val_acc stats) (val_loss stats)
                    (avg_pearson stats) (Some (ls_zero_dict s)), s).

(** One fold: set up, initialise, loop, save. *)
Definition run_fold (fuel : nat) (self : Trainer) (h : hyps)
    (ckpts : list (save_dict * bool)) : option (flow (results * loop_state)) :=
  let '(h, set_up) := setup_run h in
  match at_heap self h set_up with
  | Throw e self h => Some (Throw e self h)
  | Normal w =>
      match init_fold self h w ckpts with
      | Throw e self h => Some (Throw e self h)
      | Normal (env, s) =>
          match epoch_loop fuel env s with
          | None => None
          | Some (Throw e self h) => Some (Throw e self h)
          | Some (Normal s) => Some (final_save s)
          end
      end
  end.

(** [for cv_idx in cross_val_range] *)
Fixpoint cv_folds (fuel : nat) (cross_val_range : list Z) (self : Trainer) (h : hyps)
    (ckpts : list (save_dict * bool)) (res : option results)
  : option (flow (option results * Trainer * hyps * list (save_dict * bool))) :=
  match cross_val_range with
  | [] => Some (Normal (res, self, h, ckpts))
  | cv_idx :: cross_val_range =>
      match run_fold fuel self (<["cross_val_idx" := VInt cv_idx]> h) ckpts with
      | None => None
      | Some (Throw e self h) => Some (Throw e self h)
      | Some (Normal (r, s)) =>
          cv_folds fuel cross_val_range (ls_self s) (ls_hyps s) (ls_ckpts s) (Some r)
      end
  end.

(** The fold range of [train_loop]. *)
Definition cross_val_range (h : hyps) : outcome (list Z) :=
  cross_val ← getitem h "cross_val";
  if truthy cross_val then
    n ← getitem h "n_cv_folds" ≫= as_int;
    Ok (seqZ 0 n)
  else
    idx ← getitem h "cross_val_idx";
    idx ← (if is_None idx then Ok 0 else as_int idx);
    n ← getitem h "n_cv_folds" ≫= as_int;
    Ok [Z.min (n - 1) idx].

Definition train_loop (fuel : nat) (self : Trainer) (h : hyps)
    (ckpts : list (save_dict * bool))
  : option (flow (results * Trainer * hyps * list (save_dict * bool))) :=
  match at_heap self h (getitem h "batch_size") with
  | Throw e self h => Some (Throw e self h)
  | Normal _ =>
      let seed := try_key h "seed" VNone in
      let h := <["seed" := if is_None seed then VInt clock else seed]> h in
      match at_heap self h (cross_val_range h) with
      | Throw e self h => Some (Throw e self h)
      | Normal range =>
          match cv_folds fuel range self h ckpts None with
          | None => None
          | Some (Throw e self h) => Some (Throw e self h)
          | Some (Normal (res, self, h, ckpts)) =>
              Some (r ← at_heap self h (bound "results" res); Normal (r, self, h, ckpts))
          end
      end
  end.

End TrainLoop.

(** ** [Trainer.retinotopic_loop] *)

Section RetinotopicLoop.
Context `{Collaborators}.

(** An option that counts only when it is positive. *)
Definition when_positive (v : value) : outcome (option value) :=
  positive ← gt_zero v;
  Ok (if positive : bool then Some v else None).

(** Its train loop: every batch reads [hyps['l1']], the scale of the one-hot
    loss and the coefficient of its penalty; in a test run the loop leaves
    after the first batch. *)
Fixpoint retinotopic_batches (h : hyps) (batches : list batch) (epoch_loss : float)
    (w : world) : outcome (float * world) :=
  match batches with
  | [] => Ok (epoch_loss, w)
  | b :: batches =>
      (* Error Evaluation *)
      l1 ← getitem h "l1";
      nonpositive ← le_zero l1;
      (* One Hot Loss *)
      scale ← when_positive (try_key h "semantic_scale" (VInt 10));
      (* One Hot l1 penalty *)
      semantic_l1 ← when_positive (try_key h "semantic_l1" (VInt 0));
      let '(loss, w) := retinotopic_step (l1_coef l1 nonpositive) scale semantic_l1 b w in
      let epoch_loss := fadd epoch_loss loss in
      if nonfinite epoch_loss then Ok (epoch_loss, w)
      else
        exp_name ← getitem h "exp_name";
        if eq_str exp_name "test" then Ok (epoch_loss, w)
        else retinotopic_batches h batches epoch_loss w
  end.

(** The heap and the locals its epoch loop assigns. *)
Record retino_state : Type := mkRetino {
  rs_self : Trainer;
  rs_hyps : hyps;
  rs_world : world;
  rs_ckpts : list (save_dict * bool);
  rs_epoch : Z;
  rs_stop_training : bool;
  rs_stats : option epoch_stats
}.

Definition retinotopic_iteration (n_epochs : Z) (s : retino_state)
  : flow (bool * retino_state) :=
  let self := rs_self s in
  let h := rs_hyps s in
  let epoch := rs_epoch s + 1 in
  let stop_training := epoch >=? n_epochs in
  let n_loops_train := n_loops (rs_world s) in
  let '(batches, w) := train_sample (rs_world s) in
  '(epoch_loss, w) ← at_heap self h (retinotopic_batches h batches (of_int 0) w);
  avg_loss ← at_heap self h (py_truediv epoch_loss n_loops_train);
  _ ← at_heap self h
    (match batches with [] => Raise (UnboundLocalError "one_hot_loss") | _ => Ok () end);
  let n_loops_val := val_shape0 w `div` 500 in
  '(val_loss, val_preds, val_targs) ← at_heap self h (validate_static h w 500);
  val_loss ← at_heap self h (py_truediv val_loss n_loops_val);
  _ ← at_heap self h
    (match val_preds with [] => Raise ValueError | _ => Ok () end);
  let val_acc := mean_pearson val_preds val_targs in
  '(stop, self) ← at_heap self h (stop_early self val_acc);
  scheduler ← at_heap self h (getitem h "scheduler");
  let w := if eq_str scheduler "MultiStepLR" then scheduler_step None w
           else scheduler_step (Some val_acc) w in
  let avg_pearson := default (of_int 0) (test_pearson w) in
  let save := mkSaveDict (model_state_dict w) (optim_state_dict w) h avg_loss epoch
                         val_loss val_acc avg_pearson None None in
  Normal (nonfinite avg_loss || stop,
          mkRetino self h w (rs_ckpts s ++ [(save, del_prev h)]) epoch stop_training
                   (Some (mkStats avg_loss val_loss val_acc avg_pearson))).

Fixpoint retinotopic_epochs (fuel : nat) (n_epochs : Z) (s : retino_state)
  : option (flow retino_state) :=
  match fuel with
  | O => None
  | S fuel =>
      if rs_stop_training s then Some (Normal s)
      else
        match retinotopic_iteration n_epochs s with
        | Throw e self h => Some (Throw e self h)
        | Normal (true, s) => Some (Normal s)
        | Normal (false, s) => retinotopic_epochs fuel n_epochs s
        end
  end.

(** Its "Final save".  The function never binds [zero_dict], and the module
    has no global of that name. *)
Definition retinotopic_final_save (s : retino_state) : flow (results * retino_state) :=
  let self := rs_self s in
  let h := rs_hyps s in
  save_folder ← at_heap self h (getitem h "save_folder");
  stats ← at_heap self h (bound "avg_loss" (rs_stats s));
  let res := mkResults save_folder (avg_loss stats) (val_acc stats) (val_loss stats)
                       (avg_pearson stats) None in
  prune ← at_heap self h (getitem h "prune");
  if truthy prune then Throw (NameError "zero_dict") self h
  else Normal (res, s).

(** The lines before the loop, from the set-up down to [epoch = -1]. *)
Definition retinotopic_init (self : Trainer) (h : hyps)
    (ckpts : list (save_dict * bool)) : flow (Z * retino_state) :=
  _ ← at_heap self h (getitem h "batch_size");
  let '(h, set_up) := setup_run h in
  w ← at_heap self h set_up;
  exp_name ← at_heap self h (getitem h "exp_name");
  let h := if eq_str exp_name "test" then <["n_epochs" := VInt 4]> h else h in
  n_epochs ← at_heap self h (getitem h "n_epochs" ≫= as_int);
  Normal (n_epochs, mkRetino self h w ckpts (-1) false None).

Definition retinotopic_loop (fuel : nat) (self : Trainer) (h : hyps)
    (ckpts : list (save_dict * bool))
  : option (flow (results * Trainer * hyps * list (save_dict * bool))) :=
  match retinotopic_init self h ckpts with
  | Throw e self h => Some (Throw e self h)
  | Normal (n_epochs, s) =>
      match retinotopic_epochs fuel n_epochs s with
      | None => None
      | Some (Throw e self h) => Some (Throw e self h)
      | Some (Normal s) =>
          Some ('(res, s) ← retinotopic_final_save s;
                Normal (res, rs_self s, rs_hyps s, rs_ckpts s))
      end
  end.

End RetinotopicLoop.

(** ** The run entry [Trainer.train] and the sweep runner [hyper_search] *)

Section RunEntry.
Context `{PyFloat}.

(** What a run returns. *)
Variable result : Type.

(** The two training variants: from the [Trainer] and the dictionary to the
    outcome with the two objects as the run left them, or [None] for a run
    that never ends. *)
Definition method : Type :=
  Trainer -> hyps -> option (flow (result * Trainer * hyps)).

Variables (train_loop_method retinotopic_loop_method : method).

(** What [hyper_search] writes for a finished run, and the sweep engine's
    reader of checkpoints. *)
Variable format_results : result -> string.
Variable checkpoint_tag : string -> outcome string.

(** The variant [Trainer.train] chooses for a dictionary. *)
Definition train_method (h : hyps) : method :=
  if truthy (try_key h "retinotopic" (VBool false))
  then retinotopic_loop_method else train_loop_method.

(** [Trainer.train]: the result, [None] after a caught [IndexError], and the
    line it printed, which ends with the message of the exception. *)
Definition train (self : Trainer) (h : hyps)
  : option (flow (option result * Trainer * hyps) * list string) :=
  match train_method h self h with
  | None => None
  | Some (Normal (r, self, h)) => Some (Normal (Some r, self, h), [])
  | Some (Throw (IndexError msg) self h) =>
      Some (Normal (None, self, h), ["Caught Index Error " +:+ msg])
  | Some (Throw e self h) => Some (Throw e self h, [])
  end.

(** The state of the sweep: the trainer, the lines appended to the results
    file after its header and the lines printed by [train] and by the
    [else] of the loop. *)
Record sweep : Type := mkSweep {
  sw_trainer : Trainer;
  sw_results_file : list string;
  sw_stdout : list string
}.

(** [while not hyper_q.empty(): ...] *)
Fixpoint hyper_loop (hyper_q : list hyps) (sw : sweep) : option (flow sweep) :=
  match hyper_q with
  | [] => Some (Normal sw)
  | h :: hyper_q =>
      match train (sw_trainer sw) h with
      | None => None
      | Some (Throw e self h, _) => Some (Throw e self h)
      | Some (Normal (Some r, self, h), out) =>
          hyper_loop hyper_q
            (mkSweep self (sw_results_file sw ++ [format_results r])
                     (sw_stdout sw ++ out))
      | Some (Normal (None, self, h), out) =>
          match at_heap self h
                  (dataset ← getitem h "dataset";
                   cells ← getitem h "cells";
                   Ok ("Skipped " +:+ py_str dataset +:+ " cells " +:+ py_str cells)) with
          | Throw e self h => Some (Throw e self h)
          | Normal line =>
              hyper_loop hyper_q
                (mkSweep self (sw_results_file sw) (sw_stdout sw ++ out ++ [line]))
          end
      end
  end.

(** [hyper_search], from the filling of the queue on.  [hyp_ranges] is the
    dictionary of ranges with its keys in their order. *)
Definition hyper_search (h : hyps) (hyp_ranges : list (string * list value))
    (early_stopping : Z) (stop_tolerance : float) : option (flow sweep) :=
  let trainer := Trainer_init early_stopping stop_tolerance in
  match at_heap trainer h
          (_ ← getitem h "exp_name";
           fill_hyper_q checkpoint_tag h (list_to_map hyp_ranges) (hyp_ranges.*1) [] 0) with
  | Throw e self h => Some (Throw e self h)
  | Normal (_, hyper_q) => hyper_loop hyper_q (mkSweep trainer [] [])
  end.

End RunEntry.

(** The two loops as the methods [train] chooses from; a run starts with no
    checkpoint written. *)
Definition as_method `{Collaborators}
    (loop : Trainer -> hyps -> list (save_dict * bool) ->
            option (flow (results * Trainer * hyps * list (save_dict * bool))))
  : method results :=
  λ self h,
    match loop self h [] with
    | None => None
    | Some (Throw e self h) => Some (Throw e self h)
    | Some (Normal (r, self, h, _)) => Some (Normal (r, self, h))
    end.

Definition Trainer_train `{Collaborators} (fuel : nat) (self : Trainer) (h : hyps)
  : option (flow (option results * Trainer * hyps) * list string) :=
  train results (as_method (train_loop fuel)) (as_method (retinotopic_loop fuel)) self h.

(** ** [get_data]

    The loaders of [torchdeepretina.datas] and the container of
    [DataContainer] are parameters; a loader is called with the arguments
    the source gives it. *)

(** [v[0]] *)
Definition first_item (v : value) : outcome value :=
  match v with
  | VList (x :: _) => Ok x
  | VList [] => Raise (IndexError "list index out of range")
  | VStr (String c _) => Ok (VStr (String c ""))
  | VStr "" => Raise (IndexError "string index out of range")
  | _ => Raise TypeError
  end.

(** [v in names] for a set of strings; a list or a set cannot be hashed. *)
Definition in_names (v : value) (names : gset string) : outcome bool :=
  match v with
  | VStr s => Ok (bool_decide (s ∈ names))
  | VList _ | VSet _ => Raise TypeError
  | _ => Ok false
  end.

Section GetData.

(** What a loader returns, what [DataContainer] makes of it, and the
    normalisation statistics of a container. *)
Variables (expt container norm : Type).

(** The arguments of a load; [split] is ['train'] or ['test'], and is not
    given to [loadintrexpt]. *)
Record load_request : Type := mkLoad {
  load_expt : value;
  load_cells : value;
  load_stim_type : value;
  load_split : option string;
  load_history : value;
  load_norm_stats : option norm;
  load_cutout_width : value;
  load_data_path : value
}.

(** [set(tdrintr.centers.keys())] *)
Variable interneuron_expts : gset string.
Variable loadintrexpt : load_request -> outcome expt.
Variable loadexpt : load_request -> outcome expt.
Variable DataContainer : expt -> outcome container.
(** [[data.stats['mean'], data.stats['std']]] and [data.X.shape[1:]] *)
Variable stats_of : container -> norm.
Variable x_shape : container -> value.

(** The three options every load reads, in the order of the arguments. *)
Definition load_keys (h : hyps) : outcome (value * value * value) :=
  dataset ← getitem h "dataset";
  cells ← getitem h "cells";
  stim_type ← getitem h "stim_type";
  Ok (dataset, cells, stim_type).

(** [get_data]: the dictionary, the training data, the test data or [None],
    and what was printed.  The default of [hyps.get] is evaluated before the
    call, and the [except] of the test load catches everything. *)
Definition get_data (h : hyps)
  : outcome (hyps * container * option container * list string) :=
  let cutout_size := try_key h "cutout_size" VNone in
  img_shape ← getitem h "img_shape";
  depth ← first_item img_shape;
  let img_depth := try_key h "img_depth" depth in
  dataset ← getitem h "dataset";
  intr ← in_names dataset interneuron_expts;
  '(data_path, train_data) ←
    (if intr : bool then
       let data_path := try_key h "datapath" (VStr "~/interneuron_data/") in
       '(dataset, cells, stim_type) ← load_keys h;
       d ← loadintrexpt
             (mkLoad dataset cells stim_type None img_depth None cutout_size data_path);
       Ok (data_path, d)
     else
       let data_path := try_key h "datapath" (VStr "~/experiments/data") in
       '(dataset, cells, stim_type) ← load_keys h;
       d ← loadexpt
             (mkLoad dataset cells stim_type (Some "train") img_depth None cutout_size
                     data_path);
       Ok (data_path, d));
  train_data ← DataContainer train_data;
  let norm_stats := stats_of train_data in
  let attempt :=
    '(dataset, cells, stim_type) ← load_keys h;
    d ← loadexpt
          (mkLoad dataset cells stim_type (Some "test") img_depth (Some norm_stats)
                  cutout_size data_path);
    DataContainer d in
  let '(test_data, printed) :=
    match attempt with
    | Ok d => (Some d, [])
    | Raise _ => (None, ["Error loading test data..."])
    end in
  Ok (<["img_shape" := x_shape train_data]> h, train_data, test_data, printed).

(** The dictionary and the training data a call leaves, or its exception. *)
Definition train_part (r : outcome (hyps * container * option container * list string))
  : outcome (hyps * container) :=
  match r with
  | Ok (h, train_data, _, _) => Ok (h, train_data)
  | Raise e => Raise e
  end.

End GetData.

(** Loaders for examples: an experiment is its name; the test data of the
    first cannot be indexed, those of the second can. *)
Definition no_test_loader (r : load_request unit) : outcome string :=
  if decide (load_split unit r = Some "test")
  then Raise (IndexError "index out of range")
  else Ok (py_str (load_expt unit r)).

Definition full_loader (r : load_request unit) : outcome string :=
  Ok (py_str (load_expt unit r)).

Definition data_hyps : hyps :=
  <["img_shape" := VList [VInt 40; VInt 50; VInt 50]]>
    (<["dataset" := VStr "15-10-07"]> (<["cells" := VStr "all"]>
       {["stim_type" := VStr "naturalscene"]})).

(** ** [utils.find_peaks]

    The array is a list; the comparison of its elements is a parameter, so
    that integers and floats are both covered. *)

Section FindPeaks.
Context {A : Type}.

(** [x < y] on the elements of the array; [x > y] is [y < x]. *)
Variable less : A -> A -> bool.

(** [array[i]] for [i >= 0] *)
Definition item (array : list A) (i : nat) : outcome A :=
  match array !! i with
  | Some a => Ok a
  | None => Raise (IndexError "list index out of range")
  end.

(** [array[-k]] for [k > 0] *)
Definition item_from_end (array : list A) (k : nat) : outcome A :=
  if (k <=? length array)%nat then item array (length array - k)
  else Raise (IndexError "list index out of range").

(** The loop [for i in range(1,len(array)-1)]; the second operand of [and]
    is evaluated only when the first holds. *)
Fixpoint peaks_loop (array : list A) (range : list nat) (maxima : list nat)
  : outcome (list nat) :=
  match range with
  | [] => Ok maxima
  | i :: range =>
      a ← item array (i - 1);
      b ← item array i;
      both ← (if less a b then
                c ← item array (i + 1);
                b ← item array i;
                Ok (less c b)
              else Ok false);
      peaks_loop array range (if both : bool then maxima ++ [i] else maxima)%list
  end.

Definition find_peaks (array : list A) : outcome (list nat) :=
  let n := length array in
  first ← (if (n =? 2)%nat then
             a0 ← item array 0; a1 ← item array 1; Ok (less a1 a0)
           else Ok false);
  if first : bool then Ok [0%nat]
  else
    second ← (if (n =? 2)%nat then
                a0 ← item array 0; a1 ← item array 1; Ok (less a0 a1)
              else Ok false);
    if second : bool then Ok [1%nat]
    else if (n <=? 2)%nat then Ok [0%nat]
    else
      a0 ← item array 0;
      a1 ← item array 1;
      let maxima := if less a1 a0 then [0%nat] else [] in
      maxima ← peaks_loop array (seq 1 (n - 1 - 1)) maxima;
      x ← item_from_end array 2;
      y ← item_from_end array 1;
      Ok (if less x y then maxima ++ [(n - 1)%nat] else maxima)%list.

(** A position whose element is larger than each of its immediate
    neighbours, those that exist. *)
Definition strict_peak (array : list A) (i : nat) : bool :=
  match array !! i with
  | None => false
  | Some b =>
      match i with
      | O => true
      | S j => match array !! j with Some a => less a b | None => true end
      end
      && match array !! S i with Some c => less c b | None => true end
  end.

End FindPeaks.

(** ** A small world for examples

    A model that counts its optimisation steps, an optimiser that is its
    learning rate, batches that are their own loss, and a pruning step that
    zeroes channel 0 of ["conv1"] and closes every layer at once.  The set-up
    of a run numbers the experiment, names the folder and loads the data with
    [get_data], from loaders that always succeed. *)
Module Toy.
Import XReal.

Record toy_world : Type := mkToy {
  tw_steps : nat;
  tw_lr : value;
  tw_mask : zdict;
  tw_train : list xreal;
  tw_val : list xreal;
  tw_acc : xreal
}.

Definition with_steps (n : nat) (w : toy_world) : toy_world :=
  mkToy n (tw_lr w) (tw_mask w) (tw_train w) (tw_val w) (tw_acc w).

Definition with_lr (lr : value) (w : toy_world) : toy_world :=
  mkToy (tw_steps w) lr (tw_mask w) (tw_train w) (tw_val w) (tw_acc w).

Definition with_mask (zero_dict : zdict) (w : toy_world) : toy_world :=
  mkToy (tw_steps w) (tw_lr w) zero_dict (tw_train w) (tw_val w) (tw_acc w).

(** The world a run is set up with: two train batches of loss 1/2, one
    validation batch of loss 1/4, an accuracy of 1/2. *)
Definition fresh_world : toy_world :=
  mkToy 0 (VFloat "0.001") ∅ [Fin (1 # 2); Fin (1 # 2)] [Fin (1 # 4)] (Fin (1 # 2)).

(** The pruned mask: channel 0 of ["conv1"]. *)
Definition pruned_mask : zdict := {["conv1" := {[0]}]}.

(** The dictionary as the first lines of the set-up leave it, and as the
    whole set-up does: [get_data] overwrites the shape of the images. *)
Definition numbered (h : hyps) : hyps :=
  <["save_folder" := VStr "run"]> (<["exp_num" := VInt 0]> h).

Definition loaded (h : hyps) : outcome (hyps * string * option string * list string) :=
  get_data string string unit ∅ full_loader full_loader Ok (λ _, ())
           (λ _, VList [VInt 50; VInt 50]) (numbered h).

Definition set_up (h : hyps) : hyps :=
  match loaded h with
  | Ok (h, _, _, _) => h
  | Raise _ => numbered h
  end.

#[global] Instance toy_collaborators : Collaborators := {|
  world := toy_world;
  batch := xreal;
  outputs := xreal;
  model_state := nat;
  optim_state := value;
  n_loops := λ w, Z.of_nat (length (tw_train w));
  val_shape0 := λ w, 500 * Z.of_nat (length (tw_val w));
  train_sample := λ w, (tw_train w, w);
  intg_sample := λ _ w, (head (tw_train w), w);
  val_sample := λ _ w, tw_val w;
  train_step := λ _ b w, (b, with_steps (S (tw_steps w)) w);
  retinotopic_step := λ _ _ _ b w, (b, with_steps (S (tw_steps w)) w);
  zero_chans := λ zero_dict _ w, with_mask zero_dict w;
  val_eval := λ b w, (tw_acc w, b);
  val_l1 := λ _ _, Fin 0;
  mean_pearson := λ preds _, default NaN (head preds);
  scheduler_step := λ _ w, w;
  scheduler_is_null := λ _, true;
  test_pearson := λ _, None;
  get_lr := tw_lr;
  set_lr := with_lr;
  model_state_dict := tw_steps;
  optim_state_dict := tw_lr;
  load_model_state := with_steps;
  load_optim_state := with_lr;
  conv_layer_names := λ _, ["conv1"; "out"];
  prune_channels := λ h _ _ _ pd w,
    (mkPruneDict pruned_mask None 0 (Some "conv1") (pd_prev_acc pd) (pd_prev_lr pd)
                 (VInt 0),
     <["open_layers" := VSet []]> h, w);
  setup_run := λ h,
    (set_up h, match loaded h with Ok _ => Ok fresh_world | Raise e => Raise e end);
  startpt_checkpoint := λ _, (None, None);
  clock := 0
|}.

(** A configuration for examples: two epochs, no pruning, not a test run. *)
Definition example_hyps : hyps :=
  <["exp_name" := VStr "demo"]> (<["l1" := VInt 0]> (<["prune_intvl" := VInt 2]>
    (<["prune" := VBool false]> (<["n_epochs" := VInt 2]>
      (<["prune_layers" := VList [VStr "conv1"]]> (<["batch_size" := VInt 8]>
        (<["cross_val" := VBool false]> (<["cross_val_idx" := VInt 0]>
          (<["n_cv_folds" := VInt 10]> (<["save_folder" := VStr "run"]>
            data_hyps)))))))))).

(** The same with pruning, the rollback of [reset_sd] and what the pruning
    block reads. *)
Definition pruning_hyps : hyps :=
  <["reset_sd" := VBool true]> (<["prune" := VBool true]>
    (<["intg_bsize" := VInt 500]> (<["lr" := VFloat "0.001"]> example_hyps))).

(** A monitor with early stopping switched off. *)
Definition no_stopping : Trainer := Trainer_init 0 (Fin (1 # 100)).

(** The locals of a fold of the toy world before the loop. *)
Definition plain_env : loop_env := mkLoopEnv (VFloat "0.001") (VBool false) false (VInt 0).

Definition rollback_env : loop_env := mkLoopEnv (VFloat "0.001") (VBool true) false (VInt 0).

(** The locals and the heap at the top of the epoch loop. *)
Definition start_state (self : Trainer) (h : hyps) (w : toy_world) (n_epochs : Z)
    (hyps_prune : value) : loop_state :=
  mkLoop self h w [] (-1) n_epochs hyps_prune false {["conv1" := ∅]} (VBool true)
         None None None.

(** A world whose only validation batch has a NaN loss, and one whose second
    train batch has. *)
Definition nan_val_world : toy_world :=
  mkToy 0 (VFloat "0.001") ∅ [Fin (1 # 2); Fin (1 # 2)] [NaN] (Fin (1 # 2)).


(** The worlds of the toy run: the data of [fresh_world], whatever the steps
    taken, the learning rate and the mask. *)
Definition toy_data (w : toy_world) : Prop :=
  tw_train w = tw_train fresh_world
  /\ tw_val w = tw_val fresh_world
  /\ tw_acc w = tw_acc fresh_world.

(** The state a round of the loop builds. *)
Definition round (env : loop_env) (s : loop_state) : loop_state :=
  match iteration env s with
  | Normal (_, s') => s'
  | Throw _ _ _ => s
  end.

(** The world the train phase of the next epoch leaves. *)
Definition trained (s : loop_state) : toy_world :=
  match train_phase s with
  | Normal (_, w) => w
  | Throw _ _ _ => ls_world s
  end.

(** The pruning run after the validation of epoch 2, its first pruning epoch:
    two rounds of the loop, then the train phase and the validation. *)
Definition pruning_epoch : loop_state :=
  let s := round rollback_env
             (round rollback_env
                (start_state no_stopping pruning_hyps fresh_world 2 (VBool true))) in
  after_validation s no_stopping (trained s).

(** The keyword dictionary before and after the toy pruning step, and the
    dictionary of hyperparameters after it. *)
Definition first_prune_dict : prune_dict nat :=
  mkPruneDict {["conv1" := ∅]} None (-1) None (Fin (-1)) (VFloat "0.001") (VInt 0).

Definition last_prune_dict : prune_dict nat :=
  mkPruneDict pruned_mask None 0 (Some "conv1") (Fin (-1)) (VFloat "0.001") (VInt 0).

Definition closed_hyps : hyps := <["open_layers" := VSet []]> pruning_hyps.

(** A configuration whose image shape is empty, so that [get_data] fails on
    [hyps['img_shape'][0]], the same without the option [dataset], and a
    retinotopic configuration with pruning on. *)
Definition empty_shape_hyps : hyps := <["img_shape" := VList []]> example_hyps.

Definition no_dataset_hyps : hyps := delete "dataset" empty_shape_hyps.

Definition retinotopic_hyps : hyps :=
  <["retinotopic" := VBool true]> (<["prune" := VBool true]>
    (<["scheduler" := VStr "NullScheduler"]> example_hyps)).

(** The dictionary of the first as the failed set-up of its fold leaves it:
    seeded, with its fold, its number and its folder. *)
Definition empty_shape_hyps_left : hyps :=
  numbered (<["cross_val_idx" := VInt 0]> (<["seed" := VInt 0]> empty_shape_hyps)).

(** The locals of the retinotopic run before and after its epoch loop. *)
Definition retinotopic_start : retino_state :=
  mkRetino no_stopping (set_up retinotopic_hyps) fresh_world [] (-1) false None.

Definition retinotopic_end : retino_state :=
  match retinotopic_epochs 4 2 retinotopic_start with
  | Some (Normal s) => s
  | _ => retinotopic_start
  end.

(** What the sweep writes for a finished run in the examples. *)
Definition format_done (r : results) : string := "done".

(** The checkpoints of a fold: the epoch and the steps the model has taken. *)
Definition epochs_and_steps (r : option (flow (results * loop_state)))
  : option (list (Z * nat)) :=
  match r with
  | Some (Normal (_, s)) =>
      Some (map (λ c, (sd_epoch c.1, sd_model_state_dict c.1)) (ls_ckpts s))
  | _ => None
  end.

(** A world with no validation batch: its validation split is smaller than
    one step. *)
Definition no_val_world : toy_world :=
  mkToy 0 (VFloat "0.001") ∅ [Fin (1 # 2); Fin (1 # 2)] [] (Fin (1 # 2)).

(** The configuration of the examples without the option [prune], run as a
    test, and with cross-validation over no fold. *)
Definition no_prune_hyps : hyps := delete "prune" example_hyps.

Definition test_hyps : hyps :=
  <["exp_name" := VStr "test"]> (<["n_epochs" := VInt 7]> example_hyps).

Definition no_folds_hyps : hyps :=
  <["n_cv_folds" := VInt 0]> (<["cross_val" := VBool true]> example_hyps).

(** A retinotopic configuration with pruning off, and the locals of its run
    before and after the epoch loop. *)
Definition plain_retinotopic_hyps : hyps :=
  <["retinotopic" := VBool true]> (<["scheduler" := VStr "NullScheduler"]> example_hyps).

Definition plain_retinotopic_start : retino_state :=
  mkRetino no_stopping (set_up plain_retinotopic_hyps) fresh_world [] (-1) false None.

Definition plain_retinotopic_end : retino_state :=
  match retinotopic_epochs 4 2 plain_retinotopic_start with
  | Some (Normal s) => s
  | _ => plain_retinotopic_start
  end.

(** A training variant that always fails on a value. *)
Definition failing_method : method results :=
  λ self h, Some (Throw ValueError self h).

End Toy.

(** ** The vocabulary of the sweep engine and of the optimisation objects *)

(** The options the base call of [fill_hyper_q] gives a default to. *)
Definition default_keys : list string :=
  ["n_repeats"; "prune"; "altn_layers"; "abssum"; "prune_layers"; "prune_intvl";
   "prune_tolerance"; "alpha_steps"; "intg_bsize"; "scheduler"; "scheduler_thresh";
   "scheduler_patience"; "scheduler_scale"; "cross_val"; "cross_val_idx";
   "n_cv_folds"].

(** The search key the loop [for k in keys] builds on top of [s]: one
    ["_" + key + str(value)] per key, in the order of [keys]. *)
Definition search_key_from (h : hyps) (s : string) (keys : list string) : string :=
  foldl (λ s k, s +:+ "_" +:+ k +:+ py_str (default VNone (h !! k))) s keys.

(** The dictionary a round of the repeat loop puts on the queue. *)
Definition queue_entry (keys : list string) (h : hyps) : hyps :=
  <["search_keys" := VStr (search_key_from h "" keys)]> h.

(** The invariant of the sweep: the number of epochs is set, and the number
    of repeats is [n], given or by default. *)
Definition sweep_inv (n : Z) (h : hyps) : Prop :=
  is_Some (h !! "n_epochs") /\ try_key h "n_repeats" (VInt 1) = VInt n.

(** The number of sweep points from the keys [rest] on. *)
Definition sweep_size (hyp_ranges : gmap string (list value)) (rest : list string) : nat :=
  foldr (λ k acc, (length (default [] (hyp_ranges !! k)) * acc)%nat) 1%nat rest.

(** The ranges [{a: [1,2], b: [3,4]}]. *)
Definition ranges_ab : gmap string (list value) :=
  <["a" := [VInt 1; VInt 2]]> (<["b" := [VInt 3; VInt 4]]> ∅).

(** A queue entry for the sweep point [(x, y)] with search key [s]. *)
Definition is_point (e : hyps) (x y : Z) (s : string) : Prop :=
  e !! "a" = Some (VInt x) /\ e !! "b" = Some (VInt y)
  /\ e !! "search_keys" = Some (VStr s).

(** A base configuration for examples: five epochs, nothing else. *)
Definition base_hyps : hyps := {["n_epochs" := VInt 5]}.

(** The same with two repeats and a seed. *)
Definition base_hyps_repeated : hyps :=
  <["seed" := VInt 7]> (<["n_repeats" := VInt 2]> base_hyps).

(** A checkpoint reader for examples: the tag of a checkpoint is its path. *)
Definition path_tag (path : string) : outcome string := Ok path.

(** The seed and the search key of every entry of the queue. *)
Definition seeds_and_keys (r : outcome (hyps * list hyps))
  : outcome (list (option value * option value)) :=
  match r with
  | Ok (_, hyper_q) => Ok (map (λ e : hyps, (e !! "seed", e !! "search_keys")) hyper_q)
  | Raise e => Raise e
  end.

(** The names of the module that matter to the examples, and a call that
    records the name and the keyword. *)
Definition example_globals : gset string :=
  {["PoissonNLLLoss"; "MSELoss"; "ReduceLROnPlateau"; "MultiStepLR"; "NullScheduler"]}.

Definition record_call (name : string) (log_input : option value)
  : outcome (string * option value) := Ok (name, log_input).

(** [0.0 <= v] for a number; a float is below zero when its [repr] is signed
    and not a zero, and [nan] compares with nothing. *)
Definition ge_zero (v : value) : outcome bool :=
  match v with
  | VInt z => Ok (0 <=? z)
  | VBool _ => Ok true
  | VFloat r =>
      Ok (negb (String.prefix "-" r && negb (String.eqb r "-0.0") || String.eqb r "nan"))
  | _ => Raise TypeError
  end.

(** Checks for examples: an optimiser that wants a learning rate and a
    weight decay of zero or more, and schedulers that take what they get. *)
Definition nonnegative_rates (lr l2 : value) : outcome () :=
  ok ← ge_zero lr;
  if ok : bool then
    ok ← ge_zero l2;
    if ok : bool then Ok () else Raise ValueError
  else Raise ValueError.

Definition any_plateau (factor patience threshold : value) : outcome () := Ok ().

Definition any_milestones (milestones : value) : outcome () := Ok ().

(** A configuration with a scheduler name out of the registry, and the same
    with a learning rate below zero. *)
Definition cosine_hyps : hyps :=
  <["scheduler" := VStr "CosineAnnealingLR"]>
    (<["l2" := VFloat "0.01"]> (<["lr" := VFloat "0.001"]>
       {["lossfxn" := VStr "PoissonNLLLoss"]})).

Definition negative_lr_hyps : hyps := <["lr" := VFloat "-0.001"]> cosine_hyps.

(** What the function returns, without the dictionary, and the scheduler name
    the dictionary is left with. *)
Definition built_objects {L : Type}
    (r : outcome (hyps * (optimizer_obj * scheduler_obj * L)))
  : outcome (option value * (optimizer_obj * scheduler_obj * L)) :=
  match r with
  | Ok (h, objs) => Ok (h !! "scheduler", objs)
  | Raise e => Raise e
  end.

(** What every call that does not return [True] leaves behind: a counter at
    zero and the metric just seen as the previous value. *)
Definition rearmed `{PyFloat} (self : Trainer) : Prop :=
  prev_acc self = None \/ stop_count self = Some 0.

(** ** The vocabulary of the loops *)

Section Observations.
Context `{Collaborators}.

(** The train steps on a list of batches, none left out: every step is
    followed by the zeroing of the pruned channels and adds its loss. *)
Definition run_batches (coef : option value) (zero_dict : zdict) (zero_bias : value)
    (batches : list batch) (start : float * world) : float * world :=
  foldl (λ '(epoch_loss, w) b,
           let '(loss, w) := train_step coef b w in
           (fadd epoch_loss loss, zero_chans zero_dict zero_bias w))
        start batches.

(** A dictionary that sets no positive [gauss_reg]: the train loop does not
    come to the name it cannot resolve. *)
Definition no_gauss_reg (h : hyps) : Prop :=
  forall g, h !! "gauss_reg" = Some g -> gt_zero g = Ok false.

(** Whether a round ended on the [break], and whether the validation loss
    it recorded is a NaN or an infinity. *)
Definition break_and_val_loss (r : flow (bool * loop_state))
  : option (bool * option bool) :=
  match r with
  | Normal (brk, s) => Some (brk, (λ stats, nonfinite (val_loss stats)) <$> ls_stats s)
  | Throw _ _ _ => None
  end.

(** The [epoch] fields of the checkpoints saved so far, oldest first. *)
Definition saved_epochs (s : loop_state) : list Z :=
  map (λ c, sd_epoch c.1) (ls_ckpts s).

(** What the pruning block starts from: on the first pruning epochs a new
    keyword dictionary, which needs [cur_lr] bound, and in a test run an
    accuracy of 0; later the dictionary of the pruning step before. *)
Definition prune_inputs (env : loop_env) (s : loop_state) (prune_intvl : Z)
    (val_acc : float) : option (prune_dict model_state * float) :=
  if ls_epoch s <=? ls_n_epochs s + prune_intvl then
    cur_lr ← ls_cur_lr s;
    exp_name ← ls_hyps s !! "exp_name";
    Some (mkPruneDict (ls_zero_dict s) None (-1) None (of_int (-1)) cur_lr
                      (min_prune_acc env),
          if eq_str exp_name "test" then of_int 0 else val_acc)
  else
    prune_dict ← ls_prune_dict s;
    Some (prune_dict, val_acc).

(** The world after the rollback of [reset_sd]: the two dictionaries loaded,
    the one of the model as it reads at that moment, the learning rate set to
    the configured one (twice when [reset_lr] asks for it too), and the mask
    applied. *)
Definition rolled_back_world (env : loop_env) (pd : prune_dict model_state)
    (h : hyps) (lr : value) (val_acc : float) (w : world) : world :=
  let w := load_model_state (og_state_dict w) w in
  let w := load_optim_state (og_optim_dict env) w in
  let w := set_lr lr w in
  let w := if reset_lr env && negb (feqb (pd_prev_acc pd) val_acc)
           then set_lr lr w else w in
  zero_chans (pd_zero_dict pd) (try_key h "zero_bias" (VBool true)) w.

(** The locals after the pruning step that closes the last open layer under
    [reset_sd]: pruning is off, and the epoch budget is the configured
    number of epochs counted from the current epoch. *)
Definition rolled_back (env : loop_env) (s : loop_state) (pd : prune_dict model_state)
    (h : hyps) (w : world) (lr : value) (val_acc : float) (N : Z) : loop_state :=
  mkLoop (ls_self s) h (rolled_back_world env pd h lr val_acc w) (ls_ckpts s)
         (ls_epoch s) (N + ls_epoch s) (VBool false) false
         (pd_zero_dict pd) (try_key h "zero_bias" (VBool true))
         (Some pd) (Some (get_lr (ls_world s))) (ls_stats s).

(** The results file and the printed lines of a sweep that ended. *)
Definition sweep_output (r : option (flow sweep)) : option (list string * list string) :=
  match r with
  | Some (Normal sw) => Some (sw_results_file sw, sw_stdout sw)
  | _ => None
  end.

(** The exception a run ended on, if it did. *)
Definition raised {A : Type} (r : option (flow A * list string)) : option exn :=
  match r with
  | Some (Throw e _ _, _) => Some e
  | _ => None
  end.

Definition loop_epochs (r : option (flow loop_state)) : option (list Z) :=
  match r with
  | Some (Normal s) => Some (saved_epochs s)
  | _ => None
  end.

(** A run is quiet for a monitor, a dictionary and an invariant of the world
    when, whatever the locals are, the train phase gives a finite average
    loss and the validation neither raises nor signals, and both keep the
    invariant. *)
Definition quiet (self : Trainer) (h : hyps) (inv : world -> Prop) : Prop :=
  forall s, ls_self s = self -> ls_hyps s = h -> inv (ls_world s) ->
    exists avg w vl va w',
      train_phase s = Normal (avg, w)
      /\ nonfinite avg = false
      /\ validation_phase self h w = Normal (vl, va, false, self, w')
      /\ inv w'.

(** The same for a monitor that may change from epoch to epoch: the
    invariant is one of the monitor and the world together. *)
Definition steady (h : hyps) (inv : Trainer -> world -> Prop) : Prop :=
  forall s, ls_hyps s = h -> inv (ls_self s) (ls_world s) ->
    exists avg w vl va self' w',
      train_phase s = Normal (avg, w)
      /\ nonfinite avg = false
      /\ validation_phase (ls_self s) h w = Normal (vl, va, false, self', w')
      /\ inv self' w'.

(** Loading into a model the tensors it holds itself changes nothing. *)
Definition load_own_state_is_noop : Prop :=
  forall w, load_model_state (model_state_dict w) w = w.

(** The exception a sweep ended on, if it did. *)
Definition sweep_raised (r : option (flow sweep)) : option exn :=
  match r with
  | Some (Throw e _ _) => Some e
  | _ => None
  end.

End Observations.

(** ** The vocabulary of the sweep runner *)

Section SweepObservations.
Context `{PyFloat}.
Variable result : Type.
Variables (train_loop_method retinotopic_loop_method : method result).
Variable format_results : result -> string.

(** The line of a run that is skipped. *)
Definition skipped_line (dataset cells : value) : string :=
  "Skipped " +:+ py_str dataset +:+ " cells " +:+ py_str cells.


End SweepObservations.

(** ** The vocabulary of the monitor with a patience of one *)

(** The verdicts of the monitor on the metrics that follow the stored value
    [prev]: a metric that fails to improve on it by the tolerance is
    signalled and leaves it in place, any other metric replaces it. *)
Fixpoint signals_from `{PyFloat} (tol prev : float) (accs : list float) : list bool :=
  match accs with
  | [] => []
  | acc :: accs =>
      if fltb (fsub acc prev) tol then true :: signals_from tol prev accs
      else false :: signals_from tol acc accs
  end.

(** ** The sweep points *)

(** The values of the swept keys in a queue entry, in the order of the keys. *)
Definition point_of (keys : list string) (e : hyps) : list (option value) :=
  (λ k, e !! k) <$> keys.

(** The sweep points of the keys [rest]: the Cartesian product of their
    ranges, the first key varying slowest. *)
Definition sweep_points (hyp_ranges : gmap string (list value)) (rest : list string)
  : list (list (option value)) :=
  foldr (λ k points,
           flat_map (λ p, cons (Some p) <$> points) (default [] (hyp_ranges !! k)))
        [[]] rest.

(** The ranges [{a: [1,2], c: [], b: [3,4]}], one of them empty. *)
Definition ranges_with_empty : gmap string (list value) := <["c" := []]> ranges_ab.

(** A base configuration that asks for no repeat, and one range. *)
Definition base_hyps_no_repeat : hyps := <["n_repeats" := VInt 0]> base_hyps.

Definition ranges_a : gmap string (list value) := {["a" := [VInt 1]]}.

(** ** The name of a scheduler *)

(** [type(scheduler).__name__] *)
Definition scheduler_name (s : scheduler_obj) : string :=
  match s with
  | ReduceLROnPlateau _ _ _ _ => "ReduceLROnPlateau"
  | MultiStepLR _ _ => "MultiStepLR"
  | NullScheduler => "NullScheduler"
  end.

(** ** The batches a loop sees *)

(** What a loop over [l] gets to see when a test run leaves it after [cap]
    rounds. *)
Definition test_cap {A : Type} (cap : nat) (name : value) (l : list A) : list A :=
  if eq_str name "test" then take cap l else l.

Section BatchObservations.
Context `{Collaborators}.

(** The contribution of a validation batch to the validation loss: the loss
    on the batch and, when [hyps['l1']] is positive, the penalty on the
    outputs. *)
Definition val_step (l1 : value) (positive : bool) (w : world) (val_loss : float)
    (b : batch) : float :=
  let '(outs, loss) := val_eval b w in
  let val_loss := fadd val_loss loss in
  if positive then fadd val_loss (val_l1 l1 outs) else val_loss.

(** [step_size] of the validation of [train_loop]. *)
Definition val_step_size (h : hyps) : Z :=
  if truthy (try_key h "self_attn" (VBool false)) then 128 else 500.

(** The dictionary [train_loop] hands to its folds: the seed is the given
    one, or the clock. *)
Definition seeded (h : hyps) : hyps :=
  let seed := try_key h "seed" VNone in
  <["seed" := if is_None seed then VInt clock else seed]> h.

(** The [epoch] fields of the checkpoints of a retinotopic run, oldest
    first. *)
Definition retino_saved_epochs (s : retino_state) : list Z :=
  map (λ c, sd_epoch c.1) (rs_ckpts s).

(** The dictionary a retinotopic run returns. *)
Definition retinotopic_results (folder : value) (stats : epoch_stats) : results :=
  mkResults folder (avg_loss stats) (val_acc stats) (val_loss stats)
            (avg_pearson stats) None.

End BatchObservations.

(** * Properties *)

Lemma getitem_Some {V : Type} (d : gmap string V) (key : string) (v : V) :
  d !! key = Some v -> getitem d key = Ok v.
Proof. intros Hv. unfold getitem. by rewrite Hv. Qed.

Lemma getitem_None {V : Type} (d : gmap string V) (key : string) :
  d !! key = None -> getitem d key = Raise (KeyError key).
Proof. intros Hv. unfold getitem. by rewrite Hv. Qed.

(** ** The early-stopping monitor *)

Section EarlyStoppingFacts.
Context `{PyFloat}.

Lemma Trainer_init_rearmed (P : Z) (tol : float) : rearmed (Trainer_init P tol).
Proof. by left. Qed.

(** With a patience of two or more, a call on a monitor whose counter is at
    zero returns [False] and leaves the counter at zero. *)
Lemma stop_early_rearmed (self : Trainer) (acc : float) :
  2 <= early_stopping self -> rearmed self ->
  exists self', stop_early self acc = Ok (false, self')
    /\ early_stopping self' = early_stopping self
    /\ tolerance self' = tolerance self
    /\ prev_acc self' = Some acc
    /\ stop_count self' = Some 0.
Proof.
  intros HP Hinv. unfold stop_early.
  destruct (Z.leb_spec (early_stopping self) 0) as [Hle|_]; [lia|].
  destruct (prev_acc self) as [prev|] eqn:Hprev.
  - destruct Hinv as [Hnone|Hzero]; [congruence|].
    destruct (fltb (fsub acc prev) (tolerance self)); simpl.
    + unfold incr_stop_count. rewrite Hzero. simpl.
      destruct (Z.geb_spec (0 + 1) (early_stopping self)) as [Hge|_]; [lia|].
      simpl. eauto 10.
    + eauto 10.
  - eauto 10.
Qed.

(** A non-improving call that returns [False] overwrites the stored previous
    value, whatever the counter was. *)
Lemma stop_early_false_overwrites (self self' : Trainer) (acc : float) :
  0 < early_stopping self ->
  stop_early self acc = Ok (false, self') ->
  prev_acc self' = Some acc /\ stop_count self' = Some 0.
Proof.
  intros HP. unfold stop_early.
  destruct (Z.leb_spec (early_stopping self) 0) as [Hle|_]; [lia|].
  destruct (prev_acc self) as [prev|].
  - destruct (fltb (fsub acc prev) (tolerance self)); simpl.
    + unfold incr_stop_count. destruct (stop_count self) as [c|]; simpl; [|done].
      destruct (c + 1 >=? early_stopping self); simpl; intros [= <-]; done.
    + intros [= <-]. done.
  - intros [= <-]. done.
Qed.

(** With a patience of one, the first call that fails to improve on the
    stored value by the tolerance returns [True]. *)
Lemma stop_early_patience_one (self : Trainer) (acc prev : float) :
  early_stopping self = 1 -> prev_acc self = Some prev -> stop_count self = Some 0 ->
  exists self',
    stop_early self acc = Ok (fltb (fsub acc prev) (tolerance self), self').
Proof.
  destruct self as [P tol pa sc]; simpl. intros -> -> ->.
  unfold stop_early, incr_stop_count; simpl.
  destruct (fltb (fsub acc prev) tol); simpl; eauto.
Qed.

(** C1. With a patience of two or more the monitor never signals: whatever
    the metrics are, every call of [stop_early] on a fresh monitor returns
    [False], also the calls that the claim says return [True]. *)
Theorem stop_early_never_signals (P : Z) (tol : float) (accs : list float) :
  2 <= P ->
  exists self',
    observe_all (Trainer_init P tol) accs = Ok (replicate (length accs) false, self').
Proof.
  intros HP.
  assert (Hgen : forall self, early_stopping self = P -> rearmed self ->
            exists self', observe_all self accs
                          = Ok (replicate (length accs) false, self')).
  { induction accs as [|acc accs IH]; intros self HeqP Hinv; simpl.
    - eauto.
    - destruct (stop_early_rearmed self acc) as (self1 & -> & HP1 & _ & _ & Hz);
        [lia | done |].
      simpl. destruct (IH self1) as (self2 & ->); [congruence | by right |].
      simpl. eauto. }
  apply Hgen; [done | apply Trainer_init_rearmed].
Qed.

End EarlyStoppingFacts.

(** Patience 2, tolerance 0.01, and the metric 0.5 five times over: no call
    signals. *)
Lemma stop_early_never_signals_witness :
  2 <= 2 /\
  exists self',
    observe_all (Trainer_init 2 (XReal.Fin (1 # 100)))
                (replicate 5 (XReal.Fin (1 # 2)))
    = Ok (replicate 5 false, self').
Proof.
  split; [lia|].
  exact (stop_early_never_signals 2 (XReal.Fin (1 # 100))
           (replicate 5 (XReal.Fin (1 # 2))) ltac:(lia)).
Defined.

(** ** The sweep engine *)

(** A string literal that is not in a list of string literals. *)
Ltac not_in_list :=
  let Hin := fresh "Hin" in
  intros Hin;
  repeat (apply elem_of_cons in Hin as [Hin|Hin]; [discriminate Hin|]);
  by apply elem_of_nil in Hin.

(** A string literal that is in a list of string literals. *)
Ltac in_list :=
  repeat first [apply list_elem_of_here | apply list_elem_of_further].

Section SweepFacts.
Variable checkpoint_tag : string -> outcome string.

Lemma is_Some_insert (h : hyps) (key k : string) (x : value) :
  is_Some (h !! k) -> is_Some (<[key := x]> h !! k).
Proof.
  intros Hk. destruct (decide (key = k)) as [->|Hne].
  - rewrite lookup_insert_eq. eauto.
  - by rewrite lookup_insert_ne.
Qed.

Lemma lookup_ensure_ne (k key : string) (d : value) (h : hyps) :
  key ≠ k -> ensure key d h !! k = h !! k.
Proof. intros Hne. unfold ensure. by rewrite lookup_insert_ne. Qed.

Lemma lookup_ensure_eq (key : string) (d : value) (h : hyps) :
  ensure key d h !! key = Some (try_key h key d).
Proof. unfold ensure. by rewrite lookup_insert_eq. Qed.

(** The defaults are filled when the number of epochs is there to stand in
    for a missing pruning interval; the other options keep their values, and
    the number of repeats is the given one, or 1. *)
Lemma ensure_hyps_spec (h : hyps) :
  is_Some (h !! "n_epochs") ->
  exists h1, ensure_hyps h = Ok h1
    /\ (forall k, k ∉ default_keys -> h1 !! k = h !! k)
    /\ h1 !! "n_repeats" = Some (try_key h "n_repeats" (VInt 1))
    /\ (forall k, is_Some (h !! k) -> is_Some (h1 !! k)).
Proof.
  intros [ne Hne]. unfold ensure_hyps. cbv zeta.
  set (h6 := ensure "prune_tolerance" _ _).
  assert (Hne6 : h6 !! "n_epochs" = Some ne).
  { subst h6. by rewrite !lookup_ensure_ne by done. }
  assert (Hother6 : forall k, k ∉ default_keys -> h6 !! k = h !! k).
  { intros k Hk. subst h6.
    rewrite !lookup_ensure_ne; [done|intros <-; apply Hk; unfold default_keys; in_list..]. }
  assert (Hrep6 : h6 !! "n_repeats" = Some (try_key h "n_repeats" (VInt 1))).
  { subst h6. rewrite !lookup_ensure_ne by done. apply lookup_ensure_eq. }
  assert (Hsome6 : forall k, is_Some (h !! k) -> is_Some (h6 !! k)).
  { intros k Hk. subst h6. unfold ensure. by repeat apply is_Some_insert. }
  assert (Hintvl6 : is_Some (h6 !! "prune_intvl")).
  { subst h6. rewrite lookup_ensure_ne, lookup_ensure_eq by done. eauto. }
  clearbody h6. destruct Hintvl6 as [intvl Hintvl6].
  unfold getitem. rewrite Hintvl6, Hne6. simpl.
  set (h7 := if is_None _ then _ else _).
  assert (H7 : exists h7', h7 = Ok h7'
            /\ (forall k, k ∉ default_keys -> h7' !! k = h !! k)
            /\ h7' !! "n_repeats" = Some (try_key h "n_repeats" (VInt 1))
            /\ (forall k, is_Some (h !! k) -> is_Some (h7' !! k))).
  { subst h7. destruct (is_None _).
    - simpl. eexists; split; [done|]. split; [|split].
      + intros k Hk. rewrite lookup_insert_ne; [by apply Hother6|].
        intros <-. apply Hk. unfold default_keys. in_list.
      + by rewrite lookup_insert_ne.
      + intros k Hk. by apply is_Some_insert, Hsome6.
    - eauto 10. }
  destruct H7 as (h7' & -> & Hother7 & Hrep7 & Hsome7). simpl.
  eexists; split; [done|]. split; [|split].
  - intros k Hk.
    rewrite !lookup_ensure_ne; [by apply Hother7|intros <-; apply Hk; unfold default_keys; in_list..].
  - by rewrite !lookup_ensure_ne.
  - intros k Hk. unfold ensure. by repeat apply is_Some_insert; apply Hsome7.
Qed.

(** The search key does not depend on the entry ["search_keys"] itself. *)
Lemma search_key_from_insert (h : hyps) (x : value) (s : string) (keys : list string) :
  "search_keys" ∉ keys ->
  search_key_from (<["search_keys" := x]> h) s keys = search_key_from h s keys.
Proof.
  revert s. induction keys as [|k keys IH]; intros s Hn; simpl; [done|].
  apply not_elem_of_cons in Hn as [Hk Hn].
  rewrite lookup_insert_ne by done. by apply IH.
Qed.

(** The search key is the concatenation, in key order, of ["_" + key +
    str(value)]; the values are read from the dictionary, which only changes
    at ["search_keys"]. *)
Lemma build_search_keys_spec (keys : list string) (h : hyps) (s : string) :
  "startpt" ∉ keys -> "search_keys" ∉ keys ->
  Forall (λ k, is_Some (h !! k)) keys ->
  h !! "search_keys" = Some (VStr s) ->
  build_search_keys checkpoint_tag keys h
  = Ok (<["search_keys" := VStr (search_key_from h s keys)]> h).
Proof.
  revert h s. induction keys as [|k keys IH]; intros h s Hstart Hsk Hall Hs; simpl.
  - by rewrite insert_id.
  - apply not_elem_of_cons in Hstart as [Hk1 Hstart].
    apply not_elem_of_cons in Hsk as [Hk2 Hsk].
    apply Forall_cons in Hall as [[v Hv] Hall].
    unfold getitem at 1. rewrite Hv. simpl.
    replace (String.eqb k "startpt") with false
      by (symmetry; apply String.eqb_neq; congruence).
    simpl. unfold append_search_key, getitem. rewrite Hs. simpl.
    rewrite (IH _ (s +:+ "_" +:+ k +:+ py_str v)); try done.
    + rewrite insert_insert_eq. by rewrite search_key_from_insert.
    + eapply Forall_impl; [exact Hall|]. intros k'. apply is_Some_insert.
    + by rewrite lookup_insert_eq.
Qed.

(** Every round of the repeat loop puts the same dictionary on the queue. *)
Lemma load_q_spec (rounds : nat) (keys : list string) (h : hyps) (hyper_q : list hyps) :
  "startpt" ∉ keys -> "search_keys" ∉ keys ->
  Forall (λ k, is_Some (h !! k)) keys ->
  load_q checkpoint_tag (S rounds) keys h hyper_q
  = Ok (queue_entry keys h,
        (hyper_q ++ replicate (S rounds) (queue_entry keys h))%list).
Proof.
  intros Hstart Hsk. revert h hyper_q.
  assert (Hround : forall h, Forall (λ k, is_Some (h !! k)) keys ->
            build_search_keys checkpoint_tag keys (<["search_keys" := VStr ""]> h)
            = Ok (queue_entry keys h)).
  { intros h Hall. rewrite (build_search_keys_spec _ _ ""); try done.
    - unfold queue_entry. by rewrite search_key_from_insert, insert_insert_eq.
    - eapply Forall_impl; [exact Hall|]. intros k. apply is_Some_insert.
    - by rewrite lookup_insert_eq. }
  induction rounds as [|rounds IH]; intros h hyper_q Hall.
  - simpl. rewrite Hround by done. done.
  - change (load_q checkpoint_tag (S (S rounds)) keys h hyper_q)
      with (h' ← build_search_keys checkpoint_tag keys (<["search_keys" := VStr ""]> h);
            load_q checkpoint_tag (S rounds) keys h' (hyper_q ++ [h'])%list).
    rewrite Hround by done. cbv beta iota delta [mbind outcome_bind].
    assert (Hall' : Forall (λ k, is_Some (queue_entry keys h !! k)) keys).
    { eapply Forall_impl; [exact Hall|]. intros k. apply is_Some_insert. }
    rewrite IH by done.
    assert (Hidem : queue_entry keys (queue_entry keys h) = queue_entry keys h).
    { unfold queue_entry at 1 2. rewrite search_key_from_insert by done.
      unfold queue_entry. by rewrite insert_insert_eq. }
    rewrite Hidem. by rewrite <- app_assoc.
Qed.

Lemma sweep_inv_insert (n : Z) (h : hyps) (key : string) (x : value) :
  key ≠ "n_repeats" -> sweep_inv n h -> sweep_inv n (<[key := x]> h).
Proof.
  intros Hne [He Hn]. split; [by apply is_Some_insert|].
  unfold try_key. rewrite lookup_insert_ne by done. exact Hn.
Qed.

(** The base call: it puts [n] copies of one dictionary on the queue, the
    dictionary with its defaults filled and its search key built. *)
Lemma fill_base_spec (keys : list string) (n : Z) (h : hyps) (hyper_q : list hyps) :
  "startpt" ∉ keys -> "search_keys" ∉ keys -> 0 < n ->
  sweep_inv n h -> Forall (λ k, is_Some (h !! k)) keys ->
  exists h1, ensure_hyps h = Ok h1
    /\ fill_base checkpoint_tag keys h hyper_q
       = Ok (queue_entry keys h1,
             (hyper_q ++ replicate (Z.to_nat n) (queue_entry keys h1))%list).
Proof.
  intros Hstart Hsk Hpos [He Hn] Hall.
  destruct (ensure_hyps_spec h He) as (h1 & Hens & Hother & Hrep & Hsome).
  exists h1. split; [done|]. unfold fill_base. rewrite Hens. simpl.
  unfold getitem. rewrite Hrep, Hn. simpl.
  destruct (Z.to_nat n) as [|rounds] eqn:Hnat; [lia|].
  apply load_q_spec; try done.
  eapply Forall_impl; [exact Hall|]. exact Hsome.
Qed.

(** The whole recursion: the queue grows by [n] copies of one dictionary per
    sweep point, and each dictionary carries the search key of its values. *)
Lemma fill_from_spec (hyp_ranges : gmap string (list value)) (keys : list string) (n : Z) :
  "startpt" ∉ keys -> "search_keys" ∉ keys -> "n_repeats" ∉ keys -> 0 < n ->
  forall rest done h hyper_q,
    keys = (done ++ rest)%list ->
    Forall (λ k, is_Some (hyp_ranges !! k)) rest ->
    sweep_inv n h -> Forall (λ k, is_Some (h !! k)) done ->
    exists h' es,
      fill_from checkpoint_tag hyp_ranges keys rest h hyper_q
      = Ok (h', (hyper_q ++ flat_map (replicate (Z.to_nat n)) es)%list)
      /\ length es = sweep_size hyp_ranges rest
      /\ sweep_inv n h'
      /\ Forall (λ k, is_Some (h' !! k)) done
      /\ Forall (λ e, e !! "search_keys" = Some (VStr (search_key_from e "" keys))) es.
Proof.
  intros Hstart Hsk Hrepk Hpos.
  induction rest as [|key rest IH]; intros done h hyper_q Hkeys Hranges Hinv Hdone.
  - rewrite app_nil_r in Hkeys. subst done. simpl.
    destruct (fill_base_spec keys n h hyper_q) as (h1 & Hens & ->); try done.
    destruct Hinv as [He Hn].
    destruct (ensure_hyps_spec h He) as (h1' & Hens' & Hother & Hrep & Hsome).
    assert (h1' = h1) as -> by congruence.
    exists (queue_entry keys h1), [queue_entry keys h1]. simpl.
    rewrite app_nil_r. split; [done|]. split; [done|]. split; [|split].
    + split.
      * apply is_Some_insert, Hsome, He.
      * unfold try_key, queue_entry. rewrite lookup_insert_ne by done.
        by rewrite Hrep, Hn.
    + eapply Forall_impl; [exact Hdone|]. intros k Hk.
      by apply is_Some_insert, Hsome.
    + constructor; [|done]. unfold queue_entry at 1.
      rewrite lookup_insert_eq. unfold queue_entry.
      by rewrite search_key_from_insert.
  - apply Forall_cons in Hranges as [[params Hparams] Hranges].
    simpl. unfold getitem. rewrite Hparams. simpl.
    assert (Hkey : key ≠ "n_repeats").
    { intros ->. apply Hrepk. rewrite Hkeys. apply elem_of_app. right. in_list. }
    assert (Hkeys' : keys = ((done ++ [key]) ++ rest)%list) by by rewrite <- app_assoc.
    clear Hparams. revert h hyper_q Hinv Hdone.
    induction params as [|param params IHp]; intros h hyper_q Hinv Hdone.
    + exists h, []. simpl. rewrite app_nil_r. done.
    + simpl.
      destruct (IH (done ++ [key])%list (<[key := param]> h) hyper_q)
        as (h2 & es2 & -> & Hlen2 & Hinv2 & Hdone2 & Hes2); try done.
      { by apply sweep_inv_insert. }
      { apply Forall_app. split.
        - eapply Forall_impl; [exact Hdone|]. intros k. apply is_Some_insert.
        - constructor; [|done]. rewrite lookup_insert_eq. eauto. }
      simpl. apply Forall_app in Hdone2 as [Hdone2 _].
      destruct (IHp h2 (hyper_q ++ flat_map (replicate (Z.to_nat n)) es2)%list)
        as (h3 & es3 & -> & Hlen3 & Hinv3 & Hdone3 & Hes3); try done.
      exists h3, (es2 ++ es3)%list. split; [|split; [|split; [|split]]]; try done.
      * by rewrite flat_map_app, app_assoc.
      * rewrite length_app, Hlen2, Hlen3. lia.
      * by apply Forall_app.
Qed.

(** The base call at the sweep point [(x, y)] of the keys [a] and [b]. *)
Lemma fill_base_ab (x y : Z) (h : hyps) (hyper_q : list hyps) :
  sweep_inv 1 h -> h !! "a" = Some (VInt x) -> h !! "b" = Some (VInt y) ->
  exists e,
    fill_base checkpoint_tag ["a"; "b"] h hyper_q = Ok (e, (hyper_q ++ [e])%list)
    /\ sweep_inv 1 e
    /\ is_point e x y ("_a" +:+ pretty x +:+ "_b" +:+ pretty y).
Proof.
  intros Hinv Ha Hb.
  destruct (fill_base_spec ["a"; "b"] 1 h hyper_q) as (h1 & Hens & ->);
    [not_in_list | not_in_list | lia | done | |].
  { repeat constructor; [rewrite Ha | rewrite Hb]; eauto. }
  destruct Hinv as [He Hn].
  destruct (ensure_hyps_spec h He) as (h1' & Hens' & Hother & Hrep & Hsome).
  assert (h1' = h1) as -> by congruence.
  assert (Ha1 : h1 !! "a" = Some (VInt x)).
  { rewrite Hother; [done|]. unfold default_keys. not_in_list. }
  assert (Hb1 : h1 !! "b" = Some (VInt y)).
  { rewrite Hother; [done|]. unfold default_keys. not_in_list. }
  exists (queue_entry ["a"; "b"] h1). split; [done|]. split; [|split; [|split]].
  - split.
    + apply is_Some_insert, Hsome, He.
    + unfold try_key, queue_entry. rewrite lookup_insert_ne by done.
      by rewrite Hrep, Hn.
  - unfold queue_entry. by rewrite lookup_insert_ne.
  - unfold queue_entry. by rewrite lookup_insert_ne.
  - unfold queue_entry. rewrite lookup_insert_eq. simpl. by rewrite Ha1, Hb1.
Qed.

(** C3. For any base configuration that sets the number of epochs and asks
    for one repeat (given or by default), the ranges [{a: [1,2], b: [3,4]}]
    put exactly four configurations on the queue, in the order (1,3), (1,4),
    (2,3), (2,4) of the nested loops, and their search keys are the four
    different strings ["_a1_b3"], ["_a1_b4"], ["_a2_b3"], ["_a2_b4"]. *)
Theorem fill_hyper_q_two_by_two (h : hyps) :
  is_Some (h !! "n_epochs") ->
  try_key h "n_repeats" (VInt 1) = VInt 1 ->
  exists h' e13 e14 e23 e24,
    fill_hyper_q checkpoint_tag h ranges_ab ["a"; "b"] [] 0
    = Ok (h', [e13; e14; e23; e24])
    /\ is_point e13 1 3 "_a1_b3" /\ is_point e14 1 4 "_a1_b4"
    /\ is_point e23 2 3 "_a2_b3" /\ is_point e24 2 4 "_a2_b4".
Proof.
  intros He Hn.
  assert (Hinv : sweep_inv 1 h) by done.
  assert (Hstep : forall x y h hyper_q,
            sweep_inv 1 h -> h !! "a" = Some (VInt x) ->
            exists e,
              fill_base checkpoint_tag ["a"; "b"] (<["b" := VInt y]> h) hyper_q
              = Ok (e, (hyper_q ++ [e])%list)
              /\ sweep_inv 1 e
              /\ is_point e x y ("_a" +:+ pretty x +:+ "_b" +:+ pretty y)).
  { intros x y h0 q0 Hinv0 Ha0. apply fill_base_ab.
    - by apply sweep_inv_insert.
    - by rewrite lookup_insert_ne.
    - by rewrite lookup_insert_eq. }
  assert (Hra : getitem ranges_ab "a" = Ok [VInt 1; VInt 2]).
  { unfold getitem, ranges_ab. by rewrite lookup_insert_eq. }
  assert (Hrb : getitem ranges_ab "b" = Ok [VInt 3; VInt 4]).
  { unfold getitem, ranges_ab. by rewrite lookup_insert_ne, lookup_insert_eq. }
  unfold fill_hyper_q. simpl. rewrite Hra, Hrb. simpl.
  destruct (Hstep 1 3 (<["a" := VInt 1]> h) []) as (e13 & -> & Hinv13 & Hp13).
  { by apply sweep_inv_insert. } { by rewrite lookup_insert_eq. }
  simpl.
  destruct (Hstep 1 4 e13 [e13]) as (e14 & -> & Hinv14 & Hp14);
    [done | apply Hp13 |].
  simpl.
  destruct (Hstep 2 3 (<["a" := VInt 2]> e14) [e13; e14]) as (e23 & -> & Hinv23 & Hp23).
  { by apply sweep_inv_insert. } { by rewrite lookup_insert_eq. }
  simpl.
  destruct (Hstep 2 4 e23 [e13; e14; e23]) as (e24 & -> & Hinv24 & Hp24);
    [done | apply Hp23 |].
  simpl. by exists e24, e13, e14, e23, e24.
Qed.

End SweepFacts.

Lemma fill_hyper_q_two_by_two_witness :
  is_Some (base_hyps !! "n_epochs")
  /\ try_key base_hyps "n_repeats" (VInt 1) = VInt 1
  /\ exists h' e13 e14 e23 e24,
       fill_hyper_q path_tag base_hyps ranges_ab ["a"; "b"] [] 0
       = Ok (h', [e13; e14; e23; e24])
       /\ is_point e13 1 3 "_a1_b3" /\ is_point e14 1 4 "_a1_b4"
       /\ is_point e23 2 3 "_a2_b3" /\ is_point e24 2 4 "_a2_b4".
Proof.
  split; [by eexists|]. split; [reflexivity|].
  apply (fill_hyper_q_two_by_two path_tag base_hyps); [by eexists | reflexivity].
Defined.

(** The failing input of C1, evaluated. *)
Example stop_early_failing_input :
  observe_all (Trainer_init 2 (XReal.Fin (1 # 100))) (replicate 5 (XReal.Fin (1 # 2)))
  = Ok ([false; false; false; false; false],
        mkTrainer 2 (XReal.Fin (1 # 100)) (Some (XReal.Fin (1 # 2))) (Some 0)).
Proof. reflexivity. Qed.

(** ** The optimisation objects *)

Section OptimObjsFacts.
Variable module_globals : gset string.
Variable loss_fn_obj : Type.
Variable call_global : string -> option value -> outcome loss_fn_obj.
Variable check_Adam : value -> value -> outcome ().
Variable check_ReduceLROnPlateau : value -> value -> value -> outcome ().
Variable check_MultiStepLR : value -> outcome ().

Abbreviation build := (get_optim_objs module_globals loss_fn_obj call_global
                         check_Adam check_ReduceLROnPlateau check_MultiStepLR).

(** A loss name that is not bound in the module stops the function with the
    [KeyError] of the lookup in [globals()]. *)
Lemma get_optim_objs_unbound_loss (h : hyps) (name : string) :
  h !! "lossfxn" = Some (VStr name) -> name ∉ module_globals ->
  build h = Raise (KeyError name).
Proof.
  intros Hloss Hname. unfold get_optim_objs. rewrite Hloss. cbv zeta.
  rewrite (getitem_Some _ _ _ Hloss). simpl.
  destruct (h !! "log_poisson") as [log_p|] eqn:Hlog.
  - rewrite (getitem_Some _ _ _ Hlog).
    destruct (_ && _); simpl; by rewrite decide_False.
  - rewrite bool_decide_false by (by intros [? ?]).
    rewrite andb_false_r. simpl. by rewrite decide_False.
Qed.

(** With a loss that can be built, the function comes to the optimiser: what
    [torch.optim.Adam] makes of the learning rate and the weight decay
    decides whether it goes on. *)
Lemma get_optim_objs_to_optimizer (h : hyps) (name : string) (lr l2 : value) :
  h !! "lossfxn" = Some (VStr name) -> name ∈ module_globals ->
  (forall kw, exists loss_fn, call_global name kw = Ok loss_fn) ->
  h !! "lr" = Some lr -> h !! "l2" = Some l2 ->
  exists loss_fn,
    build h
    = (_ ← check_Adam lr l2;
       scheduler ← getitem h "scheduler";
       if eq_str scheduler "ReduceLROnPlateau" then
         factor ← getitem h "scheduler_scale";
         patience ← getitem h "scheduler_patience";
         threshold ← getitem h "scheduler_thresh";
         _ ← check_ReduceLROnPlateau factor patience threshold;
         Ok (h, (Adam lr l2, ReduceLROnPlateau "min" factor patience threshold, loss_fn))
       else if eq_str scheduler "MultiStepLR" then
         let milestones :=
           try_key h "scheduler_milestones" (VList [VInt 10; VInt 20; VInt 30]) in
         _ ← check_MultiStepLR milestones;
         Ok (h, (Adam lr l2, MultiStepLR milestones "0.1", loss_fn))
       else
         Ok (<["scheduler" := VStr "NullScheduler"]> h,
             (Adam lr l2, NullScheduler, loss_fn))).
Proof.
  intros Hloss Hname Hcall Hlr Hl2.
  unfold get_optim_objs. rewrite Hloss. cbv zeta.
  rewrite (getitem_Some _ _ _ Hloss), (getitem_Some _ _ _ Hlr), (getitem_Some _ _ _ Hl2).
  simpl.
  set (loss := if _ && _ then _ else _).
  assert (Hok : exists loss_fn, loss = Ok loss_fn).
  { subst loss. destruct (h !! "log_poisson") as [log_p|] eqn:Hlog.
    - rewrite (getitem_Some _ _ _ Hlog).
      destruct (_ && _); simpl; rewrite decide_True by done; apply Hcall.
    - rewrite bool_decide_false by (by intros [? ?]).
      rewrite andb_false_r. simpl. rewrite decide_True by done. apply Hcall. }
  destruct Hok as [loss_fn ->]. exists loss_fn. done.
Qed.

(** A scheduler name other than the two the function knows is replaced by
    the no-op scheduler, in the returned objects and in the dictionary. *)
Lemma get_optim_objs_unknown_scheduler (h : hyps) (name : string) (lr l2 sched : value) :
  h !! "lossfxn" = Some (VStr name) -> name ∈ module_globals ->
  (forall kw, exists loss_fn, call_global name kw = Ok loss_fn) ->
  h !! "lr" = Some lr -> h !! "l2" = Some l2 -> check_Adam lr l2 = Ok () ->
  h !! "scheduler" = Some sched ->
  eq_str sched "ReduceLROnPlateau" = false -> eq_str sched "MultiStepLR" = false ->
  exists loss_fn,
    build h
    = Ok (<["scheduler" := VStr "NullScheduler"]> h, (Adam lr l2, NullScheduler, loss_fn)).
Proof.
  intros Hloss Hname Hcall Hlr Hl2 Hadam Hsched Hne1 Hne2.
  destruct (get_optim_objs_to_optimizer h name lr l2 Hloss Hname Hcall Hlr Hl2)
    as [loss_fn ->].
  exists loss_fn. rewrite Hadam, (getitem_Some _ _ _ Hsched). simpl.
  by rewrite Hne1, Hne2.
Qed.

(** C6, as the code has it.  A loss name that is not bound in the module
    fails with the [KeyError] of the lookup.  A scheduler name that is
    neither ["ReduceLROnPlateau"] nor ["MultiStepLR"] does not fail: once the
    loss and the optimiser are built, the no-op scheduler is built in its
    place and the dictionary is given the name ["NullScheduler"].  The one
    failure left on that path is that of [torch.optim.Adam] on the learning
    rate and the weight decay, which comes before the scheduler is looked
    at. *)
Theorem get_optim_objs_unregistered (h : hyps) (name : string) (lr l2 sched : value) :
  h !! "lossfxn" = Some (VStr name) ->
  (name ∉ module_globals ->
   get_optim_objs module_globals loss_fn_obj call_global check_Adam
                  check_ReduceLROnPlateau check_MultiStepLR h
   = Raise (KeyError name))
  /\ (name ∈ module_globals ->
      (forall kw, exists loss_fn, call_global name kw = Ok loss_fn) ->
      h !! "lr" = Some lr -> h !! "l2" = Some l2 ->
      h !! "scheduler" = Some sched ->
      eq_str sched "ReduceLROnPlateau" = false -> eq_str sched "MultiStepLR" = false ->
      match check_Adam lr l2 with
      | Ok _ =>
          exists loss_fn,
            get_optim_objs module_globals loss_fn_obj call_global check_Adam
                           check_ReduceLROnPlateau check_MultiStepLR h
            = Ok (<["scheduler" := VStr "NullScheduler"]> h,
                  (Adam lr l2, NullScheduler, loss_fn))
      | Raise e =>
          get_optim_objs module_globals loss_fn_obj call_global check_Adam
                         check_ReduceLROnPlateau check_MultiStepLR h
          = Raise e
      end).
Proof.
  intros Hloss. split.
  - by apply get_optim_objs_unbound_loss.
  - intros Hname Hcall Hlr Hl2 Hsched Hne1 Hne2.
    destruct (check_Adam lr l2) as [[]|e] eqn:Hadam.
    + by eapply get_optim_objs_unknown_scheduler.
    + destruct (get_optim_objs_to_optimizer h name lr l2 Hloss Hname Hcall Hlr Hl2)
        as [loss_fn ->].
      by rewrite Hadam.
Qed.

End OptimObjsFacts.

(** C6, the claim as stated fails: the unregistered scheduler name
    ["CosineAnnealingLR"] raises nothing; the function returns, with the
    no-op scheduler in the place of the one asked for. *)
Lemma unregistered_scheduler_is_replaced :
  built_objects
    (get_optim_objs example_globals _ record_call nonnegative_rates any_plateau
                    any_milestones cosine_hyps)
  = Ok (Some (VStr "NullScheduler"),
        (Adam (VFloat "0.001") (VFloat "0.01"), NullScheduler,
         ("PoissonNLLLoss", None))).
Proof. vm_compute. reflexivity. Qed.

Lemma PoissonNLLLoss_is_bound : "PoissonNLLLoss" ∈ example_globals.
Proof. unfold example_globals. rewrite !elem_of_union, !elem_of_singleton. tauto. Qed.

Lemma get_optim_objs_unregistered_witness :
  cosine_hyps !! "lossfxn" = Some (VStr "PoissonNLLLoss")
  /\ exists loss_fn,
       get_optim_objs example_globals _ record_call nonnegative_rates any_plateau
                      any_milestones cosine_hyps
       = Ok (<["scheduler" := VStr "NullScheduler"]> cosine_hyps,
             (Adam (VFloat "0.001") (VFloat "0.01"), NullScheduler, loss_fn)).
Proof.
  split; [reflexivity|].
  destruct (get_optim_objs_unregistered example_globals _ record_call nonnegative_rates
              any_plateau any_milestones cosine_hyps
              "PoissonNLLLoss" (VFloat "0.001") (VFloat "0.01") (VStr "CosineAnnealingLR")
              eq_refl) as [_ Hscheduler].
  refine (Hscheduler PoissonNLLLoss_is_bound _ eq_refl eq_refl eq_refl eq_refl eq_refl).
  intros kw. by eexists.
Defined.

(** A learning rate below zero on the same configuration: the optimiser is
    refused before the scheduler is looked at. *)
Example negative_lr_is_refused :
  built_objects
    (get_optim_objs example_globals _ record_call nonnegative_rates any_plateau
                    any_milestones negative_lr_hyps)
  = Raise ValueError.
Proof. vm_compute. reflexivity. Qed.

(** ** The epoch loop of [train_loop] *)

Section TrainLoopFacts.
Context `{Collaborators}.

(** An epoch that is not a pruning one passes the pruning phase unchanged,
    provided the interval is a non-zero integer and the option [prune] can be
    read where the stats are printed. *)
Lemma pruning_phase_skip (env : loop_env) (s : loop_state) (va : float) (k : Z) :
  truthy (ls_hyps_prune s) && (ls_epoch s >=? ls_n_epochs s - 1) = false ->
  ls_hyps s !! "prune_intvl" = Some (VInt k) -> k ≠ 0 ->
  truthy (ls_hyps_prune s) = true \/ is_Some (ls_hyps s !! "prune") ->
  pruning_phase env s va = Normal (va, s).
Proof.
  intros Hprune Hk Hk0 Hread. unfold pruning_phase.
  rewrite Hprune, (getitem_Some _ _ _ Hk). simpl.
  unfold py_mod. rewrite (proj2 (Z.eqb_neq k 0) Hk0). simpl.
  destruct Hread as [-> | [v Hv]]; [done|].
  destruct (truthy (ls_hyps_prune s)); [done|].
  by rewrite (getitem_Some _ _ _ Hv).
Qed.

(** C5, as the code has it.  A round of the epoch loop that reaches its last
    line leaves the loop there exactly when the average training loss of the
    epoch is a NaN or an infinity or the early-stopping monitor has signalled;
    the validation loss has no part in the test.  In every other case the
    loop goes back to its test with the state the round has built. *)
Theorem break_decision (env : loop_env) (s s' : loop_state) (brk : bool) :
  iteration env s = Normal (brk, s') ->
  exists avg w vl va stop self' w',
    train_phase s = Normal (avg, w)
    /\ validation_phase (ls_self s) (ls_hyps s) w = Normal (vl, va, stop, self', w')
    /\ brk = nonfinite avg || stop
    /\ (ls_stop_training s = false ->
        forall fuel, epoch_loop (S fuel) env s
                     = if brk then Some (Normal s') else epoch_loop fuel env s').
Proof.
  intros Hiter. pose proof Hiter as Hiter'. unfold iteration in Hiter.
  destruct (train_phase s) as [[avg w]|] eqn:Htrain; [|done].
  simpl in Hiter.
  destruct (validation_phase (ls_self s) (ls_hyps s) w)
    as [[[[[vl va] stop] self'] w']|] eqn:Hval; [|done].
  simpl in Hiter.
  destruct (pruning_phase env _ va) as [[va' s1]|] eqn:Hprune; [|done].
  simpl in Hiter. injection Hiter as <- <-.
  exists avg, w, vl, va, stop, self', w'. repeat split; try done.
  intros Hstop fuel. simpl. rewrite Hstop, Hiter'. by destruct (nonfinite avg || stop).
Qed.

End TrainLoopFacts.

(** C5, the claim as stated fails: with a validation loss that is a NaN, a
    finite training loss and no signal of the monitor, the round does not
    end on the [break]. *)
Lemma nonfinite_val_loss_does_not_break :
  break_and_val_loss
    (iteration Toy.plain_env
       (Toy.start_state Toy.no_stopping Toy.example_hyps Toy.nan_val_world 2 (VBool false)))
  = Some (false, Some true).
Proof. vm_compute. reflexivity. Qed.

Lemma break_decision_witness :
  let s := Toy.start_state Toy.no_stopping Toy.example_hyps Toy.fresh_world 2 (VBool false) in
  let s' := Toy.round Toy.plain_env s in
  iteration Toy.plain_env s = Normal (false, s')
  /\ exists avg w vl va stop self' w',
       train_phase s = Normal (avg, w)
       /\ validation_phase (ls_self s) (ls_hyps s) w = Normal (vl, va, stop, self', w')
       /\ false = nonfinite avg || stop
       /\ (ls_stop_training s = false ->
           forall fuel, epoch_loop (S fuel) Toy.plain_env s
                        = if false then Some (Normal s') else epoch_loop fuel Toy.plain_env s').
Proof.
  intros s s'.
  assert (Hiter : iteration Toy.plain_env s = Normal (false, s')) by reflexivity.
  split; [exact Hiter|].
  exact (break_decision Toy.plain_env s s' false Hiter).
Defined.

Section DivergenceFacts.
Context `{Collaborators}.

Lemma run_batches_cons (coef : option value) (zd : zdict) (zb : value) (b : batch)
    (batches : list batch) (l : float) (w : world) :
  run_batches coef zd zb (b :: batches) (l, w)
  = run_batches coef zd zb batches
      (fadd l (train_step coef b w).1, zero_chans zd zb (train_step coef b w).2).
Proof. unfold run_batches. simpl. by destruct (train_step coef b w). Qed.

Lemma gauss_penalty_none (h : hyps) : no_gauss_reg h -> gauss_penalty h = Ok ().
Proof.
  intros Hg. unfold gauss_penalty. destruct (h !! "gauss_reg") as [g|] eqn:Hgr; [|done].
  by rewrite (Hg g Hgr).
Qed.





End DivergenceFacts.



(** ** Ordinary training: how many epochs the loop runs *)

Section PlainLoopFacts.
Context `{Collaborators}.

(** A quiet run is a steady one whose monitor never changes. *)
Lemma quiet_steady (self : Trainer) (h : hyps) (inv : world -> Prop) :
  quiet self h inv -> steady h (λ self' w, self' = self /\ inv w).
Proof.
  intros Hq s Hh [Hself Hinv].
  destruct (Hq s Hself Hh Hinv) as (avg & w & vl & va & w' & Htrain & Hfin & Hval & Hinv').
  exists avg, w, vl, va, self, w'. by rewrite Hself.
Qed.

(** A round of ordinary training in a steady run: the pruning phase is
    passed over, the checkpoint is saved, and the loop goes back to its
    test. *)
Lemma plain_iteration (env : loop_env) (h : hyps) (inv : Trainer -> world -> Prop)
    (s : loop_state) (k : Z) :
  steady h inv -> ls_hyps s = h -> inv (ls_self s) (ls_world s) ->
  truthy (ls_hyps_prune s) = false ->
  h !! "prune_intvl" = Some (VInt k) -> k ≠ 0 -> is_Some (h !! "prune") ->
  exists s', iteration env s = Normal (false, s')
    /\ ls_hyps s' = h /\ inv (ls_self s') (ls_world s')
    /\ ls_epoch s' = ls_epoch s + 1
    /\ ls_n_epochs s' = ls_n_epochs s
    /\ ls_hyps_prune s' = ls_hyps_prune s
    /\ ls_stop_training s' = (ls_epoch s + 1 >=? ls_n_epochs s)
    /\ saved_epochs s' = (saved_epochs s ++ [ls_epoch s + 1])%list.
Proof.
  intros Hq Hh Hinv Hprune Hk Hk0 Hread.
  destruct (Hq s Hh Hinv) as (avg & w & vl & va & self' & w' & Htrain & Hfin & Hval & Hinv').
  unfold iteration. rewrite Htrain. simpl. rewrite Hh, Hval. simpl.
  rewrite (pruning_phase_skip env _ va k); simpl; rewrite ?Hh; try done.
  - rewrite Hfin. simpl. eexists. split; [done|]. simpl.
    rewrite Hprune. simpl. rewrite andb_true_r.
    repeat split; try done.
    unfold saved_epochs. simpl. by rewrite map_app.
  - by rewrite Hprune.
  - by right.
Qed.

(** The loop of ordinary training from a state with [n + 1] epochs to go up
    to [n_epochs]: it runs [n + 1] rounds, the last of them for the epoch
    whose number is [n_epochs] itself. *)
Lemma plain_loop (env : loop_env) (h : hyps) (inv : Trainer -> world -> Prop) (k : Z) :
  steady h inv ->
  h !! "prune_intvl" = Some (VInt k) -> k ≠ 0 -> is_Some (h !! "prune") ->
  forall (n : nat) (s : loop_state) (fuel : nat),
    ls_hyps s = h -> inv (ls_self s) (ls_world s) ->
    truthy (ls_hyps_prune s) = false -> ls_stop_training s = false ->
    ls_n_epochs s - ls_epoch s = Z.of_nat (S n) ->
    (S n < fuel)%nat ->
    exists s', epoch_loop fuel env s = Some (Normal s')
      /\ ls_epoch s' = ls_n_epochs s
      /\ saved_epochs s' = (saved_epochs s ++ seqZ (ls_epoch s + 1) (Z.of_nat (S n)))%list.
Proof.
  intros Hq Hk Hk0 Hread.
  induction n as [|n IH]; intros s fuel Hh Hinv Hprune Hrun Hleft Hfuel.
  - destruct fuel as [|[|fuel]]; [lia..|].
    destruct (plain_iteration env h inv s k)
      as (s' & Hiter & _ & _ & He & Hn & _ & Hstop & Hsaved); try done.
    change (epoch_loop (S (S fuel)) env s)
      with (if ls_stop_training s then Some (Normal s)
            else match iteration env s with
                 | Throw e self h => Some (Throw e self h)
                 | Normal (true, s) => Some (Normal s)
                 | Normal (false, s) => epoch_loop (S fuel) env s
                 end).
    rewrite Hrun, Hiter. simpl. rewrite Hstop.
    replace (ls_epoch s + 1 >=? ls_n_epochs s) with true
      by (symmetry; apply Z.geb_le; lia).
    exists s'. split; [done|]. split; [lia|]. by rewrite Hsaved.
  - destruct fuel as [|fuel]; [lia|].
    destruct (plain_iteration env h inv s k)
      as (s' & Hiter & Hh' & Hinv' & He & Hn & Hp & Hstop & Hsaved); try done.
    change (epoch_loop (S fuel) env s)
      with (if ls_stop_training s then Some (Normal s)
            else match iteration env s with
                 | Throw e self h => Some (Throw e self h)
                 | Normal (true, s) => Some (Normal s)
                 | Normal (false, s) => epoch_loop fuel env s
                 end).
    rewrite Hrun, Hiter.
    destruct (IH s' fuel) as (s'' & Hloop & He'' & Hsaved''); try done.
    + by rewrite Hp.
    + rewrite Hstop, Z.geb_leb. apply Z.leb_gt. lia.
    + lia.
    + lia.
    + exists s''. split; [done|]. split; [lia|].
      rewrite Hsaved'', Hsaved, He, <- app_assoc. f_equal.
      rewrite (seqZ_cons (ls_epoch s + 1) (Z.of_nat (S (S n)))) by lia.
      simpl. do 2 f_equal. lia.
Qed.

(** C2. With pruning off, a quiet run of [n_epochs = N] leaves the epoch
    loop only after the round of epoch [N]: it runs [N + 1] rounds and saves
    [N + 1] checkpoints, with the [epoch] fields 0, 1, ..., [N].  For
    [N = 2] that is three checkpoints, the last with [epoch] 2. *)
Theorem plain_run_epochs (env : loop_env) (self : Trainer) (h : hyps)
    (inv : world -> Prop) (k N : Z) (s : loop_state) (fuel : nat) :
  quiet self h inv ->
  h !! "prune_intvl" = Some (VInt k) -> k ≠ 0 -> is_Some (h !! "prune") ->
  ls_self s = self -> ls_hyps s = h -> inv (ls_world s) -> ls_ckpts s = [] ->
  truthy (ls_hyps_prune s) = false -> ls_stop_training s = false ->
  ls_epoch s = -1 -> ls_n_epochs s = N -> 0 <= N ->
  (Z.to_nat N + 1 < fuel)%nat ->
  exists s', epoch_loop fuel env s = Some (Normal s')
    /\ ls_epoch s' = N
    /\ saved_epochs s' = seqZ 0 (N + 1).
Proof.
  intros Hq Hk Hk0 Hread Hself Hh Hinv Hck Hprune Hrun He Hn HN Hfuel.
  destruct (plain_loop env h _ k (quiet_steady _ _ _ Hq) Hk Hk0 Hread (Z.to_nat N) s fuel)
    as (s' & Hloop & He' & Hsaved); try done; try lia.
  exists s'. split; [done|]. split; [lia|].
  rewrite Hsaved. unfold saved_epochs. rewrite Hck, He. simpl map.
  rewrite app_nil_l. f_equal; lia.
Qed.

End PlainLoopFacts.

Lemma toy_quiet : quiet Toy.no_stopping Toy.example_hyps Toy.toy_data.
Proof.
  intros [self h [steps lr mask train val acc] ckpts e n hp st zd zb pd cl stats].
  intros Hself Hh Hinv. unfold Toy.toy_data in Hinv. simpl in *.
  destruct Hinv as (-> & -> & ->). subst self h.
  eexists _, _, _, _, _. split; [reflexivity|]. split; [reflexivity|].
  split; [reflexivity|]. done.
Qed.

(** Two epochs asked for, three run: the checkpoints of epochs 0, 1 and 2. *)
Lemma plain_run_epochs_witness :
  exists s',
    epoch_loop 4 Toy.plain_env
      (Toy.start_state Toy.no_stopping Toy.example_hyps Toy.fresh_world 2 (VBool false))
    = Some (Normal s')
    /\ ls_epoch s' = 2
    /\ saved_epochs s' = seqZ 0 (2 + 1).
Proof.
  apply (plain_run_epochs Toy.plain_env Toy.no_stopping Toy.example_hyps Toy.toy_data 2 2).
  all: try exact toy_quiet.
  all: try reflexivity.
  all: try lia.
  - by eexists.
  - done.
Defined.

(** The same run, evaluated from the set-up of the fold on. *)
Example two_epochs_asked_three_run :
  loop_epochs
    (match run_fold 4 Toy.no_stopping Toy.example_hyps [] with
     | Some (Normal (_, s)) => Some (Normal s)
     | Some (Throw e self h) => Some (Throw e self h)
     | None => None
     end)
  = Some [0; 1; 2].
Proof. vm_compute. reflexivity. Qed.

(** ** Pruning with [reset_sd] *)

Section RollbackFacts.
Context `{Collaborators}.

(** The pruning block at the step that leaves no layer open, under
    [reset_sd]. *)
Lemma prune_block_completes (env : loop_env) (s : loop_state) (k N : Z)
    (va va0 : float) (pd0 pd' : prune_dict model_state) (bsize ol lr : value)
    (sample : batch) (w1 w2 : world) (h' : hyps) :
  prune_inputs env s k va = Some (pd0, va0) ->
  ls_hyps s !! "intg_bsize" = Some bsize ->
  intg_sample bsize (ls_world s) = (Some sample, w1) ->
  prune_channels (ls_hyps s) sample va0 (get_lr (ls_world s)) pd0 w1 = (pd', h', w2) ->
  h' !! "open_layers" = Some ol -> py_len ol = Ok 0 ->
  truthy (reset_sd env) = true ->
  h' !! "lr" = Some lr -> h' !! "n_epochs" = Some (VInt N) ->
  prune_block env s k va = Normal (va0, rolled_back env s pd' h' w2 lr va0 N).
Proof.
  intros Hin Hbsize Hsample Hprune Hopen Hlen Hreset Hlr HN.
  unfold prune_block. unfold prune_inputs in Hin.
  set (first := if ls_epoch s <=? ls_n_epochs s + k then _ else _).
  assert (Hfirst : first = Normal (Some pd0, va0)).
  { subst first. destruct (ls_epoch s <=? ls_n_epochs s + k).
    - destruct (ls_cur_lr s) as [c|]; [|done]. simpl in *.
      destruct (ls_hyps s !! "exp_name") as [name|] eqn:Hname; [|done].
      rewrite (getitem_Some _ _ _ Hname). simpl in *. by injection Hin as <- <-.
    - destruct (ls_prune_dict s) as [pd|]; [|done]. simpl in *.
      by injection Hin as <- <-. }
  rewrite Hfirst. simpl. rewrite (getitem_Some _ _ _ Hbsize). simpl.
  rewrite Hsample. simpl. rewrite Hprune.
  rewrite (getitem_Some _ _ _ Hopen). simpl. rewrite Hlen. simpl.
  rewrite Hreset, (getitem_Some _ _ _ Hlr). simpl.
  rewrite (getitem_Some _ _ _ HN). simpl.
  unfold rolled_back, rolled_back_world.
  by destruct (reset_lr env && negb (feqb (pd_prev_acc pd') va0)).
Qed.

(** What the locals of a fold keep of the world and of the configuration
    the fold starts from: the dictionary of the optimiser, and the option
    [reset_sd]. *)
Lemma init_fold_env (self : Trainer) (h : hyps) (w : world)
    (ckpts : list (save_dict * bool)) (env : loop_env) (s : loop_state) :
  init_fold self h w ckpts = Normal (env, s) ->
  og_optim_dict env = optim_state_dict w
  /\ reset_sd env = try_key h "reset_sd" (VBool false).
Proof.
  intros Hinit. unfold init_fold in Hinit.
  destruct (getitem h "exp_name") as [exp_name|]; [|done]. simpl in Hinit.
  set (h1 := if eq_str exp_name "test" then _ else h) in Hinit.
  assert (H1 : h1 !! "reset_sd" = h !! "reset_sd").
  { subst h1. destruct (eq_str exp_name "test"); [|done].
    by rewrite !lookup_insert_ne. }
  clearbody h1.
  destruct (getitem h1 "prune_layers") as [v|]; [|done]. simpl in Hinit.
  set (h2 := if eq_str v "all" || eq_nil v then _ else h1) in Hinit.
  assert (H2 : h2 !! "reset_sd" = h !! "reset_sd").
  { subst h2. destruct (_ || _); [|done]. by rewrite !lookup_insert_ne. }
  clearbody h2. cbv zeta in Hinit.
  destruct (getitem h2 "n_epochs") as [ne|]; [|done]. simpl in Hinit.
  match type of Hinit with
  | context [if ?c then at_heap ?a ?b ?m else ?n] =>
      destruct (if c then at_heap a b m else n) as [ne'|]; [|done]
  end.
  simpl in Hinit.
  destruct (as_int ne') as [n|]; [|done]. simpl in Hinit.
  destruct (at_heap self h2 (getitem h2 "prune_layers" ≫= layer_names)) as [names|];
    [|done].
  simpl in Hinit.
  assert (Hr : try_key h2 "reset_sd" (VBool false) = try_key h "reset_sd" (VBool false)).
  { unfold try_key. by rewrite H2. }
  destruct (h2 !! "startpt") as [path|] eqn:Hpath.
  - destruct (is_None path).
    + injection Hinit as <- _. by rewrite <- Hr.
    + destruct (startpt_checkpoint path) as [zd [b|]]; injection Hinit as <- _; simpl;
        by rewrite <- Hr.
  - injection Hinit as <- _. by rewrite <- Hr.
Qed.

(** C4, as the code has it.  At the pruning step that leaves no layer open,
    with [reset_sd] set, the pruning phase loads [og_state_dict] and
    [og_optim_dict], sets the configured learning rate and applies the final
    mask.  The optimiser gets the dictionary taken when the fold started;
    the model gets [og_state_dict] as it reads at that moment, which is the
    state of the model itself: where loading a model with its own tensors
    changes nothing, the parameters stay those that training and pruning have
    left, and nothing of the model the fold started with comes back.  The
    budget is as claimed: pruning is switched off, the epoch budget becomes
    the configured [n_epochs = N] counted from the current epoch, and a
    steady run trains for exactly [N] more epochs before the loop ends. *)
Theorem reset_sd_rollback_and_budget (self0 : Trainer) (h0 : hyps) (w0 : world)
    (ckpts0 : list (save_dict * bool)) (env : loop_env) (s0 s : loop_state) (k k' N : Z)
    (va va0 : float) (pd0 pd' : prune_dict model_state) (bsize ol lr : value)
    (sample : batch) (w1 w2 : world) (h' : hyps) (inv : Trainer -> world -> Prop)
    (stats : epoch_stats) (fuel : nat) :
  init_fold self0 h0 w0 ckpts0 = Normal (env, s0) ->
  truthy (try_key h0 "reset_sd" (VBool false)) = true ->
  truthy (ls_hyps_prune s) = true -> ls_n_epochs s - 1 <= ls_epoch s ->
  ls_hyps s !! "prune_intvl" = Some (VInt k) -> k ≠ 0 ->
  (ls_epoch s - ls_n_epochs s) `mod` k = 0 ->
  prune_inputs env s k va = Some (pd0, va0) ->
  ls_hyps s !! "intg_bsize" = Some bsize ->
  intg_sample bsize (ls_world s) = (Some sample, w1) ->
  prune_channels (ls_hyps s) sample va0 (get_lr (ls_world s)) pd0 w1 = (pd', h', w2) ->
  h' !! "open_layers" = Some ol -> py_len ol = Ok 0 ->
  h' !! "lr" = Some lr -> h' !! "n_epochs" = Some (VInt N) ->
  steady h' inv -> inv (ls_self s) (rolled_back_world env pd' h' lr va0 w2) ->
  h' !! "prune_intvl" = Some (VInt k') -> k' ≠ 0 -> is_Some (h' !! "prune") ->
  1 <= N -> (Z.to_nat N < fuel)%nat ->
  let s1 := rolled_back env s pd' h' w2 lr va0 N in
  let relearn := if reset_lr env && negb (feqb (pd_prev_acc pd') va0)
                 then set_lr lr else id in
  let mask := zero_chans (pd_zero_dict pd') (try_key h' "zero_bias" (VBool true)) in
  pruning_phase env s va = Normal (va0, s1)
  /\ ls_world s1
     = mask (relearn (set_lr lr
               (load_optim_state (optim_state_dict w0)
                  (load_model_state (model_state_dict w2) w2))))
  /\ (load_own_state_is_noop ->
      ls_world s1
      = mask (relearn (set_lr lr (load_optim_state (optim_state_dict w0) w2))))
  /\ ls_zero_dict s1 = pd_zero_dict pd'
  /\ exists s2,
       epoch_loop fuel env (snapshot s1 stats) = Some (Normal s2)
       /\ ls_epoch s2 = ls_epoch s + N
       /\ saved_epochs s2
          = (saved_epochs s ++ [ls_epoch s] ++ seqZ (ls_epoch s + 1) N)%list.
Proof.
  intros Hinit Hreset0 Hp He Hk Hk0 Hmod Hin Hbsize Hsample Hprune Hopen Hlen Hlr HN
         Hq Hinv Hk' Hk0' Hread HN1 Hfuel s1 relearn mask.
  destruct (init_fold_env _ _ _ _ _ _ Hinit) as [Hoptim Hreset].
  assert (Hworld : ls_world s1
                   = mask (relearn (set_lr lr
                             (load_optim_state (optim_state_dict w0)
                                (load_model_state (model_state_dict w2) w2))))).
  { subst s1 relearn mask. unfold rolled_back, rolled_back_world, og_state_dict. simpl.
    rewrite Hoptim. by destruct (reset_lr env && negb (feqb (pd_prev_acc pd') va0)). }
  split; [|split; [|split; [|split]]].
  - unfold pruning_phase. rewrite Hp, (getitem_Some _ _ _ Hk). simpl.
    unfold py_mod. rewrite (proj2 (Z.eqb_neq k 0) Hk0). simpl.
    rewrite Hmod. simpl.
    replace (ls_epoch s >=? ls_n_epochs s - 1) with true
      by (symmetry; apply Z.geb_le; lia).
    simpl.
    rewrite (prune_block_completes env s k N va va0 pd0 pd' bsize ol lr sample w1 w2 h');
      try done.
    by rewrite Hreset.
  - done.
  - intros Hnoop. by rewrite Hworld, Hnoop.
  - done.
  - destruct (plain_loop env h' inv k' Hq Hk' Hk0' Hread
                (Z.to_nat N - 1) (snapshot s1 stats) fuel)
      as (s2 & Hloop & He2 & Hsaved); try done.
    + simpl. lia.
    + lia.
    + exists s2. split; [done|]. split.
      * rewrite He2. simpl. lia.
      * rewrite Hsaved. unfold saved_epochs at 1. simpl ls_ckpts.
        rewrite map_app. simpl. rewrite <- app_assoc. simpl.
        do 3 f_equal. lia.
Qed.

End RollbackFacts.

Lemma toy_quiet_closed : quiet Toy.no_stopping Toy.closed_hyps Toy.toy_data.
Proof.
  intros [self h [steps lr mask train val acc] ckpts e n hp st zd zb pd cl stats].
  intros Hself Hh Hinv. unfold Toy.toy_data in Hinv. simpl in *.
  destruct Hinv as (-> & -> & ->). subst self h.
  eexists _, _, _, _, _. split; [reflexivity|]. split; [reflexivity|].
  split; [reflexivity|]. done.
Qed.

Lemma toy_load_own_state : load_own_state_is_noop.
Proof. by intros []. Qed.

(** The toy pruning run: at epoch 2 the model keeps the six steps it has
    taken, under the mask of the pruning step, and two more epochs follow. *)
Lemma reset_sd_rollback_and_budget_witness :
  let s := Toy.pruning_epoch in
  let va := XReal.Fin (1 # 2) in
  let s1 := rolled_back Toy.rollback_env s Toy.last_prune_dict Toy.closed_hyps
                        (ls_world s) (VFloat "0.001") va 2 in
  let mask := zero_chans Toy.pruned_mask (VBool true) in
  pruning_phase Toy.rollback_env s va = Normal (va, s1)
  /\ ls_world s1
     = mask (id (set_lr (VFloat "0.001")
                   (load_optim_state (optim_state_dict Toy.fresh_world)
                      (load_model_state (model_state_dict (ls_world s)) (ls_world s)))))
  /\ (load_own_state_is_noop ->
      ls_world s1
      = mask (id (set_lr (VFloat "0.001")
                    (load_optim_state (optim_state_dict Toy.fresh_world) (ls_world s)))))
  /\ ls_zero_dict s1 = Toy.pruned_mask
  /\ exists s2,
       epoch_loop 3 Toy.rollback_env
         (snapshot s1 (mkStats (XReal.Fin (1 # 2)) va va (XReal.Fin 0)))
       = Some (Normal s2)
       /\ ls_epoch s2 = ls_epoch s + 2
       /\ saved_epochs s2 = (saved_epochs s ++ [ls_epoch s] ++ seqZ (ls_epoch s + 1) 2)%list.
Proof.
  intros s va s1 mask.
  refine (reset_sd_rollback_and_budget Toy.no_stopping Toy.pruning_hyps Toy.fresh_world []
            Toy.rollback_env
            (Toy.start_state Toy.no_stopping Toy.pruning_hyps Toy.fresh_world 2 (VBool true))
            s 2 2 2 va va
            Toy.first_prune_dict Toy.last_prune_dict (VInt 500) (VSet [])
            (VFloat "0.001") (XReal.Fin (1 # 2)) (ls_world s) (ls_world s)
            Toy.closed_hyps (λ self' w, self' = Toy.no_stopping /\ Toy.toy_data w)
            _ 3 _ _ _ _ _ _ _ _ _ _ _ _ _ _ _
            (quiet_steady _ _ _ toy_quiet_closed) _ _ _ _ _ _).
  - reflexivity.
  - reflexivity.
  - vm_compute. reflexivity.
  - vm_compute. discriminate.
  - vm_compute. reflexivity.
  - lia.
  - vm_compute. reflexivity.
  - reflexivity.
  - vm_compute. reflexivity.
  - reflexivity.
  - reflexivity.
  - reflexivity.
  - reflexivity.
  - reflexivity.
  - reflexivity.
  - split; [reflexivity|]. repeat split.
  - reflexivity.
  - lia.
  - by eexists.
  - lia.
  - simpl. lia.
Defined.

(** The same run from the set-up of the fold on: the checkpoints of epochs 0
    to 4, with the steps the model has taken when each is saved.  The model
    is not back at its first state at epoch 2: it goes on from its six
    steps. *)
Example rollback_run_observed :
  Toy.epochs_and_steps (run_fold 6 Toy.no_stopping Toy.pruning_hyps [])
  = Some [(0, 2%nat); (1, 4%nat); (2, 6%nat); (3, 8%nat); (4, 10%nat)].
Proof. vm_compute. reflexivity. Qed.

(** ** The run entry and the sweep runner *)

Section RunEntryFacts.
Context `{PyFloat}.
Variable result : Type.
Variables (train_loop_method retinotopic_loop_method : method result).
Variable format_results : result -> string.

Abbreviation sweep_on :=
  (hyper_loop result train_loop_method retinotopic_loop_method format_results).

(** C8, as the code has it.  When the variant chosen for a job, ordinary or
    retinotopic, raises an [IndexError], [Trainer.train] prints that it
    caught it, with the message of the exception, and returns [None].  The
    sweep runner then writes nothing to the results file and prints the line
    of the skipped run, for which it reads [hyps['dataset']] and
    [hyps['cells']] in the dictionary as the run left it.  When both are
    there, the sweep goes on with the rest of the queue, and ends there if
    the job was the last; when one is missing, the [KeyError] of the read
    ends the sweep. *)
Theorem index_error_is_skipped (sw : sweep) (h h' : hyps) (hyper_q : list hyps)
    (self' : Trainer) (msg : string) :
  train_method result train_loop_method retinotopic_loop_method h (sw_trainer sw) h
  = Some (Throw (IndexError msg) self' h') ->
  train result train_loop_method retinotopic_loop_method (sw_trainer sw) h
  = Some (Normal (None, self', h'), ["Caught Index Error " +:+ msg])
  /\ match h' !! "dataset", h' !! "cells" with
     | Some dataset, Some cells =>
         let sw' :=
           mkSweep self' (sw_results_file sw)
                   (sw_stdout sw ++ ["Caught Index Error " +:+ msg;
                                     skipped_line dataset cells]) in
         hyper_loop result train_loop_method retinotopic_loop_method format_results [h] sw
         = Some (Normal sw')
         /\ hyper_loop result train_loop_method retinotopic_loop_method format_results
              (h :: hyper_q) sw
            = hyper_loop result train_loop_method retinotopic_loop_method format_results
                hyper_q sw'
     | None, _ =>
         hyper_loop result train_loop_method retinotopic_loop_method format_results
           (h :: hyper_q) sw
         = Some (Throw (KeyError "dataset") self' h')
     | Some _, None =>
         hyper_loop result train_loop_method retinotopic_loop_method format_results
           (h :: hyper_q) sw
         = Some (Throw (KeyError "cells") self' h')
     end.
Proof.
  intros Hraise.
  assert (Htrain : train result train_loop_method retinotopic_loop_method
                     (sw_trainer sw) h
                   = Some (Normal (None, self', h'), ["Caught Index Error " +:+ msg])).
  { unfold train. by rewrite Hraise. }
  split; [done|].
  assert (Hstep : forall q, sweep_on (h :: q) sw
            = match at_heap self' h'
                      (dataset ← getitem h' "dataset";
                       cells ← getitem h' "cells";
                       Ok ("Skipped " +:+ py_str dataset +:+ " cells " +:+ py_str cells))
              with
              | Throw e self h => Some (Throw e self h)
              | Normal line =>
                  sweep_on q
                    (mkSweep self' (sw_results_file sw)
                       (sw_stdout sw ++ ["Caught Index Error " +:+ msg] ++ [line]))
              end).
  { intros q. simpl. by rewrite Htrain. }
  destruct (h' !! "dataset") as [dataset|] eqn:Hdataset.
  - destruct (h' !! "cells") as [cells|] eqn:Hcells.
    + rewrite !Hstep, (getitem_Some _ _ _ Hdataset). simpl.
      rewrite (getitem_Some _ _ _ Hcells). simpl. done.
    + rewrite Hstep, (getitem_Some _ _ _ Hdataset). simpl.
      by rewrite (getitem_None _ _ Hcells).
  - by rewrite Hstep, (getitem_None _ _ Hdataset).
Qed.

(** X24. Only [IndexError] is caught: any other exception of the chosen
    variant goes through [Trainer.train] and ends the sweep, whatever jobs
    the queue still holds. *)
Lemma other_exception_propagates (sw : sweep) (h h' : hyps) (hyper_q : list hyps)
    (self' : Trainer) (e : exn) :
  (forall msg, e ≠ IndexError msg) ->
  train_method result train_loop_method retinotopic_loop_method h (sw_trainer sw) h
  = Some (Throw e self' h') ->
  train result train_loop_method retinotopic_loop_method (sw_trainer sw) h
  = Some (Throw e self' h', [])
  /\ hyper_loop result train_loop_method retinotopic_loop_method format_results
       (h :: hyper_q) sw
     = Some (Throw e self' h').
Proof.
  intros Hne Hraise.
  assert (Htrain : train result train_loop_method retinotopic_loop_method
                     (sw_trainer sw) h
                   = Some (Throw e self' h', [])).
  { unfold train. rewrite Hraise. destruct e; try done. by destruct (Hne msg). }
  split; [done|]. simpl. by rewrite Htrain.
Qed.

End RunEntryFacts.

(** The toy run whose image shape is empty fails in the set-up of its fold,
    where [get_data] reads [hyps['img_shape'][0]]; the sweep goes on with the
    queue. *)
Lemma index_error_is_skipped_witness :
  let m1 := as_method (train_loop 4) in
  let m2 := as_method (retinotopic_loop 4) in
  let sw := mkSweep Toy.no_stopping [] [] in
  let caught := "Caught Index Error " +:+ "list index out of range" in
  let sw' := mkSweep Toy.no_stopping []
               ([] ++ [caught; skipped_line (VStr "15-10-07") (VStr "all")]) in
  train results m1 m2 Toy.no_stopping Toy.empty_shape_hyps
  = Some (Normal (None, Toy.no_stopping, Toy.empty_shape_hyps_left), [caught])
  /\ hyper_loop results m1 m2 Toy.format_done [Toy.empty_shape_hyps] sw
     = Some (Normal sw')
  /\ hyper_loop results m1 m2 Toy.format_done [Toy.empty_shape_hyps; Toy.example_hyps] sw
     = hyper_loop results m1 m2 Toy.format_done [Toy.example_hyps] sw'.
Proof.
  intros m1 m2 sw caught sw'.
  refine (index_error_is_skipped results m1 m2 Toy.format_done sw
            Toy.empty_shape_hyps Toy.empty_shape_hyps_left [Toy.example_hyps]
            Toy.no_stopping "list index out of range" _).
  reflexivity.
Defined.

(** C8, the claim as stated fails: the same job without the option
    [dataset] is caught by [Trainer.train] in the same way, but the line of
    the skipped run cannot be printed, and the sweep ends on a [KeyError]
    with a job left on the queue. *)
Lemma skipped_run_without_dataset_ends_sweep :
  sweep_raised
    (hyper_loop results (as_method (train_loop 4)) (as_method (retinotopic_loop 4))
       Toy.format_done [Toy.no_dataset_hyps; Toy.example_hyps]
       (mkSweep Toy.no_stopping [] []))
  = Some (KeyError "dataset").
Proof. vm_compute. reflexivity. Qed.

(** The sweep of the witness to its end: one line in the results file, for
    the second job, and the two lines of the skipped first job on the
    output. *)
Example skipped_run_observed :
  sweep_output
    (hyper_loop results (as_method (train_loop 4)) (as_method (retinotopic_loop 4))
       Toy.format_done [Toy.empty_shape_hyps; Toy.example_hyps]
       (mkSweep Toy.no_stopping [] []))
  = Some (["done"],
          ["Caught Index Error list index out of range"; "Skipped 15-10-07 cells all"]).
Proof. vm_compute. reflexivity. Qed.

(** ** The retinotopic variant with pruning on *)

Section RetinotopicFacts.
Context `{Collaborators}.

(** Every round of the retinotopic loop that reaches its last line leaves
    the four numbers of the epoch bound. *)
Lemma retinotopic_iteration_stats (n_epochs : Z) (s s' : retino_state) (brk : bool) :
  retinotopic_iteration n_epochs s = Normal (brk, s') -> is_Some (rs_stats s').
Proof.
  unfold retinotopic_iteration.
  destruct (train_sample (rs_world s)) as [batches w].
  destruct (at_heap _ _ (retinotopic_batches _ _ _ _)) as [[l w1]|]; [|done]. simpl.
  destruct (at_heap _ _ (py_truediv _ _)) as [avg|]; [|done]. simpl.
  destruct (at_heap _ _ (match batches with [] => _ | _ => _ end)); [|done]. simpl.
  destruct (at_heap _ _ (validate_static _ _ _)) as [[[vl ps] ts]|]; [|done]. simpl.
  destruct (at_heap _ _ (py_truediv _ _)) as [vl'|]; [|done]. simpl.
  destruct (at_heap _ _ (match ps with [] => _ | _ => _ end)); [|done]. simpl.
  destruct (at_heap _ _ (stop_early _ _)) as [[stop self']|]; [|done]. simpl.
  destruct (at_heap _ _ (getitem _ "scheduler")) as [sched|]; [|done]. simpl.
  intros [= <- <-]. simpl. eauto.
Qed.

(** So are they when the loop is left, since its first round always runs. *)
Lemma retinotopic_epochs_stats (fuel : nat) (n_epochs : Z) (s s' : retino_state) :
  retinotopic_epochs fuel n_epochs s = Some (Normal s') ->
  rs_stop_training s = false \/ is_Some (rs_stats s) ->
  is_Some (rs_stats s').
Proof.
  revert s. induction fuel as [|fuel IH]; intros s; simpl; [done|].
  destruct (rs_stop_training s) eqn:Hstop.
  - intros [= <-] [?|?]; done.
  - destruct (retinotopic_iteration n_epochs s) as [[[] s1]|] eqn:Hiter; [| |done].
    + intros [= <-] _. by eapply retinotopic_iteration_stats.
    + intros Hloop _. apply (IH s1 Hloop). right.
      by eapply retinotopic_iteration_stats.
Qed.

(** C10. A retinotopic run whose epoch loop ends and whose dictionary has
    [prune] true raises a [NameError] for [zero_dict] in its final save; the
    handler of [Trainer.train] does not catch it, so the run returns no
    result and the exception leaves [Trainer.train]. *)
Theorem retinotopic_prune_raises (fuel : nat) (self : Trainer) (h : hyps)
    (n_epochs : Z) (s0 s : retino_state) (folder prune : value) :
  truthy (try_key h "retinotopic" (VBool false)) = true ->
  retinotopic_init self h [] = Normal (n_epochs, s0) ->
  retinotopic_epochs fuel n_epochs s0 = Some (Normal s) ->
  rs_hyps s !! "save_folder" = Some folder ->
  rs_hyps s !! "prune" = Some prune -> truthy prune = true ->
  retinotopic_loop fuel self h []
  = Some (Throw (NameError "zero_dict") (rs_self s) (rs_hyps s))
  /\ Trainer_train fuel self h
     = Some (Throw (NameError "zero_dict") (rs_self s) (rs_hyps s), []).
Proof.
  intros Hretino Hinit Hloop Hfolder Hprune Htrue.
  assert (Hstats : is_Some (rs_stats s)).
  { apply (retinotopic_epochs_stats fuel n_epochs s0 s Hloop). left.
    unfold retinotopic_init in Hinit.
    destruct (at_heap _ _ (getitem h "batch_size")); [|done]. simpl in Hinit.
    destruct (setup_run h) as [h1 set_up].
    destruct (at_heap _ _ set_up) as [w|]; [|done]. simpl in Hinit.
    destruct (at_heap _ _ (getitem h1 "exp_name")) as [name|]; [|done]. simpl in Hinit.
    destruct (at_heap _ _ (_ ≫= as_int)) as [n|]; [|done]. simpl in Hinit.
    by injection Hinit as _ <-. }
  destruct Hstats as [stats Hstats].
  assert (Hrun : retinotopic_loop fuel self h []
                 = Some (Throw (NameError "zero_dict") (rs_self s) (rs_hyps s))).
  { unfold retinotopic_loop. rewrite Hinit, Hloop.
    unfold retinotopic_final_save.
    rewrite (getitem_Some _ _ _ Hfolder). simpl. rewrite Hstats. simpl.
    rewrite (getitem_Some _ _ _ Hprune). simpl. by rewrite Htrue. }
  split; [done|].
  unfold Trainer_train, train, train_method. rewrite Hretino.
  unfold as_method. by rewrite Hrun.
Qed.

End RetinotopicFacts.

(** The toy retinotopic run with pruning on: two epochs asked for, the loop
    ends, and the final save raises. *)
Lemma retinotopic_prune_raises_witness :
  retinotopic_loop 4 Toy.no_stopping Toy.retinotopic_hyps []
  = Some (Throw (NameError "zero_dict") (rs_self Toy.retinotopic_end)
                (rs_hyps Toy.retinotopic_end))
  /\ Trainer_train 4 Toy.no_stopping Toy.retinotopic_hyps
     = Some (Throw (NameError "zero_dict") (rs_self Toy.retinotopic_end)
                   (rs_hyps Toy.retinotopic_end), []).
Proof.
  refine (retinotopic_prune_raises 4 Toy.no_stopping Toy.retinotopic_hyps 2
            Toy.retinotopic_start Toy.retinotopic_end (VStr "run") (VBool true)
            _ _ _ _ _ _).
  - reflexivity.
  - reflexivity.
  - reflexivity.
  - reflexivity.
  - reflexivity.
  - reflexivity.
Defined.

(** The run entry on the same configuration: the exception it ends on. *)
Example retinotopic_prune_observed :
  raised (Trainer_train 4 Toy.no_stopping Toy.retinotopic_hyps)
  = Some (NameError "zero_dict").
Proof. vm_compute. reflexivity. Qed.

(** ** The toy states are those the code sets up *)

Example init_fold_plain :
  init_fold Toy.no_stopping Toy.example_hyps Toy.fresh_world []
  = Normal (Toy.plain_env,
            Toy.start_state Toy.no_stopping Toy.example_hyps Toy.fresh_world 2
                            (VBool false)).
Proof. reflexivity. Qed.

Example init_fold_pruning :
  init_fold Toy.no_stopping Toy.pruning_hyps Toy.fresh_world []
  = Normal (Toy.rollback_env,
            Toy.start_state Toy.no_stopping Toy.pruning_hyps Toy.fresh_world 2
                            (VBool true)).
Proof. reflexivity. Qed.

(** * Further properties *)

(** ** The monitor never fails, and what it does with a patience of one *)

Section MonitorFacts.
Context `{PyFloat}.

(** Once a previous value is stored, the counter exists: a call keeps it
    so, and does not raise. *)
Lemma stop_early_counter (self : Trainer) (acc : float) :
  (is_Some (prev_acc self) -> is_Some (stop_count self)) ->
  exists b self', stop_early self acc = Ok (b, self')
    /\ (is_Some (prev_acc self') -> is_Some (stop_count self')).
Proof.
  intros Hinv. unfold stop_early.
  destruct (early_stopping self <=? 0); [eauto|].
  destruct (prev_acc self) as [prev|] eqn:Hprev; [|simpl; eauto 10].
  destruct Hinv as [c Hc]; [eauto|].
  destruct (fltb (fsub acc prev) (tolerance self)); simpl.
  - unfold incr_stop_count. rewrite Hc. simpl.
    destruct (c + 1 >=? early_stopping self); simpl; eauto 10.
  - eauto 10.
Qed.

(** X1. [__init__] does not create the attribute [stop_count], and
    [stop_early] increments it; yet on a monitor made by [__init__], whatever
    the patience, the tolerance and the metrics, no call of [stop_early]
    raises: every call returns a verdict. *)
Theorem stop_early_never_raises (P : Z) (tol : float) (accs : list float) :
  exists bs self',
    observe_all (Trainer_init P tol) accs = Ok (bs, self')
    /\ length bs = length accs.
Proof.
  assert (Hgen : forall self,
            (is_Some (prev_acc self) -> is_Some (stop_count self)) ->
            exists bs self', observe_all self accs = Ok (bs, self')
                             /\ length bs = length accs).
  { induction accs as [|acc accs IH]; intros self Hinv; simpl; [eauto|].
    destruct (stop_early_counter self acc Hinv) as (b & self1 & -> & Hinv1). simpl.
    destruct (IH self1 Hinv1) as (bs & self2 & -> & Hlen). simpl.
    exists (b :: bs), self2. by rewrite <- Hlen. }
  apply Hgen. simpl. by intros [? ?].
Qed.

(** X2. With a patience of one the monitor works as follows: the first
    call stores its metric and returns [False]; every later call returns
    [True] exactly when its metric fails to improve by the tolerance on the
    stored one, which is the metric of the last call that returned [False]. *)
Theorem stop_early_patience_one_signals (tol acc : float) (accs : list float) :
  exists self',
    observe_all (Trainer_init 1 tol) (acc :: accs)
    = Ok (false :: signals_from tol acc accs, self').
Proof.
  assert (Hgen : forall accs prev c self,
            early_stopping self = 1 -> tolerance self = tol ->
            prev_acc self = Some prev -> stop_count self = Some c -> 0 <= c ->
            exists self', observe_all self accs = Ok (signals_from tol prev accs, self')).
  { clear accs. induction accs as [|a accs IH]; intros prev c self HP Htol Hprev Hc Hpos;
      simpl; [eauto|].
    unfold stop_early. rewrite HP, Hprev, Htol. simpl.
    destruct (fltb (fsub a prev) tol); simpl.
    - unfold incr_stop_count. rewrite Hc. simpl. rewrite HP.
      replace (c + 1 >=? 1) with true by (symmetry; apply Z.geb_le; lia).
      simpl.
      destruct (IH prev (c + 1) (set_stop_count self (c + 1))) as [self' ->];
        simpl; try done; try lia.
      eauto.
    - destruct (IH a 0 (set_prev_acc (set_stop_count self 0) a)) as [self' ->];
        simpl; try done.
      eauto. }
  simpl.
  destruct (Hgen accs acc 0 (set_stop_count (set_prev_acc (Trainer_init 1 tol) acc) 0))
    as [self' ->]; simpl; try done.
  eauto.
Qed.

End MonitorFacts.

(** ** The sweep engine: what the queue holds *)

Section SweepQueueFacts.
Variable checkpoint_tag : string -> outcome string.

Lemma append_search_key_frame (k v : string) (h h' : hyps) :
  append_search_key k v h = Ok h' ->
  forall k', k' ≠ "search_keys" -> h' !! k' = h !! k'.
Proof.
  unfold append_search_key.
  destruct (getitem h "search_keys") as [sk|]; [|done]. simpl.
  destruct sk; try done. intros [= <-] k' Hk'. by rewrite lookup_insert_ne.
Qed.

(** The loop that builds the search key touches no other entry. *)
Lemma build_search_keys_frame (keys : list string) (h h' : hyps) :
  build_search_keys checkpoint_tag keys h = Ok h' ->
  forall k, k ≠ "search_keys" -> h' !! k = h !! k.
Proof.
  revert h. induction keys as [|key keys IH]; intros h; simpl.
  - by intros [= <-].
  - destruct (getitem h key) as [x|]; [|done]. simpl.
    match goal with
    | |- context [if ?c then ?a else ?b] => destruct (if c then a else b) as [v|]
    end; [|done]. simpl.
    destruct (append_search_key key v h) as [h1|] eqn:Happ; [|done]. simpl.
    intros Hrest k Hk. rewrite (IH _ Hrest k Hk).
    by apply (append_search_key_frame _ _ _ _ Happ).
Qed.

Lemma build_search_keys_is_Some (keys : list string) (h h' : hyps) (k : string) :
  build_search_keys checkpoint_tag keys h = Ok h' ->
  is_Some (h !! k) -> is_Some (h' !! k).
Proof.
  revert h. induction keys as [|key keys IH]; intros h; simpl.
  - by intros [= <-].
  - destruct (getitem h key) as [x|]; [|done]. simpl.
    match goal with
    | |- context [if ?c then ?a else ?b] => destruct (if c then a else b) as [v|]
    end; [|done]. simpl.
    unfold append_search_key.
    destruct (getitem h "search_keys") as [sk|]; [|done]. simpl.
    destruct sk; try done. simpl. intros Hrest Hk.
    apply (IH _ Hrest). by apply is_Some_insert.
Qed.

(** The repeat loop appends one entry per round; the entries and the
    dictionary it leaves differ from the one it started with at most in the
    search key. *)
Lemma load_q_frame (rounds : nat) (keys : list string) (h h' : hyps) (q q' : list hyps) :
  load_q checkpoint_tag rounds keys h q = Ok (h', q') ->
  exists new, q' = (q ++ new)%list /\ length new = rounds
    /\ (forall k, k ≠ "search_keys" -> h' !! k = h !! k)
    /\ Forall (λ e : hyps, forall k, k ≠ "search_keys" -> e !! k = h !! k) new.
Proof.
  revert h q. induction rounds as [|rounds IH]; intros h q; simpl.
  - intros [= <- <-]. exists []. by rewrite app_nil_r.
  - destruct (build_search_keys _ _ _) as [h1|] eqn:Hb; [|done]. simpl. intros Hl.
    destruct (IH _ _ Hl) as (new & -> & Hlen & Hh & Hnew).
    assert (H1 : forall k, k ≠ "search_keys" -> h1 !! k = h !! k).
    { intros k Hk. rewrite (build_search_keys_frame _ _ _ Hb k Hk).
      by rewrite lookup_insert_ne. }
    exists (h1 :: new). split; [by rewrite <- app_assoc|].
    split; [simpl; by rewrite Hlen|]. split.
    + intros k Hk. by rewrite Hh, H1.
    + constructor; [done|]. eapply Forall_impl; [exact Hnew|].
      intros e He k Hk. by rewrite He, H1.
Qed.

(** The base call: the defaults are filled, and what is put on the queue is
    the dictionary with its defaults, up to the search key. *)
Lemma fill_base_frame (keys : list string) (h h' : hyps) (q q' : list hyps) :
  fill_base checkpoint_tag keys h q = Ok (h', q') ->
  exists h1 new, ensure_hyps h = Ok h1 /\ q' = (q ++ new)%list
    /\ (forall k, k ≠ "search_keys" -> h' !! k = h1 !! k)
    /\ Forall (λ e : hyps, forall k, k ≠ "search_keys" -> e !! k = h1 !! k) new.
Proof.
  unfold fill_base. destruct (ensure_hyps h) as [h1|]; [|done]. simpl.
  destruct (getitem h1 "n_repeats") as [n|]; [|done]. simpl.
  destruct (as_int n) as [z|]; [|done]. simpl. intros Hl.
  destruct (load_q_frame _ _ _ _ _ _ Hl) as (new & -> & _ & Hh & Hnew).
  by exists h1, new.
Qed.

(** A rule for the recursion: a property of the dictionary that every
    assignment of a swept value and every base call keep holds all along, and
    a property that the base call gives the entries it enqueues holds of all
    new entries. *)
Lemma fill_from_rule (hyp_ranges : gmap string (list value)) (keys : list string)
    (swept : string -> Prop) (I E : hyps -> Prop) :
  (forall h key p, swept key -> I h -> I (<[key := p]> h)) ->
  (forall h q h' q', I h -> fill_base checkpoint_tag keys h q = Ok (h', q') ->
     I h' /\ exists new, q' = (q ++ new)%list /\ Forall E new) ->
  forall rest h q h' q',
    Forall swept rest -> I h ->
    fill_from checkpoint_tag hyp_ranges keys rest h q = Ok (h', q') ->
    I h' /\ exists new, q' = (q ++ new)%list /\ Forall E new.
Proof.
  intros Hins Hbase.
  induction rest as [|key rest IH]; intros h q h' q' Hswept HI; simpl.
  - by apply Hbase.
  - apply Forall_cons in Hswept as [Hkey Hswept].
    destruct (getitem hyp_ranges key) as [params|]; [|done]. simpl.
    revert h q HI. induction params as [|p params IHp]; intros h q HI; simpl.
    + intros [= <- <-]. split; [done|]. exists []. by rewrite app_nil_r.
    + destruct (fill_from _ _ _ rest (<[key:=p]> h) q) as [[h2 q2]|] eqn:Hrec; [|done].
      simpl. intros Hloop.
      destruct (IH _ _ _ _ Hswept (Hins _ _ p Hkey HI) Hrec) as (HI2 & new2 & -> & Hnew2).
      destruct (IHp _ _ HI2 Hloop) as (HI3 & new3 & -> & Hnew3).
      split; [done|]. exists (new2 ++ new3)%list.
      split; [by rewrite app_assoc|]. by apply Forall_app.
Qed.

Lemma lookup_ensure_Some (key k : string) (d v : value) (h : hyps) :
  h !! k = Some v -> ensure key d h !! k = Some v.
Proof.
  intros Hk. unfold ensure, try_key. destruct (decide (key = k)) as [->|Hne].
  - by rewrite lookup_insert_eq, Hk.
  - by rewrite lookup_insert_ne.
Qed.

(** An option that is given keeps its value when the defaults are filled;
    the one exception is a pruning interval given as [None]. *)
Lemma ensure_hyps_keeps (h h1 : hyps) (k : string) (v : value) :
  ensure_hyps h = Ok h1 -> h !! k = Some v ->
  (k = "prune_intvl" -> v ≠ VNone) ->
  h1 !! k = Some v.
Proof.
  intros Hens Hk Hnone. unfold ensure_hyps in Hens. cbv zeta in Hens.
  set (h6 := ensure "prune_tolerance" _ _) in Hens.
  assert (H6 : h6 !! k = Some v).
  { subst h6. by repeat apply lookup_ensure_Some. }
  clearbody h6.
  destruct (getitem h6 "prune_intvl") as [intvl|] eqn:Hintvl; [|done]. simpl in Hens.
  set (h7 := if is_None intvl then _ else _) in Hens.
  destruct h7 as [h7'|] eqn:Hh7; [|done]. simpl in Hens.
  assert (H7 : h7' !! k = Some v).
  { subst h7. destruct (is_None intvl) eqn:Hnn.
    - destruct (getitem h6 "n_epochs") as [ne|]; [|done]. simpl in Hh7.
      injection Hh7 as <-. rewrite lookup_insert_ne; [done|].
      intros <-. unfold getitem in Hintvl. rewrite H6 in Hintvl.
      injection Hintvl as <-. destruct v; try done. by apply Hnone.
    - by injection Hh7 as <-. }
  injection Hens as <-. by repeat apply lookup_ensure_Some.
Qed.

(** After the defaults are filled, every option of [default_keys] is set. *)
Lemma ensure_hyps_defaults (h h1 : hyps) :
  ensure_hyps h = Ok h1 -> Forall (λ k, is_Some (h1 !! k)) default_keys.
Proof.
  intros Hens. unfold ensure_hyps in Hens. cbv zeta in Hens.
  set (h6 := ensure "prune_tolerance" _ _) in Hens.
  assert (H6 : Forall (λ k, is_Some (h6 !! k))
                 ["n_repeats"; "prune"; "altn_layers"; "abssum"; "prune_layers";
                  "prune_intvl"; "prune_tolerance"]).
  { subst h6. unfold ensure.
    repeat constructor;
      repeat first [ by (rewrite lookup_insert_eq; eauto) | apply is_Some_insert ]. }
  clearbody h6.
  destruct (getitem h6 "prune_intvl") as [intvl|] eqn:Hintvl; [|done]. simpl in Hens.
  set (h7 := if is_None intvl then _ else _) in Hens.
  destruct h7 as [h7'|] eqn:Hh7; [|done]. simpl in Hens.
  assert (H7 : forall k, is_Some (h6 !! k) -> is_Some (h7' !! k)).
  { subst h7. destruct (is_None intvl).
    - destruct (getitem h6 "n_epochs") as [ne|]; [|done]. simpl in Hh7.
      injection Hh7 as <-. intros k. apply is_Some_insert.
    - by injection Hh7 as <-. }
  eapply Forall_impl in H6; [|exact H7]. clear H7 Hh7 Hintvl.
  injection Hens as <-. unfold default_keys, ensure.
  repeat (apply Forall_cons in H6 as [? H6]).
  repeat constructor;
    repeat first [ by (rewrite lookup_insert_eq; eauto) | apply is_Some_insert ]; done.
Qed.

(** A missing pruning interval, or one given as [None], becomes the number
    of epochs. *)
Lemma ensure_hyps_prune_intvl (h h1 : hyps) (v : value) :
  ensure_hyps h = Ok h1 -> h !! "n_epochs" = Some v ->
  try_key h "prune_intvl" VNone = VNone \/ h !! "prune_intvl" = Some v ->
  h1 !! "prune_intvl" = Some v.
Proof.
  intros Hens Hne Hintvl. unfold ensure_hyps in Hens. cbv zeta in Hens.
  set (h6 := ensure "prune_tolerance" _ _) in Hens.
  assert (Hne6 : h6 !! "n_epochs" = Some v).
  { subst h6. by rewrite !lookup_ensure_ne by done. }
  assert (Hi6 : h6 !! "prune_intvl" = Some (try_key h "prune_intvl" VNone)).
  { subst h6. rewrite lookup_ensure_ne, lookup_ensure_eq by done.
    unfold try_key. by rewrite !lookup_ensure_ne by done. }
  clearbody h6.
  rewrite (getitem_Some _ _ _ Hi6), (getitem_Some _ _ _ Hne6) in Hens. simpl in Hens.
  set (h7 := if is_None _ then _ else _) in Hens.
  assert (H7 : exists h7', h7 = Ok h7' /\ h7' !! "prune_intvl" = Some v).
  { subst h7. destruct Hintvl as [Hnone|Hv].
    - rewrite Hnone. simpl. eexists. split; [done|]. by rewrite lookup_insert_eq.
    - unfold try_key in *. rewrite Hv in *.
      destruct (is_None v); simpl; eexists; (split; [done|]); [|done].
      by rewrite lookup_insert_eq. }
  destruct H7 as (h7' & Hh7 & H7). rewrite Hh7 in Hens. simpl in Hens.
  injection Hens as <-. by rewrite !lookup_ensure_ne by done.
Qed.

(** An option that is not swept and is given keeps its value through a base
    call and in the entries the call enqueues. *)
Lemma fill_base_keeps (keys : list string) (k : string) (v : value)
    (h h' : hyps) (q q' : list hyps) :
  k ≠ "search_keys" -> (k = "prune_intvl" -> v ≠ VNone) ->
  h !! k = Some v ->
  fill_base checkpoint_tag keys h q = Ok (h', q') ->
  h' !! k = Some v
  /\ exists new, q' = (q ++ new)%list /\ Forall (λ e : hyps, e !! k = Some v) new.
Proof.
  intros Hsk Hnone Hk Hbase.
  destruct (fill_base_frame _ _ _ _ _ Hbase) as (h1 & new & Hens & -> & Hh & Hnew).
  pose proof (ensure_hyps_keeps _ _ _ _ Hens Hk Hnone) as H1.
  split; [by rewrite Hh|]. exists new. split; [done|].
  eapply Forall_impl; [exact Hnew|]. intros e He. by rewrite He.
Qed.

Lemma fill_from_keeps (hyp_ranges : gmap string (list value)) (keys rest : list string)
    (k : string) (v : value) (h h' : hyps) (q q' : list hyps) :
  k ≠ "search_keys" -> (k = "prune_intvl" -> v ≠ VNone) -> k ∉ rest ->
  h !! k = Some v ->
  fill_from checkpoint_tag hyp_ranges keys rest h q = Ok (h', q') ->
  h' !! k = Some v
  /\ exists new, q' = (q ++ new)%list /\ Forall (λ e : hyps, e !! k = Some v) new.
Proof.
  intros Hsk Hnone Hrest Hk Hrun.
  apply (fill_from_rule hyp_ranges keys (λ key, key ≠ k) (λ h, h !! k = Some v)
           (λ e, e !! k = Some v)) with (rest := rest) (h := h) (q := q);
    try done.
  - intros h0 key p Hne Hh0. by rewrite lookup_insert_ne.
  - intros h0 q0 h0' q0' Hh0. by apply fill_base_keeps.
  - apply Forall_forall. by intros key Hin ->.
Qed.

Lemma Forall_flat_map_replicate {A : Type} (P : A -> Prop) (m : nat) (l : list A) :
  Forall P (flat_map (replicate (S m)) l) -> Forall P l.
Proof.
  induction l as [|x l IH]; simpl; [done|].
  intros Hall. apply Forall_cons in Hall as [Hx Hall].
  apply Forall_app in Hall as [_ Hall]. constructor; [done|]. by apply IH.
Qed.

Lemma Forall_replicate_flat_map {A : Type} (P : A -> Prop) (m : nat) (l : list A) :
  Forall P l -> Forall P (flat_map (replicate m) l).
Proof.
  induction 1 as [|x l Hx Hl IH]; simpl; [done|].
  apply Forall_app. split; [|done]. by apply Forall_replicate.
Qed.

Lemma point_of_cons (key : string) (p : value) (rest : list string) (es : list hyps) :
  Forall (λ e : hyps, e !! key = Some p) es ->
  point_of (key :: rest) <$> es = cons (Some p) <$> (point_of rest <$> es).
Proof.
  induction 1 as [|e es He Hes IH]; [done|].
  rewrite !fmap_cons, IH. unfold point_of at 1. simpl. by rewrite He.
Qed.

(** The recursion enumerates the sweep points of the keys still to assign,
    in the order of the nested loops. *)
Lemma fill_from_points (hyp_ranges : gmap string (list value)) (keys : list string) (n : Z) :
  "startpt" ∉ keys -> "search_keys" ∉ keys -> "n_repeats" ∉ keys -> 0 < n ->
  NoDup keys ->
  (forall params, hyp_ranges !! "prune_intvl" = Some params -> VNone ∉ params) ->
  forall rest done h q,
    keys = (done ++ rest)%list ->
    Forall (λ k, is_Some (hyp_ranges !! k)) rest ->
    sweep_inv n h -> Forall (λ k, is_Some (h !! k)) done ->
    exists h' es,
      fill_from checkpoint_tag hyp_ranges keys rest h q
      = Ok (h', (q ++ flat_map (replicate (Z.to_nat n)) es)%list)
      /\ sweep_inv n h'
      /\ Forall (λ k, is_Some (h' !! k)) done
      /\ point_of rest <$> es = sweep_points hyp_ranges rest.
Proof.
  intros Hstart Hsk Hrepk Hpos Hnodup Hnone.
  induction rest as [|key rest IH]; intros done h q Hkeys Hranges Hinv Hdone.
  - rewrite app_nil_r in Hkeys. subst done. simpl.
    destruct (fill_base_spec checkpoint_tag keys n h q) as (h1 & Hens & ->); try done.
    destruct Hinv as [He Hn].
    destruct (ensure_hyps_spec h He) as (h1' & Hens' & Hother & Hrep & Hsome).
    assert (h1' = h1) as -> by congruence.
    exists (queue_entry keys h1), [queue_entry keys h1]. simpl.
    rewrite app_nil_r. split; [done|]. split; [|split; [|done]].
    + split.
      * apply is_Some_insert, Hsome, He.
      * unfold try_key, queue_entry. rewrite lookup_insert_ne by done.
        by rewrite Hrep, Hn.
    + eapply Forall_impl; [exact Hdone|]. intros k Hk.
      by apply is_Some_insert, Hsome.
  - apply Forall_cons in Hranges as [[params Hparams] Hranges].
    assert (Hkey : key ≠ "n_repeats").
    { intros ->. apply Hrepk. rewrite Hkeys. apply elem_of_app. right. in_list. }
    assert (Hkeysk : key ≠ "search_keys").
    { intros ->. apply Hsk. rewrite Hkeys. apply elem_of_app. right. in_list. }
    assert (Hfresh : key ∉ rest).
    { rewrite Hkeys in Hnodup. apply NoDup_app in Hnodup as (_ & _ & Hnd).
      by apply NoDup_cons in Hnd as [? _]. }
    assert (Hkeys' : keys = ((done ++ [key]) ++ rest)%list) by by rewrite <- app_assoc.
    assert (Hok : Forall (λ p, key = "prune_intvl" -> p ≠ VNone) params).
    { apply Forall_forall. intros p Hp -> ->. by apply (Hnone params). }
    change (sweep_points hyp_ranges (key :: rest))
      with (flat_map (λ p, cons (Some p) <$> sweep_points hyp_ranges rest)
                     (default [] (hyp_ranges !! key))).
    simpl. rewrite (getitem_Some _ _ _ Hparams), Hparams. simpl.
    clear Hparams. revert h q Hinv Hdone.
    induction params as [|p params IHp]; intros h q Hinv Hdone.
    + exists h, []. simpl. by rewrite app_nil_r.
    + apply Forall_cons in Hok as [Hp Hok]. simpl.
      destruct (IH (done ++ [key])%list (<[key := p]> h) q)
        as (h2 & es2 & Hrec & Hinv2 & Hdone2 & Hpts2); try done.
      { by apply sweep_inv_insert. }
      { apply Forall_app. split.
        - eapply Forall_impl; [exact Hdone|]. intros k. apply is_Some_insert.
        - constructor; [|done]. rewrite lookup_insert_eq. eauto. }
      destruct (fill_from_keeps hyp_ranges keys rest key p _ _ _ _ Hkeysk Hp Hfresh
                  (lookup_insert_eq h key p) Hrec) as (_ & new & Hnew & Hall).
      apply app_inv_head in Hnew. subst new.
      assert (Hm : Z.to_nat n = S (Z.to_nat n - 1)) by lia.
      rewrite Hm in Hall. apply Forall_flat_map_replicate in Hall. clear Hm.
      rewrite Hrec. simpl. apply Forall_app in Hdone2 as [Hdone2 _].
      destruct (IHp Hok h2 (q ++ flat_map (replicate (Z.to_nat n)) es2)%list)
        as (h3 & es3 & -> & Hinv3 & Hdone3 & Hpts3); try done.
      exists h3, (es2 ++ es3)%list. split; [|split; [|split]]; try done.
      * by rewrite flat_map_app, app_assoc.
      * rewrite fmap_app, Hpts3, (point_of_cons key p rest es2 Hall), Hpts2. done.
Qed.

(** The recursion leaves alone every option that is neither swept, nor
    given a default, nor the search key. *)
Lemma fill_from_frame (hyp_ranges : gmap string (list value)) (keys : list string)
    (h h' : hyps) (q q' : list hyps) :
  is_Some (h !! "n_epochs") ->
  fill_from checkpoint_tag hyp_ranges keys keys h q = Ok (h', q') ->
  exists new, q' = (q ++ new)%list
    /\ Forall (λ e : hyps, forall k, k ∉ keys -> k ∉ default_keys -> k ≠ "search_keys" ->
                                     e !! k = h !! k) new.
Proof.
  intros He Hrun.
  apply (fill_from_rule hyp_ranges keys (λ key, key ∈ keys)
           (λ h0, is_Some (h0 !! "n_epochs")
                  /\ forall k, k ∉ keys -> k ∉ default_keys -> k ≠ "search_keys" ->
                               h0 !! k = h !! k)
           (λ e, forall k, k ∉ keys -> k ∉ default_keys -> k ≠ "search_keys" ->
                           e !! k = h !! k))
    with (rest := keys) (h := h) (q := q) (h' := h'); try done.
  - intros h0 key p Hkey [He0 Hh0]. split; [by apply is_Some_insert|].
    intros k Hk Hd Hs. rewrite lookup_insert_ne; [by apply Hh0|]. by intros ->.
  - intros h0 q0 h0' q0' [He0 Hh0] Hbase.
    destruct (fill_base_frame _ _ _ _ _ Hbase) as (h1 & new & Hens & -> & Hh & Hnew).
    destruct (ensure_hyps_spec h0 He0) as (h1' & Hens' & Hother & _ & Hsome).
    assert (h1' = h1) as -> by congruence.
    split; [split|].
    + rewrite Hh by done. by apply Hsome.
    + intros k Hk Hd Hs. by rewrite Hh, Hother, Hh0.
    + exists new. split; [done|]. eapply Forall_impl; [exact Hnew|].
      intros e Hagree k Hk Hd Hs. by rewrite Hagree, Hother, Hh0.
  - by apply Forall_forall.
Qed.

(** C9, as the code has it.  When the number of repeats is [n > 1], the
    queue is made of [n] consecutive copies of one dictionary per sweep
    point, the points in the order of the nested loops.  The copies of a
    point are the same dictionary: they carry the search key of the point,
    and every option that is neither swept nor given a default is the one of
    the base configuration, the seed among them.  No seed is assigned. *)
Theorem repeats_are_copies (hyp_ranges : gmap string (list value))
    (keys : list string) (n : Z) (h : hyps) :
  "startpt" ∉ keys -> "search_keys" ∉ keys -> "n_repeats" ∉ keys -> "seed" ∉ keys ->
  NoDup keys ->
  Forall (λ k, is_Some (hyp_ranges !! k)) keys ->
  (forall params, hyp_ranges !! "prune_intvl" = Some params -> VNone ∉ params) ->
  is_Some (h !! "n_epochs") ->
  try_key h "n_repeats" (VInt 1) = VInt n -> 1 < n ->
  exists h' es,
    fill_hyper_q checkpoint_tag h hyp_ranges keys [] 0
    = Ok (h', flat_map (replicate (Z.to_nat n)) es)
    /\ point_of keys <$> es = sweep_points hyp_ranges keys
    /\ Forall (λ e : hyps,
                 e !! "search_keys" = Some (VStr (search_key_from e "" keys))
                 /\ e !! "seed" = h !! "seed"
                 /\ forall k, k ∉ keys -> k ∉ default_keys -> k ≠ "search_keys" ->
                              e !! k = h !! k) es.
Proof.
  intros Hstart Hsk Hrep Hseed Hnodup Hranges Hnone He Hn Hgt.
  destruct (fill_from_points hyp_ranges keys n Hstart Hsk Hrep ltac:(lia) Hnodup Hnone
              keys [] h []) as (h' & es & Hrun & _ & _ & Hpts); try done.
  destruct (fill_from_spec checkpoint_tag hyp_ranges keys n Hstart Hsk Hrep ltac:(lia)
              keys [] h []) as (h'' & es' & Hrun' & _ & _ & _ & Hkeys); try done.
  rewrite Hrun in Hrun'. injection Hrun' as _ Hsame.
  destruct (fill_from_frame hyp_ranges keys h h' [] _ He Hrun) as (new & Hnew & Hframe).
  simpl in Hnew. subst new.
  assert (Hm : Z.to_nat n = S (Z.to_nat n - 1)) by lia.
  apply Forall_replicate_flat_map with (m := Z.to_nat n) in Hkeys.
  rewrite <- Hsame, Hm in Hkeys. apply Forall_flat_map_replicate in Hkeys.
  rewrite Hm in Hframe. apply Forall_flat_map_replicate in Hframe.
  exists h', es. unfold fill_hyper_q. rewrite drop_0. split; [done|]. split; [done|].
  apply Forall_forall. intros e Hin.
  pose proof (proj1 (Forall_forall _ _) Hkeys e Hin) as Hkey.
  pose proof (proj1 (Forall_forall _ _) Hframe e Hin) as Hfr.
  split; [done|]. split; [|done].
  apply Hfr; [done| |done]. unfold default_keys. not_in_list.
Qed.

(** X3. The queue enumerates the Cartesian product of the ranges: read at
    the swept keys, its entries are the sweep points in the order of the
    nested loops, the first key varying slowest, each point [n_repeats]
    times in a row.  The keys are distinct and are not ["startpt"],
    ["search_keys"] or ["n_repeats"], no pruning interval of a range is
    [None], and the base configuration sets the number of epochs. *)
Theorem fill_hyper_q_enumerates_product (hyp_ranges : gmap string (list value))
    (keys : list string) (n : Z) (h : hyps) :
  "startpt" ∉ keys -> "search_keys" ∉ keys -> "n_repeats" ∉ keys -> NoDup keys ->
  Forall (λ k, is_Some (hyp_ranges !! k)) keys ->
  (forall params, hyp_ranges !! "prune_intvl" = Some params -> VNone ∉ params) ->
  is_Some (h !! "n_epochs") ->
  try_key h "n_repeats" (VInt 1) = VInt n -> 0 < n ->
  exists h' q,
    fill_hyper_q checkpoint_tag h hyp_ranges keys [] 0 = Ok (h', q)
    /\ point_of keys <$> q
       = flat_map (replicate (Z.to_nat n)) (sweep_points hyp_ranges keys).
Proof.
  intros Hstart Hsk Hrep Hnodup Hranges Hnone He Hn Hpos.
  destruct (fill_from_points hyp_ranges keys n Hstart Hsk Hrep Hpos Hnodup Hnone
              keys [] h []) as (h' & es & Hrun & _ & _ & Hpts); try done.
  exists h', (flat_map (replicate (Z.to_nat n)) es). split; [done|].
  rewrite <- Hpts. clear. induction es as [|e es IH]; [done|].
  simpl. rewrite fmap_app, IH. f_equal. by rewrite fmap_replicate.
Qed.

(** X4. An option of the base configuration that is not swept keeps its
    value in every entry of the queue, and in the dictionary the call
    leaves: the sweep only overrides the swept keys, and the defaults never
    replace a given value.  The exceptions are the search key, which is
    rebuilt, and a pruning interval given as [None]. *)
Theorem fill_hyper_q_keeps_options (hyp_ranges : gmap string (list value))
    (keys : list string) (n : Z) (h : hyps) (k : string) (v : value) :
  "startpt" ∉ keys -> "search_keys" ∉ keys -> "n_repeats" ∉ keys ->
  Forall (λ k, is_Some (hyp_ranges !! k)) keys ->
  is_Some (h !! "n_epochs") ->
  try_key h "n_repeats" (VInt 1) = VInt n -> 0 < n ->
  k ∉ keys -> k ≠ "search_keys" -> h !! k = Some v ->
  (k = "prune_intvl" -> v ≠ VNone) ->
  exists h' q,
    fill_hyper_q checkpoint_tag h hyp_ranges keys [] 0 = Ok (h', q)
    /\ h' !! k = Some v
    /\ Forall (λ e : hyps, e !! k = Some v) q.
Proof.
  intros Hstart Hsk Hrep Hranges He Hn Hpos Hk Hksk Hv Hnone.
  destruct (fill_from_spec checkpoint_tag hyp_ranges keys n Hstart Hsk Hrep Hpos
              keys [] h []) as (h' & es & Hrun & _); try done.
  exists h', (flat_map (replicate (Z.to_nat n)) es). split; [done|].
  destruct (fill_from_keeps hyp_ranges keys keys k v _ _ _ _ Hksk Hnone Hk Hv Hrun)
    as (Hh' & new & Hnew & Hall).
  simpl in Hnew. by subst new.
Qed.

(** X5. Every entry of the queue is complete: it sets the search key and
    each of the sixteen options the base call gives a default to, so that a
    run can read them without a default of its own. *)
Theorem fill_hyper_q_entries_complete (hyp_ranges : gmap string (list value))
    (keys : list string) (n : Z) (h : hyps) :
  "startpt" ∉ keys -> "search_keys" ∉ keys -> "n_repeats" ∉ keys ->
  Forall (λ k, is_Some (hyp_ranges !! k)) keys ->
  is_Some (h !! "n_epochs") ->
  try_key h "n_repeats" (VInt 1) = VInt n -> 0 < n ->
  exists h' q,
    fill_hyper_q checkpoint_tag h hyp_ranges keys [] 0 = Ok (h', q)
    /\ Forall (λ e : hyps, Forall (λ k, is_Some (e !! k)) ("search_keys" :: default_keys)) q.
Proof.
  intros Hstart Hsk Hrep Hranges He Hn Hpos.
  destruct (fill_from_spec checkpoint_tag hyp_ranges keys n Hstart Hsk Hrep Hpos
              keys [] h []) as (h' & es & Hrun & _ & _ & _ & Hes); try done.
  exists h', (flat_map (replicate (Z.to_nat n)) es). split; [done|].
  destruct (fill_from_rule hyp_ranges keys (λ _, True) (λ _, True)
              (λ e, Forall (λ k, is_Some (e !! k)) default_keys)
              ltac:(done)) with (rest := keys) (h := h) (q := @nil hyps)
              (h' := h') (q' := flat_map (replicate (Z.to_nat n)) es)
    as (_ & new & Hnew & Hall); try done.
  - intros h0 q0 h0' q0' _ Hbase. split; [done|].
    destruct (fill_base_frame _ _ _ _ _ Hbase) as (h1 & new & Hens & -> & Hh & Hnew).
    exists new. split; [done|]. eapply Forall_impl; [exact Hnew|].
    intros e Hagree. pose proof (ensure_hyps_defaults _ _ Hens) as Hdef.
    apply Forall_forall. intros k Hin. rewrite Hagree.
    + by apply (proj1 (Forall_forall _ _) Hdef).
    + intros ->. revert Hin. unfold default_keys. not_in_list.
  - by apply Forall_forall.
  - simpl in Hnew. subst new.
    apply Forall_replicate_flat_map with (m := Z.to_nat n) in Hes.
    apply Forall_forall. intros e Hin. constructor.
    + apply (proj1 (Forall_forall _ _) Hes) in Hin. rewrite Hin. eauto.
    + by apply (proj1 (Forall_forall _ _) Hall).
Qed.

(** X6. When the base configuration gives no pruning interval, or gives
    [None], and neither it nor the number of epochs is swept, every entry of
    the queue has the number of epochs for its pruning interval. *)
Theorem fill_hyper_q_prune_intvl_default (hyp_ranges : gmap string (list value))
    (keys : list string) (n : Z) (h : hyps) (v : value) :
  "startpt" ∉ keys -> "search_keys" ∉ keys -> "n_repeats" ∉ keys ->
  "n_epochs" ∉ keys -> "prune_intvl" ∉ keys ->
  Forall (λ k, is_Some (hyp_ranges !! k)) keys ->
  h !! "n_epochs" = Some v -> try_key h "prune_intvl" VNone = VNone ->
  try_key h "n_repeats" (VInt 1) = VInt n -> 0 < n ->
  exists h' q,
    fill_hyper_q checkpoint_tag h hyp_ranges keys [] 0 = Ok (h', q)
    /\ Forall (λ e : hyps, e !! "prune_intvl" = Some v /\ e !! "n_epochs" = Some v) q.
Proof.
  intros Hstart Hsk Hrep Hne Hpi Hranges Hv Hintvl Hn Hpos.
  destruct (fill_from_spec checkpoint_tag hyp_ranges keys n Hstart Hsk Hrep Hpos
              keys [] h []) as (h' & es & Hrun & _); try done.
  exists h', (flat_map (replicate (Z.to_nat n)) es). split; [done|].
  destruct (fill_from_rule hyp_ranges keys
              (λ key, key ≠ "n_epochs" /\ key ≠ "prune_intvl")
              (λ h, h !! "n_epochs" = Some v
                    /\ (try_key h "prune_intvl" VNone = VNone
                        \/ h !! "prune_intvl" = Some v))
              (λ e, e !! "prune_intvl" = Some v /\ e !! "n_epochs" = Some v))
    with (rest := keys) (h := h) (q := @nil hyps)
         (h' := h') (q' := flat_map (replicate (Z.to_nat n)) es)
    as (_ & new & Hnew & Hall); try done.
  - intros h0 key p [Hk1 Hk2] [H1 H2]. unfold try_key in *.
    by rewrite !lookup_insert_ne by done.
  - intros h0 q0 h0' q0' [H1 H2] Hbase.
    destruct (fill_base_frame _ _ _ _ _ Hbase) as (h1 & new & Hens & -> & Hh & Hnew).
    pose proof (ensure_hyps_prune_intvl _ _ _ Hens H1 H2) as Hpi1.
    assert (Hne1 : h1 !! "n_epochs" = Some v).
    { by apply (ensure_hyps_keeps _ _ _ _ Hens H1). }
    split.
    + rewrite !Hh by done. eauto.
    + exists new. split; [done|]. eapply Forall_impl; [exact Hnew|].
      intros e Hagree. by rewrite !Hagree.
  - apply Forall_forall. intros key Hin. split; by intros ->.
  - eauto.
  - simpl in Hnew. by subst new.
Qed.

(** X7. The number of epochs is required when no pruning interval is
    given: with non-empty ranges that set neither, a base configuration
    without ["n_epochs"] and with no pruning interval, or [None], makes
    [fill_hyper_q] raise [KeyError: 'n_epochs'] at its first base call. *)
Theorem fill_hyper_q_needs_n_epochs (hyp_ranges : gmap string (list value))
    (keys : list string) (h : hyps) (q : list hyps) :
  h !! "n_epochs" = None -> try_key h "prune_intvl" VNone = VNone ->
  "n_epochs" ∉ keys -> "prune_intvl" ∉ keys ->
  Forall (λ k, exists p ps, hyp_ranges !! k = Some (p :: ps)) keys ->
  fill_hyper_q checkpoint_tag h hyp_ranges keys q 0 = Raise (KeyError "n_epochs").
Proof.
  intros Hne Hintvl Hk1 Hk2 Hranges. unfold fill_hyper_q. simpl.
  assert (Hgen : forall rest h q,
            Forall (λ k, exists p ps, hyp_ranges !! k = Some (p :: ps)) rest ->
            "n_epochs" ∉ rest -> "prune_intvl" ∉ rest ->
            h !! "n_epochs" = None -> try_key h "prune_intvl" VNone = VNone ->
            fill_from checkpoint_tag hyp_ranges keys rest h q
            = Raise (KeyError "n_epochs")).
  { clear. induction rest as [|key rest IH]; intros h q Hranges Hk1 Hk2 Hne Hintvl.
    - simpl. unfold fill_base, ensure_hyps. cbv zeta.
      set (h6 := ensure "prune_tolerance" _ _).
      assert (Hne6 : h6 !! "n_epochs" = None).
      { subst h6. by rewrite !lookup_ensure_ne by done. }
      assert (Hi6 : h6 !! "prune_intvl" = Some VNone).
      { subst h6. rewrite lookup_ensure_ne, lookup_ensure_eq by done.
        f_equal. etrans; [|exact Hintvl].
        unfold try_key. by rewrite !lookup_ensure_ne by done. }
      clearbody h6.
      by rewrite (getitem_Some _ _ _ Hi6), (getitem_None _ _ Hne6).
    - apply Forall_cons in Hranges as [(p & ps & Hparams) Hranges].
      apply not_elem_of_cons in Hk1 as [Hk1 Hk1'].
      apply not_elem_of_cons in Hk2 as [Hk2 Hk2'].
      simpl. rewrite (getitem_Some _ _ _ Hparams). simpl.
      rewrite IH; try done.
      + by rewrite lookup_insert_ne.
      + unfold try_key in *. by rewrite lookup_insert_ne. }
  by apply Hgen.
Qed.

(** X8. A swept key with an empty range empties the sweep: whatever the
    other ranges and the base configuration are, nothing is put on the queue
    and nothing is raised, not even for a configuration the base call would
    reject. *)
Theorem fill_hyper_q_empty_range (hyp_ranges : gmap string (list value))
    (pre post : list string) (k : string) (h : hyps) (q : list hyps) :
  Forall (λ k, is_Some (hyp_ranges !! k)) pre ->
  hyp_ranges !! k = Some [] ->
  exists h', fill_hyper_q checkpoint_tag h hyp_ranges (pre ++ k :: post) q 0 = Ok (h', q).
Proof.
  intros Hpre Hk. unfold fill_hyper_q. rewrite drop_0.
  generalize (pre ++ k :: post)%list at 1. intros keys. revert h.
  induction pre as [|key pre IH]; intros h; simpl.
  - rewrite (getitem_Some _ _ _ Hk). simpl. eauto.
  - apply Forall_cons in Hpre as [[params Hparams] Hpre].
    rewrite (getitem_Some _ _ _ Hparams). simpl. clear Hparams. revert h.
    induction params as [|p params IHp]; intros h; simpl; [eauto|].
    destruct (IH Hpre (<[key := p]> h)) as [h2 ->]. simpl. apply IHp.
Qed.

(** X9. A number of repeats that is zero or negative empties the sweep:
    every base call fills the defaults and enqueues nothing. *)
Theorem fill_hyper_q_no_repeats (hyp_ranges : gmap string (list value))
    (keys : list string) (n : Z) (h : hyps) (q : list hyps) :
  "n_repeats" ∉ keys ->
  Forall (λ k, is_Some (hyp_ranges !! k)) keys ->
  is_Some (h !! "n_epochs") ->
  try_key h "n_repeats" (VInt 1) = VInt n -> n <= 0 ->
  exists h', fill_hyper_q checkpoint_tag h hyp_ranges keys q 0 = Ok (h', q).
Proof.
  intros Hrep Hranges He Hn Hle. unfold fill_hyper_q. simpl.
  assert (Hgen : forall rest h,
            "n_repeats" ∉ rest ->
            Forall (λ k, is_Some (hyp_ranges !! k)) rest -> sweep_inv n h ->
            exists h', fill_from checkpoint_tag hyp_ranges keys rest h q = Ok (h', q)
                       /\ sweep_inv n h').
  { clear h Hrep Hranges He Hn.
    induction rest as [|key rest IH]; intros h Hrep Hranges [He Hn].
    - simpl. unfold fill_base.
      destruct (ensure_hyps_spec h He) as (h1 & -> & _ & Hrep1 & Hsome). simpl.
      rewrite (getitem_Some _ _ _ Hrep1), Hn. simpl.
      replace (Z.to_nat n) with 0%nat by lia. simpl.
      exists h1. split; [done|]. split; [by apply Hsome|].
      unfold try_key. by rewrite Hrep1.
    - apply not_elem_of_cons in Hrep as [Hkey Hrep].
      apply Forall_cons in Hranges as [[params Hparams] Hranges].
      simpl. rewrite (getitem_Some _ _ _ Hparams). simpl. clear Hparams.
      assert (Hinv : sweep_inv n h) by done. clear He Hn. revert h Hinv.
      induction params as [|p params IHp]; intros h Hinv; simpl; [eauto|].
      destruct (IH (<[key := p]> h)) as (h2 & -> & Hinv2); try done.
      { by apply sweep_inv_insert. }
      simpl. by apply IHp. }
  destruct (Hgen keys h) as (h' & Hrun & _); try done. eauto.
Qed.

End SweepQueueFacts.

(** C9, the claim as stated fails: with two repeats and a seed of 7 in the
    base configuration, the two queue entries of the sweep point [a = 1]
    carry the same seed, next to the same search key. *)
Lemma repeats_do_not_differ_in_seed :
  seeds_and_keys
    (fill_hyper_q path_tag base_hyps_repeated ranges_a ["a"] [] 0)
  = Ok [(Some (VInt 7), Some (VStr "_a1")); (Some (VInt 7), Some (VStr "_a1"))].
Proof. vm_compute. reflexivity. Qed.

Lemma repeats_are_copies_witness :
  exists h' es,
    fill_hyper_q path_tag base_hyps_repeated ranges_a ["a"] [] 0
    = Ok (h', flat_map (replicate (Z.to_nat 2)) es)
    /\ point_of ["a"] <$> es = sweep_points ranges_a ["a"]
    /\ Forall (λ e : hyps,
                 e !! "search_keys" = Some (VStr (search_key_from e "" ["a"]))
                 /\ e !! "seed" = base_hyps_repeated !! "seed"
                 /\ forall k, k ∉ ["a"] -> k ∉ default_keys -> k ≠ "search_keys" ->
                              e !! k = base_hyps_repeated !! k) es.
Proof.
  apply (repeats_are_copies path_tag ranges_a ["a"] 2 base_hyps_repeated).
  - not_in_list.
  - not_in_list.
  - not_in_list.
  - not_in_list.
  - repeat constructor; not_in_list.
  - repeat constructor; by eexists.
  - intros params Hp. discriminate Hp.
  - by eexists.
  - reflexivity.
  - lia.
Defined.

(** The two-by-two sweep of [a] and [b]: the four points, in order. *)
Lemma fill_hyper_q_enumerates_product_witness :
  exists h' q,
    fill_hyper_q path_tag base_hyps ranges_ab ["a"; "b"] [] 0 = Ok (h', q)
    /\ point_of ["a"; "b"] <$> q
       = flat_map (replicate (Z.to_nat 1)) (sweep_points ranges_ab ["a"; "b"]).
Proof.
  apply (fill_hyper_q_enumerates_product path_tag ranges_ab ["a"; "b"] 1 base_hyps).
  - not_in_list.
  - not_in_list.
  - not_in_list.
  - repeat constructor; not_in_list.
  - repeat constructor; by eexists.
  - intros params Hp. discriminate Hp.
  - by eexists.
  - reflexivity.
  - lia.
Defined.

(** A seed of 7 in the base configuration: every entry carries it. *)
Lemma fill_hyper_q_keeps_options_witness :
  exists h' q,
    fill_hyper_q path_tag base_hyps_repeated ranges_a ["a"] [] 0 = Ok (h', q)
    /\ h' !! "seed" = Some (VInt 7)
    /\ Forall (λ e : hyps, e !! "seed" = Some (VInt 7)) q.
Proof.
  apply (fill_hyper_q_keeps_options path_tag ranges_a ["a"] 2 base_hyps_repeated
           "seed" (VInt 7)).
  - not_in_list.
  - not_in_list.
  - not_in_list.
  - repeat constructor; by eexists.
  - by eexists.
  - reflexivity.
  - lia.
  - not_in_list.
  - discriminate.
  - reflexivity.
  - discriminate.
Defined.

Lemma fill_hyper_q_entries_complete_witness :
  exists h' q,
    fill_hyper_q path_tag base_hyps ranges_ab ["a"; "b"] [] 0 = Ok (h', q)
    /\ Forall (λ e : hyps, Forall (λ k, is_Some (e !! k)) ("search_keys" :: default_keys)) q.
Proof.
  apply (fill_hyper_q_entries_complete path_tag ranges_ab ["a"; "b"] 1 base_hyps).
  - not_in_list.
  - not_in_list.
  - not_in_list.
  - repeat constructor; by eexists.
  - by eexists.
  - reflexivity.
  - lia.
Defined.

(** Five epochs and no pruning interval: the interval of every entry is 5. *)
Lemma fill_hyper_q_prune_intvl_default_witness :
  exists h' q,
    fill_hyper_q path_tag base_hyps ranges_ab ["a"; "b"] [] 0 = Ok (h', q)
    /\ Forall (λ e : hyps, e !! "prune_intvl" = Some (VInt 5)
                           /\ e !! "n_epochs" = Some (VInt 5)) q.
Proof.
  apply (fill_hyper_q_prune_intvl_default path_tag ranges_ab ["a"; "b"] 1 base_hyps
           (VInt 5)).
  - not_in_list.
  - not_in_list.
  - not_in_list.
  - not_in_list.
  - not_in_list.
  - repeat constructor; by eexists.
  - reflexivity.
  - reflexivity.
  - reflexivity.
  - lia.
Defined.

(** The empty configuration under the ranges of [a] and [b]. *)
Lemma fill_hyper_q_needs_n_epochs_witness :
  fill_hyper_q path_tag ∅ ranges_ab ["a"; "b"] [] 0 = Raise (KeyError "n_epochs").
Proof.
  apply (fill_hyper_q_needs_n_epochs path_tag ranges_ab ["a"; "b"] ∅ []).
  - reflexivity.
  - reflexivity.
  - not_in_list.
  - not_in_list.
  - repeat constructor; by eexists _, _.
Defined.

(** An empty range for [c] between those of [a] and [b]. *)
Lemma fill_hyper_q_empty_range_witness :
  exists h',
    fill_hyper_q path_tag base_hyps ranges_with_empty (["a"] ++ "c" :: ["b"]) [] 0
    = Ok (h', []).
Proof.
  apply (fill_hyper_q_empty_range path_tag ranges_with_empty ["a"] ["b"] "c" base_hyps []).
  - repeat constructor; by eexists.
  - reflexivity.
Defined.

Lemma fill_hyper_q_no_repeats_witness :
  exists h',
    fill_hyper_q path_tag base_hyps_no_repeat ranges_ab ["a"; "b"] [] 0 = Ok (h', []).
Proof.
  apply (fill_hyper_q_no_repeats path_tag ranges_ab ["a"; "b"] 0 base_hyps_no_repeat []).
  - not_in_list.
  - repeat constructor; by eexists.
  - by eexists.
  - reflexivity.
  - lia.
Defined.

(** ** The optimisation objects: what the call writes *)

Section OptimWriteFacts.
Variable module_globals : gset string.
Variable loss_fn_obj : Type.
Variable call_global : string -> option value -> outcome loss_fn_obj.
Variable check_Adam : value -> value -> outcome ().
Variable check_ReduceLROnPlateau : value -> value -> value -> outcome ().
Variable check_MultiStepLR : value -> outcome ().

Abbreviation build := (get_optim_objs module_globals loss_fn_obj call_global
                         check_Adam check_ReduceLROnPlateau check_MultiStepLR).

Lemma eq_str_true (v : value) (s : string) : eq_str v s = true -> v = VStr s.
Proof.
  destruct v; simpl; try done. intros Heq. by apply String.eqb_eq in Heq as ->.
Qed.

(** What a call that returns has read, checked and written. *)
Lemma get_optim_objs_inv (h h' : hyps) (optimizer : optimizer_obj)
    (scheduler : scheduler_obj) (loss_fn : loss_fn_obj) :
  build h = Ok (h', (optimizer, scheduler, loss_fn)) ->
  let lossfxn := default (VStr "PoissonNLLLoss") (h !! "lossfxn") in
  let h1 := <["lossfxn" := lossfxn]> h in
  exists sched,
    h !! "scheduler" = Some sched
    /\ globals_call module_globals loss_fn_obj call_global lossfxn
         (if eq_str lossfxn "PoissonNLLLoss" then h !! "log_poisson" else None)
       = Ok loss_fn
    /\ h !! "lr" = Some (adam_lr optimizer)
    /\ h !! "l2" = Some (adam_weight_decay optimizer)
    /\ check_Adam (adam_lr optimizer) (adam_weight_decay optimizer) = Ok ()
    /\ h' = (if eq_str sched "ReduceLROnPlateau" || eq_str sched "MultiStepLR"
             then h1 else <["scheduler" := VStr "NullScheduler"]> h1)
    /\ scheduler
       = (if eq_str sched "ReduceLROnPlateau" then
            ReduceLROnPlateau "min" (default VNone (h !! "scheduler_scale"))
                              (default VNone (h !! "scheduler_patience"))
                              (default VNone (h !! "scheduler_thresh"))
          else if eq_str sched "MultiStepLR" then
            MultiStepLR (try_key h "scheduler_milestones" (VList [VInt 10; VInt 20; VInt 30]))
                        "0.1"
          else NullScheduler)
    /\ (eq_str sched "ReduceLROnPlateau" = true ->
        is_Some (h !! "scheduler_scale") /\ is_Some (h !! "scheduler_patience")
        /\ is_Some (h !! "scheduler_thresh")
        /\ check_ReduceLROnPlateau (default VNone (h !! "scheduler_scale"))
             (default VNone (h !! "scheduler_patience"))
             (default VNone (h !! "scheduler_thresh"))
           = Ok ())
    /\ (eq_str sched "ReduceLROnPlateau" = false -> eq_str sched "MultiStepLR" = true ->
        check_MultiStepLR
          (try_key h "scheduler_milestones" (VList [VInt 10; VInt 20; VInt 30]))
        = Ok ()).
Proof.
  intros Hrun lossfxn h1. unfold get_optim_objs in Hrun.
  set (h0 := match h !! "lossfxn" with None => _ | Some _ => h end) in Hrun.
  assert (Hh0 : h0 = h1).
  { subst h0 h1 lossfxn. destruct (h !! "lossfxn") eqn:Hl; simpl; [|done].
    by rewrite insert_id. }
  assert (Hother : forall k, k ≠ "lossfxn" -> h0 !! k = h !! k).
  { intros k Hk. rewrite Hh0. subst h1. by rewrite lookup_insert_ne. }
  assert (Hloss : h0 !! "lossfxn" = Some lossfxn).
  { rewrite Hh0. subst h1. by rewrite lookup_insert_eq. }
  clearbody h0. cbv zeta in Hrun.
  rewrite (getitem_Some _ _ _ Hloss) in Hrun. simpl in Hrun.
  rewrite !Hother in Hrun by done. unfold try_key in Hrun.
  rewrite !Hother in Hrun by done.
  set (loss := if _ && _ then _ else _) in Hrun.
  assert (Hcall : loss = globals_call module_globals loss_fn_obj call_global lossfxn
                    (if eq_str lossfxn "PoissonNLLLoss" then h !! "log_poisson" else None)).
  { subst loss. destruct (eq_str lossfxn "PoissonNLLLoss"); simpl; [|done].
    destruct (h !! "log_poisson") as [log_p|] eqn:Hlog.
    - rewrite bool_decide_true by eauto. unfold getitem. rewrite Hother, Hlog by done.
      done.
    - rewrite bool_decide_false by (by intros [? ?]). done. }
  rewrite Hcall in Hrun. clear Hcall loss.
  destruct (globals_call _ _ _ _ _) as [lf|]; [|done]. simpl in Hrun.
  unfold getitem in Hrun. rewrite !Hother in Hrun by done.
  destruct (h !! "lr") as [lr|]; [|done]. simpl in Hrun.
  destruct (h !! "l2") as [l2|]; [|done]. simpl in Hrun.
  destruct (check_Adam lr l2) as [[]|] eqn:Hadam; [|done]. simpl in Hrun.
  destruct (h !! "scheduler") as [sched|]; [|done]. simpl in Hrun.
  exists sched. split; [done|].
  destruct (eq_str sched "ReduceLROnPlateau") eqn:H1; simpl.
  - destruct (h !! "scheduler_scale") as [f|]; [|done]. simpl in Hrun.
    destruct (h !! "scheduler_patience") as [p|]; [|done]. simpl in Hrun.
    destruct (h !! "scheduler_thresh") as [t|]; [|done]. simpl in Hrun.
    destruct (check_ReduceLROnPlateau f p t) as [[]|] eqn:Hred; [|done]. simpl in Hrun.
    injection Hrun as <- <- <- <-. rewrite Hh0. simpl.
    repeat split; try done; eauto.
  - destruct (eq_str sched "MultiStepLR") eqn:H2; simpl.
    + destruct (check_MultiStepLR _) as [[]|] eqn:Hmulti; [|done]. simpl in Hrun.
      injection Hrun as <- <- <- <-. rewrite Hh0. simpl. repeat split; done.
    + injection Hrun as <- <- <- <-. rewrite Hh0. simpl. repeat split; done.
Qed.

(** X10. A call of [get_optim_objs] that returns has written to the
    dictionary at two places at most: ["lossfxn"], which is the given name
    or ["PoissonNLLLoss"], and ["scheduler"], which afterwards always names
    the class of the scheduler that was built.  The optimiser is Adam with
    the configured learning rate and weight decay. *)
Theorem get_optim_objs_writes (h h' : hyps) (optimizer : optimizer_obj)
    (scheduler : scheduler_obj) (loss_fn : loss_fn_obj) :
  get_optim_objs module_globals loss_fn_obj call_global check_Adam
                 check_ReduceLROnPlateau check_MultiStepLR h
  = Ok (h', (optimizer, scheduler, loss_fn)) ->
  (forall k, k ≠ "lossfxn" -> k ≠ "scheduler" -> h' !! k = h !! k)
  /\ h' !! "lossfxn" = Some (default (VStr "PoissonNLLLoss") (h !! "lossfxn"))
  /\ h' !! "scheduler" = Some (VStr (scheduler_name scheduler))
  /\ h !! "lr" = Some (adam_lr optimizer)
  /\ h !! "l2" = Some (adam_weight_decay optimizer).
Proof.
  intros Hrun.
  destruct (get_optim_objs_inv _ _ _ _ _ Hrun)
    as (sched & Hsched & _ & Hlr & Hl2 & _ & -> & -> & _).
  split; [|split; [|split; [|done]]].
  - intros k Hk1 Hk2. destruct (_ || _); by rewrite !lookup_insert_ne by done.
  - destruct (_ || _); [by rewrite lookup_insert_eq|].
    by rewrite lookup_insert_ne, lookup_insert_eq.
  - destruct (eq_str sched "ReduceLROnPlateau") eqn:H1; simpl.
    { rewrite lookup_insert_ne by done. by rewrite Hsched, (eq_str_true _ _ H1). }
    destruct (eq_str sched "MultiStepLR") eqn:H2; simpl.
    { rewrite lookup_insert_ne by done. by rewrite Hsched, (eq_str_true _ _ H2). }
    by rewrite lookup_insert_eq.
Qed.

(** X11. [get_optim_objs] is idempotent on the dictionary: called again on
    the dictionary it has left, as every fold of a cross-validation does, it
    returns the same objects and leaves the dictionary as it is. *)
Theorem get_optim_objs_idempotent (h h' : hyps)
    (objs : optimizer_obj * scheduler_obj * loss_fn_obj) :
  get_optim_objs module_globals loss_fn_obj call_global check_Adam
                 check_ReduceLROnPlateau check_MultiStepLR h
  = Ok (h', objs) ->
  get_optim_objs module_globals loss_fn_obj call_global check_Adam
                 check_ReduceLROnPlateau check_MultiStepLR h'
  = Ok (h', objs).
Proof.
  destruct objs as [[optimizer scheduler] loss_fn]. intros Hrun.
  destruct (get_optim_objs_inv _ _ _ _ _ Hrun)
    as (sched & Hsched & Hcall & Hlr & Hl2 & Hadam & Hh' & Hs & Hred & Hmulti).
  set (lossfxn := default (VStr "PoissonNLLLoss") (h !! "lossfxn")) in *.
  assert (Hother : forall k, k ≠ "lossfxn" -> k ≠ "scheduler" -> h' !! k = h !! k).
  { intros k Hk1 Hk2. rewrite Hh'. destruct (_ || _); by rewrite !lookup_insert_ne by done. }
  assert (Hloss : h' !! "lossfxn" = Some lossfxn).
  { rewrite Hh'. destruct (_ || _); [by rewrite lookup_insert_eq|].
    by rewrite lookup_insert_ne, lookup_insert_eq. }
  assert (Hsched' : h' !! "scheduler"
                    = Some (if eq_str sched "ReduceLROnPlateau" || eq_str sched "MultiStepLR"
                            then sched else VStr "NullScheduler")).
  { rewrite Hh'. destruct (_ || _).
    - by rewrite lookup_insert_ne.
    - by rewrite lookup_insert_eq. }
  unfold get_optim_objs. rewrite Hloss. cbv zeta.
  rewrite (getitem_Some _ _ _ Hloss). simpl.
  set (loss := if _ && _ then _ else _).
  assert (Hcall' : loss = Ok loss_fn).
  { subst loss. rewrite <- Hcall.
    destruct (eq_str lossfxn "PoissonNLLLoss"); simpl; [|done].
    unfold getitem. rewrite !Hother by done.
    destruct (h !! "log_poisson") as [log_p|] eqn:Hlog.
    - rewrite bool_decide_true by eauto. done.
    - rewrite bool_decide_false by (by intros [? ?]). done. }
  rewrite Hcall'. simpl. unfold getitem, try_key.
  rewrite (Hother "lr"), (Hother "l2"), (Hother "scheduler_scale"),
    (Hother "scheduler_patience"), (Hother "scheduler_thresh"),
    (Hother "scheduler_milestones") by done.
  rewrite Hlr, Hl2, Hsched'. simpl. rewrite Hadam. simpl.
  destruct (eq_str sched "ReduceLROnPlateau") eqn:H1; simpl.
  - rewrite H1. simpl. destruct (Hred eq_refl) as ([f Hf] & [p Hp] & [t Ht] & Hcheck).
    rewrite Hf, Hp, Ht in *. simpl in *. rewrite Hcheck. simpl.
    subst scheduler. by destruct optimizer.
  - destruct (eq_str sched "MultiStepLR") eqn:H2; simpl in *.
    + rewrite H1, H2. unfold try_key in Hmulti. rewrite (Hmulti eq_refl eq_refl). simpl.
      subst scheduler. by destruct optimizer.
    + subst scheduler h'. rewrite insert_insert_eq. by destruct optimizer.
Qed.

End OptimWriteFacts.

(** The call on the configuration with the scheduler ["CosineAnnealingLR"]. *)
Lemma cosine_run :
  exists loss_fn,
    get_optim_objs example_globals _ record_call nonnegative_rates any_plateau
                   any_milestones cosine_hyps
    = Ok (<["scheduler" := VStr "NullScheduler"]> cosine_hyps,
          (Adam (VFloat "0.001") (VFloat "0.01"), NullScheduler, loss_fn)).
Proof.
  apply (get_optim_objs_unknown_scheduler example_globals _ record_call nonnegative_rates
           any_plateau any_milestones cosine_hyps
           "PoissonNLLLoss" (VFloat "0.001") (VFloat "0.01") (VStr "CosineAnnealingLR")).
  - reflexivity.
  - exact PoissonNLLLoss_is_bound.
  - intros kw. by eexists.
  - reflexivity.
  - reflexivity.
  - reflexivity.
  - reflexivity.
  - reflexivity.
  - reflexivity.
Qed.

Lemma get_optim_objs_writes_witness :
  let h' := <["scheduler" := VStr "NullScheduler"]> cosine_hyps in
  (forall k, k ≠ "lossfxn" -> k ≠ "scheduler" -> h' !! k = cosine_hyps !! k)
  /\ h' !! "lossfxn" = Some (default (VStr "PoissonNLLLoss") (cosine_hyps !! "lossfxn"))
  /\ h' !! "scheduler" = Some (VStr (scheduler_name NullScheduler))
  /\ cosine_hyps !! "lr" = Some (adam_lr (Adam (VFloat "0.001") (VFloat "0.01")))
  /\ cosine_hyps !! "l2" = Some (adam_weight_decay (Adam (VFloat "0.001") (VFloat "0.01"))).
Proof.
  destruct cosine_run as [loss_fn Hrun].
  exact (get_optim_objs_writes example_globals _ record_call nonnegative_rates any_plateau
           any_milestones _ _ _ _ _ Hrun).
Defined.

Lemma get_optim_objs_idempotent_witness :
  let h' := <["scheduler" := VStr "NullScheduler"]> cosine_hyps in
  exists loss_fn,
    get_optim_objs example_globals _ record_call nonnegative_rates any_plateau
                   any_milestones h'
    = Ok (h', (Adam (VFloat "0.001") (VFloat "0.01"), NullScheduler, loss_fn)).
Proof.
  destruct cosine_run as [loss_fn Hrun]. exists loss_fn.
  exact (get_optim_objs_idempotent example_globals _ record_call nonnegative_rates
           any_plateau any_milestones _ _ _ Hrun).
Defined.

(** ** The batch loops when nothing diverges *)

Section BatchLoopFacts.
Context `{Collaborators}.

Lemma train_batches_finite_from (h : hyps) (name l1 : value) (nonpositive : bool)
    (zd : zdict) (zb : value) (batches : list batch) (i : Z) (l : float) (w : world) :
  h !! "exp_name" = Some name ->
  h !! "l1" = Some l1 -> le_zero l1 = Ok nonpositive -> no_gauss_reg h ->
  (eq_str name "test" = true -> 0 <= i <= 5) ->
  let seen := if eq_str name "test" then take (Z.to_nat (6 - i)) batches else batches in
  (forall j, (0 < j <= length seen)%nat ->
             nonfinite (run_batches (l1_coef l1 nonpositive) zd zb (take j seen) (l, w)).1
             = false) ->
  train_batches h zd zb i batches l w
  = Ok (run_batches (l1_coef l1 nonpositive) zd zb seen (l, w)).
Proof.
  intros Hname Hl1 Hle Hg. revert i l w.
  induction batches as [|a batches IH]; intros i l w Hi seen Hfin.
  - subst seen. simpl. rewrite take_nil. by destruct (eq_str name "test").
  - simpl. rewrite (getitem_Some _ _ _ Hl1). simpl. rewrite Hle. simpl.
    rewrite (gauss_penalty_none _ Hg). simpl.
    destruct (train_step _ a w) as [loss w1] eqn:Hstep.
    assert (Hseen : seen = a :: (if eq_str name "test"
                                 then take (Z.to_nat (6 - (i + 1))) batches else batches)).
    { subst seen. destruct (eq_str name "test"); [|done].
      specialize (Hi eq_refl).
      replace (Z.to_nat (6 - i)) with (S (Z.to_nat (6 - (i + 1)))) by lia. done. }
    clearbody seen. subst seen.
    pose proof (Hfin 1%nat ltac:(simpl; lia)) as H1.
    rewrite firstn_cons, take_0, run_batches_cons, Hstep in H1. simpl in H1.
    rewrite run_batches_cons, Hstep.
    rewrite H1, (getitem_Some _ _ _ Hname). simpl.
    destruct (eq_str name "test") eqn:Htest; simpl.
    + specialize (Hi eq_refl).
      destruct (Z.geb_spec i 5) as [Hge|Hlt].
      * replace (Z.to_nat (6 - (i + 1))) with 0%nat by lia. by rewrite take_0.
      * specialize (IH (i + 1) (fadd l loss) (zero_chans zd zb w1)).
        rewrite ?Htest in IH. simpl in IH. apply IH; [lia|].
        intros j Hj. specialize (Hfin (S j) ltac:(simpl; lia)).
        by rewrite firstn_cons, run_batches_cons, Hstep in Hfin.
    + specialize (IH (i + 1) (fadd l loss) (zero_chans zd zb w1)).
      rewrite ?Htest in IH. simpl in IH. apply IH; [done|].
      intros j Hj. specialize (Hfin (S j) ltac:(simpl; lia)).
      by rewrite firstn_cons, run_batches_cons, Hstep in Hfin.
Qed.

(** X12. With [hyps['l1']] a number and no positive [gauss_reg], and as
    long as the accumulated loss stays finite, the train loop of an epoch
    takes one optimisation step on every batch of the epoch, in order, each
    with the penalty that [hyps['l1']] asks for and followed by the zeroing
    of the pruned channels; in a test run it takes the first six batches and
    leaves the others. *)
Theorem train_batches_finite (h : hyps) (name l1 : value) (nonpositive : bool)
    (zd : zdict) (zb : value) (batches : list batch) (l : float) (w : world) :
  h !! "exp_name" = Some name ->
  h !! "l1" = Some l1 -> le_zero l1 = Ok nonpositive -> no_gauss_reg h ->
  (forall j, (0 < j <= length (test_cap 6 name batches))%nat ->
     nonfinite (run_batches (l1_coef l1 nonpositive) zd zb
                            (take j (test_cap 6 name batches)) (l, w)).1 = false) ->
  train_batches h zd zb 0 batches l w
  = Ok (run_batches (l1_coef l1 nonpositive) zd zb (test_cap 6 name batches) (l, w)).
Proof.
  intros Hname Hl1 Hle Hg Hfin.
  by apply (train_batches_finite_from h name l1 nonpositive zd zb batches 0 l w
              Hname Hl1 Hle Hg).
Qed.

Lemma validate_batches_from (h : hyps) (name l1 : value) (positive : bool) (w : world)
    (batches : list batch) (i : Z) (vl : float) (preds : list outputs)
    (targs : list batch) :
  h !! "l1" = Some l1 -> gt_zero l1 = Ok positive -> h !! "exp_name" = Some name ->
  (eq_str name "test" = true -> 0 <= i <= 3) ->
  let seen := if eq_str name "test" then take (Z.to_nat (4 - i)) batches else batches in
  validate_batches h w i batches vl preds targs
  = Ok (foldl (val_step l1 positive w) vl seen,
        (preds ++ ((λ b, (val_eval b w).1) <$> seen))%list,
        (targs ++ seen)%list).
Proof.
  intros Hl1 Hpos Hname. revert i vl preds targs.
  induction batches as [|a batches IH]; intros i vl preds targs Hi seen.
  - subst seen. simpl. rewrite take_nil.
    destruct (eq_str name "test"); simpl; by rewrite !app_nil_r.
  - simpl. destruct (val_eval a w) as [outs loss] eqn:Heval.
    rewrite (getitem_Some _ _ _ Hl1). simpl. rewrite Hpos. simpl.
    rewrite (getitem_Some _ _ _ Hname). simpl.
    assert (Hseen : seen = a :: (if eq_str name "test"
                                 then take (Z.to_nat (4 - (i + 1))) batches else batches)).
    { subst seen. destruct (eq_str name "test"); [|done].
      specialize (Hi eq_refl).
      replace (Z.to_nat (4 - i)) with (S (Z.to_nat (4 - (i + 1)))) by lia. done. }
    clearbody seen. subst seen. simpl. unfold val_step at 2. rewrite Heval. simpl.
    destruct (eq_str name "test") eqn:Htest; simpl.
    + specialize (Hi eq_refl).
      destruct (Z.geb_spec i 3) as [Hge|Hlt].
      * replace (Z.to_nat (4 - (i + 1))) with 0%nat by lia. by rewrite take_0.
      * rewrite IH by lia. rewrite ?Htest. simpl. by rewrite <- !app_assoc.
    + rewrite IH by done. rewrite ?Htest. simpl. by rewrite <- !app_assoc.
Qed.

(** X13. With [hyps['l1']] a number, [validate_static] evaluates the model
    on every validation batch, in order, or on the first four in a test
    run: the targets it returns are those batches, the predictions the
    outputs of the model on them, and the loss the sum of the losses and,
    when [l1] is positive, of the penalties. *)
Theorem validate_static_sees (h : hyps) (name l1 : value) (positive : bool) (w : world)
    (step_size : Z) :
  h !! "l1" = Some l1 -> gt_zero l1 = Ok positive -> h !! "exp_name" = Some name ->
  let seen := test_cap 4 name (val_sample step_size w) in
  validate_static h w step_size
  = Ok (foldl (val_step l1 positive w) (of_int 0) seen,
        (λ b, (val_eval b w).1) <$> seen, seen).
Proof.
  intros Hl1 Hpos Hname seen. unfold validate_static.
  by rewrite (validate_batches_from h name l1 positive w _ 0 _ _ _ Hl1 Hpos Hname).
Qed.

(** X14. A validation split smaller than one step, 500 samples or 128 with
    [self_attn], stops the run in its first epoch: the number of validation
    loops is zero and the division of the validation loss by it raises
    [ZeroDivisionError], after the training of the epoch and before the
    monitor is asked and any checkpoint is saved. *)
Theorem small_validation_set_raises (env : loop_env) (s : loop_state) (avg : float)
    (w : world) (r : float * list outputs * list batch) (fuel : nat) :
  ls_stop_training s = false ->
  train_phase s = Normal (avg, w) ->
  0 <= val_shape0 w < val_step_size (ls_hyps s) ->
  validate_static (ls_hyps s) w (val_step_size (ls_hyps s)) = Ok r ->
  validation_phase (ls_self s) (ls_hyps s) w
  = Throw ZeroDivisionError (ls_self s) (ls_hyps s)
  /\ iteration env s = Throw ZeroDivisionError (ls_self s) (ls_hyps s)
  /\ epoch_loop (S fuel) env s = Some (Throw ZeroDivisionError (ls_self s) (ls_hyps s)).
Proof.
  intros Hrun Htrain Hsmall Hval.
  assert (Hphase : validation_phase (ls_self s) (ls_hyps s) w
                   = Throw ZeroDivisionError (ls_self s) (ls_hyps s)).
  { unfold validation_phase. cbv zeta. fold (val_step_size (ls_hyps s)).
    rewrite Hval. destruct r as [[vl preds] targs]. simpl.
    unfold py_truediv. by rewrite Z.div_small by done. }
  assert (Hiter : iteration env s = Throw ZeroDivisionError (ls_self s) (ls_hyps s)).
  { unfold iteration. rewrite Htrain. simpl. by rewrite Hphase. }
  repeat split; try done. simpl. by rewrite Hrun, Hiter.
Qed.

End BatchLoopFacts.

(** The two train batches of the toy world, in a run that is not a test. *)
Lemma train_batches_finite_witness :
  train_batches Toy.example_hyps {["conv1" := ∅]} (VBool true) 0
                (Toy.tw_train Toy.fresh_world) (XReal.Fin 0) Toy.fresh_world
  = Ok (run_batches (l1_coef (VInt 0) true) {["conv1" := ∅]} (VBool true)
          (test_cap 6 (VStr "demo") (Toy.tw_train Toy.fresh_world))
          (XReal.Fin 0, Toy.fresh_world)).
Proof.
  refine (train_batches_finite Toy.example_hyps (VStr "demo") (VInt 0) true
            {["conv1" := ∅]} (VBool true) (Toy.tw_train Toy.fresh_world) (XReal.Fin 0)
            Toy.fresh_world _ _ _ _ _).
  - reflexivity.
  - reflexivity.
  - reflexivity.
  - intros g Hg. discriminate Hg.
  - intros j Hj. simpl in Hj. destruct j as [|[|[|j]]]; try lia; reflexivity.
Defined.

Lemma validate_static_sees_witness :
  let seen := test_cap 4 (VStr "demo") (val_sample 500 Toy.fresh_world) in
  validate_static Toy.example_hyps Toy.fresh_world 500
  = Ok (foldl (val_step (VInt 0) false Toy.fresh_world) (of_int 0) seen,
        (λ b, (val_eval b Toy.fresh_world).1) <$> seen, seen).
Proof.
  refine (validate_static_sees Toy.example_hyps (VStr "demo") (VInt 0) false
            Toy.fresh_world 500 _ _ _).
  - reflexivity.
  - reflexivity.
  - reflexivity.
Defined.

(** The toy world without a validation batch: the first epoch raises. *)
Lemma small_validation_set_raises_witness :
  let s := Toy.start_state Toy.no_stopping Toy.example_hyps Toy.no_val_world 2
                           (VBool false) in
  let w := Toy.with_mask {["conv1" := ∅]} (Toy.with_steps 2 Toy.no_val_world) in
  validation_phase (ls_self s) (ls_hyps s) w
  = Throw ZeroDivisionError (ls_self s) (ls_hyps s)
  /\ iteration Toy.plain_env s = Throw ZeroDivisionError (ls_self s) (ls_hyps s)
  /\ epoch_loop (S 3) Toy.plain_env s
     = Some (Throw ZeroDivisionError (ls_self s) (ls_hyps s)).
Proof.
  intros s w.
  refine (small_validation_set_raises Toy.plain_env s (XReal.Fin (1 # 2)) w
            (XReal.Fin 0, [], []) 3 _ _ _ _).
  - reflexivity.
  - reflexivity.
  - vm_compute. split; [discriminate|reflexivity].
  - reflexivity.
Defined.

(** ** What a fold starts from *)

Section FoldFacts.
Context `{Collaborators}.

Lemma layer_names_fmap (l : list value) (names : list string) :
  layer_names (VList l) = Ok names -> l = VStr <$> names.
Proof.
  simpl. revert names. induction l as [|x l IH]; intros names; simpl.
  - by intros [= <-].
  - destruct (foldr _ _ l) as [names'|]; [|done]. simpl.
    destruct x; try done. intros [= <-]. simpl. f_equal. by apply IH.
Qed.

Lemma lookup_empty_sets (names : list string) (d : string) :
  (list_to_map ((λ d, (d, ∅)) <$> names) : zdict) !! d
  = if decide (d ∈ names) then Some ∅ else None.
Proof.
  induction names as [|name names IH].
  - rewrite fmap_nil, list_to_map_nil, lookup_empty.
    destruct (decide (d ∈ [])) as [Hin|]; [by apply elem_of_nil in Hin|done].
  - rewrite fmap_cons, list_to_map_cons. destruct (decide (name = d)) as [->|Hne].
    + rewrite lookup_insert_eq.
      destruct (decide (d ∈ d :: names)) as [|Hnin]; [done|].
      destruct Hnin. apply list_elem_of_here.
    + rewrite lookup_insert_ne, IH by done.
      destruct (decide (d ∈ names)) as [Hin|Hnin];
        destruct (decide (d ∈ name :: names)) as [Hin'|Hnin']; try done.
      * destruct Hnin'. by apply list_elem_of_further.
      * apply elem_of_cons in Hin' as [->|Hin']; done.
Qed.

(** X15. Without a start point, a fold starts with a [zero_dict] that has
    exactly one entry per layer to prune, and every entry is the empty set:
    no channel is zeroed before the first pruning step.  The layers are those
    of [hyps['prune_layers']]; when that is ['all'] or the empty list, they
    are the convolutional layers of the model except the last, and the
    dictionary is given their list. *)
Theorem init_fold_zero_dict (self : Trainer) (h : hyps) (w : world)
    (ckpts : list (save_dict * bool)) (env : loop_env) (s : loop_state) :
  init_fold self h w ckpts = Normal (env, s) ->
  try_key h "startpt" VNone = VNone ->
  exists names,
    ls_hyps s !! "prune_layers" = Some (VList (VStr <$> names))
    /\ (forall d, ls_zero_dict s !! d = if decide (d ∈ names) then Some ∅ else None)
    /\ (forall v, h !! "prune_layers" = Some v ->
          if eq_str v "all" || eq_nil v
          then names = removelast (conv_layer_names w)
          else layer_names v = Ok names).
Proof.
  intros Hinit Hstart. unfold init_fold in Hinit.
  destruct (getitem h "exp_name") as [exp_name|]; [|done]. simpl in Hinit.
  set (h1 := if eq_str exp_name "test" then _ else h) in Hinit.
  assert (Hpl1 : h1 !! "prune_layers" = h !! "prune_layers").
  { subst h1. destruct (eq_str exp_name "test"); [|done].
    by rewrite !lookup_insert_ne. }
  assert (Hst1 : h1 !! "startpt" = h !! "startpt").
  { subst h1. destruct (eq_str exp_name "test"); [|done].
    by rewrite !lookup_insert_ne. }
  clearbody h1.
  destruct (h !! "prune_layers") as [v|] eqn:Hv;
    [|by rewrite (getitem_None _ _ Hpl1) in Hinit].
  rewrite (getitem_Some _ _ _ Hpl1) in Hinit. simpl in Hinit.
  set (h2 := if eq_str v "all" || eq_nil v then _ else h1) in Hinit.
  set (names0 := removelast (conv_layer_names w)) in *.
  assert (Hpl2 : h2 !! "prune_layers"
                 = Some (if eq_str v "all" || eq_nil v then VList (VStr <$> names0) else v)).
  { subst h2. destruct (_ || _); [|done].
    by rewrite lookup_insert_ne, lookup_insert_eq. }
  assert (Hst2 : h2 !! "startpt" = h !! "startpt").
  { subst h2. destruct (_ || _); [|done]. by rewrite !lookup_insert_ne. }
  clearbody h2. cbv zeta in Hinit.
  destruct (getitem h2 "n_epochs") as [ne|]; [|done]. simpl in Hinit.
  match type of Hinit with
  | context [if ?c then at_heap ?a ?b ?m else ?n] =>
      destruct (if c then at_heap a b m else n) as [ne'|]; [|done]
  end.
  simpl in Hinit.
  destruct (as_int ne') as [n|]; [|done]. simpl in Hinit.
  rewrite (getitem_Some _ _ _ Hpl2) in Hinit. simpl in Hinit.
  destruct (layer_names _) as [names|] eqn:Hnames; [|done]. simpl in Hinit.
  assert (Hnone : h2 !! "startpt" = None \/ h2 !! "startpt" = Some VNone).
  { rewrite Hst2. unfold try_key in Hstart.
    destruct (h !! "startpt") as [p|]; [right; by subst|by left]. }
  assert (Hs : ls_hyps s = h2 /\ ls_zero_dict s = list_to_map ((λ d, (d, ∅)) <$> names)).
  { destruct Hnone as [Hn|Hn]; rewrite Hn in Hinit; simpl in Hinit;
      by injection Hinit as _ <-. }
  destruct Hs as [Hh Hzd]. exists names. rewrite Hh, Hzd, Hpl2.
  split; [|split].
  - destruct (eq_str v "all" || eq_nil v) eqn:Hall.
    + by rewrite (layer_names_fmap _ _ Hnames).
    + destruct v; try done. by rewrite (layer_names_fmap _ _ Hnames).
  - apply lookup_empty_sets.
  - intros v' [= <-]. destruct (eq_str v "all" || eq_nil v) eqn:Hall.
    + apply layer_names_fmap in Hnames.
      assert (Hinj : Inj (=) (=) VStr) by (by intros ? ? [=]).
      by apply (inj (fmap VStr)) in Hnames.
    + done.
Qed.

(** X16. A run whose experiment is named ["test"] trains with two epochs
    and a pruning interval of two, whatever the configuration asks for: the
    dictionary is overwritten at both places, and the epoch budget of the
    loop is 2 also when pruning with [reset_sd] takes it from the interval. *)
Theorem init_fold_test_run (self : Trainer) (h : hyps) (w : world)
    (ckpts : list (save_dict * bool)) (env : loop_env) (s : loop_state) :
  h !! "exp_name" = Some (VStr "test") ->
  init_fold self h w ckpts = Normal (env, s) ->
  ls_n_epochs s = 2
  /\ ls_hyps s !! "n_epochs" = Some (VInt 2)
  /\ ls_hyps s !! "prune_intvl" = Some (VInt 2).
Proof.
  intros Hname Hinit. unfold init_fold in Hinit.
  rewrite (getitem_Some _ _ _ Hname) in Hinit. simpl in Hinit.
  set (h1 := <["prune_intvl" := VInt 2]> (<["n_epochs" := VInt 2]> h)) in Hinit.
  assert (Hne1 : h1 !! "n_epochs" = Some (VInt 2)).
  { subst h1. by rewrite lookup_insert_ne, lookup_insert_eq. }
  assert (Hpi1 : h1 !! "prune_intvl" = Some (VInt 2)).
  { subst h1. by rewrite lookup_insert_eq. }
  clearbody h1.
  destruct (getitem h1 "prune_layers") as [v|]; [|done]. simpl in Hinit.
  set (h2 := if eq_str v "all" || eq_nil v then _ else h1) in Hinit.
  assert (Hne2 : h2 !! "n_epochs" = Some (VInt 2)).
  { subst h2. destruct (_ || _); [|done]. by rewrite !lookup_insert_ne. }
  assert (Hpi2 : h2 !! "prune_intvl" = Some (VInt 2)).
  { subst h2. destruct (_ || _); [|done]. by rewrite !lookup_insert_ne. }
  clearbody h2. cbv zeta in Hinit.
  rewrite (getitem_Some _ _ _ Hne2), (getitem_Some _ _ _ Hpi2) in Hinit.
  simpl in Hinit.
  assert (Hn : forall c : bool,
            (if c then Normal (VInt 2) else Normal (VInt 2))
            = (Normal (VInt 2) : flow value)) by (by intros []).
  rewrite Hn in Hinit. simpl in Hinit.
  destruct (at_heap self h2 (getitem h2 "prune_layers" ≫= layer_names)) as [names|];
    [|done].
  simpl in Hinit.
  destruct (h2 !! "startpt") as [path|] eqn:Hpath.
  - destruct (is_None path).
    + by injection Hinit as _ <-.
    + destruct (startpt_checkpoint path) as [zd [b|]]; injection Hinit as _ <-; simpl;
        rewrite ?lookup_insert_ne by done; done.
  - by injection Hinit as _ <-.
Qed.

(** What a fold starts from, whatever the configuration: the monitor is the
    one it was given, with the state the runs before have left in it. *)
Lemma init_fold_start (self : Trainer) (h : hyps) (w : world)
    (ckpts : list (save_dict * bool)) (env : loop_env) (s : loop_state) :
  init_fold self h w ckpts = Normal (env, s) ->
  ls_self s = self /\ ls_world s = w /\ ls_ckpts s = ckpts /\ ls_epoch s = -1
  /\ ls_stop_training s = false
  /\ ls_hyps_prune s = try_key h "prune" (VBool false)
  /\ ls_hyps s !! "prune" = h !! "prune".
Proof.
  intros Hinit. unfold init_fold in Hinit.
  destruct (getitem h "exp_name") as [exp_name|]; [|done]. simpl in Hinit.
  set (h1 := if eq_str exp_name "test" then _ else h) in Hinit.
  assert (H1 : h1 !! "prune" = h !! "prune").
  { subst h1. destruct (eq_str exp_name "test"); [|done].
    by rewrite !lookup_insert_ne. }
  clearbody h1.
  destruct (getitem h1 "prune_layers") as [v|]; [|done]. simpl in Hinit.
  set (h2 := if eq_str v "all" || eq_nil v then _ else h1) in Hinit.
  assert (H2 : h2 !! "prune" = h !! "prune").
  { subst h2. destruct (_ || _); [|done]. by rewrite !lookup_insert_ne. }
  clearbody h2. cbv zeta in Hinit.
  destruct (getitem h2 "n_epochs") as [ne|]; [|done]. simpl in Hinit.
  match type of Hinit with
  | context [if ?c then at_heap ?a ?b ?m else ?n] =>
      destruct (if c then at_heap a b m else n) as [ne'|]; [|done]
  end.
  simpl in Hinit.
  destruct (as_int ne') as [n|]; [|done]. simpl in Hinit.
  destruct (at_heap self h2 (getitem h2 "prune_layers" ≫= layer_names)) as [names|];
    [|done].
  simpl in Hinit.
  assert (Hp : try_key h2 "prune" (VBool false) = try_key h "prune" (VBool false)).
  { unfold try_key. by rewrite H2. }
  destruct (h2 !! "startpt") as [path|] eqn:Hpath.
  - destruct (is_None path).
    + injection Hinit as _ <-. by rewrite <- Hp.
    + destruct (startpt_checkpoint path) as [zd [b|]]; injection Hinit as _ <-; simpl;
        rewrite ?lookup_insert_ne by done; by rewrite <- Hp.
  - injection Hinit as _ <-. by rewrite <- Hp.
Qed.

(** X17. The option [prune] is read with a default where the fold starts
    and without one where the epoch statistics are printed: a dictionary
    that does not set it makes the first epoch raise [KeyError: 'prune'],
    after its training and its validation, the monitor's observation
    included, and before any checkpoint is saved. *)
Theorem missing_prune_option_raises (self : Trainer) (h : hyps) (w0 : world)
    (ckpts : list (save_dict * bool)) (env : loop_env) (s : loop_state)
    (avg vl va : float) (stop : bool) (self' : Trainer) (w w' : world) (k : Z)
    (fuel : nat) :
  h !! "prune" = None ->
  init_fold self h w0 ckpts = Normal (env, s) ->
  train_phase s = Normal (avg, w) ->
  validation_phase (ls_self s) (ls_hyps s) w = Normal (vl, va, stop, self', w') ->
  ls_hyps s !! "prune_intvl" = Some (VInt k) -> k ≠ 0 ->
  iteration env s = Throw (KeyError "prune") self' (ls_hyps s)
  /\ epoch_loop (S fuel) env s = Some (Throw (KeyError "prune") self' (ls_hyps s)).
Proof.
  intros Hnone Hinit Htrain Hval Hk Hk0.
  destruct (init_fold_start _ _ _ _ _ _ Hinit)
    as (_ & _ & _ & _ & Hrun & Hprune & Hlook).
  assert (Hiter : iteration env s = Throw (KeyError "prune") self' (ls_hyps s)).
  { unfold iteration. rewrite Htrain. simpl. rewrite Hval. simpl.
    unfold pruning_phase. simpl. rewrite Hprune. unfold try_key. rewrite Hnone. simpl.
    rewrite (getitem_Some _ _ _ Hk). simpl.
    unfold py_mod. rewrite (proj2 (Z.eqb_neq k 0) Hk0). simpl.
    rewrite Hnone in Hlook. rewrite (getitem_None _ _ Hlook). simpl.
    rewrite Hprune. unfold try_key. by rewrite Hnone. }
  split; [done|]. simpl. by rewrite Hrun, Hiter.
Qed.

(** X18. Cross-validation over no fold: with [cross_val] set and
    [n_cv_folds] zero or negative, [train_loop] runs no fold and fails on
    its [return results] with an [UnboundLocalError]; the dictionary has
    been given its seed by then. *)
Theorem train_loop_no_folds (fuel : nat) (self : Trainer) (h : hyps)
    (ckpts : list (save_dict * bool)) (bs cv : value) (n : Z) :
  h !! "batch_size" = Some bs -> h !! "cross_val" = Some cv -> truthy cv = true ->
  h !! "n_cv_folds" = Some (VInt n) -> n <= 0 ->
  train_loop fuel self h ckpts
  = Some (Throw (UnboundLocalError "results") self (seeded h)).
Proof.
  intros Hbs Hcv Htrue Hn Hle. unfold train_loop.
  rewrite (getitem_Some _ _ _ Hbs). simpl. fold (seeded h).
  unfold cross_val_range.
  assert (Hcv' : seeded h !! "cross_val" = Some cv).
  { unfold seeded. by rewrite lookup_insert_ne. }
  assert (Hn' : seeded h !! "n_cv_folds" = Some (VInt n)).
  { unfold seeded. by rewrite lookup_insert_ne. }
  rewrite (getitem_Some _ _ _ Hcv'). simpl. rewrite Htrue.
  rewrite (getitem_Some _ _ _ Hn'). simpl.
  unfold seqZ. replace (Z.to_nat n) with 0%nat by lia. done.
Qed.

(** X19. The folds of a cross-validation are run one after the other on
    the same monitor, dictionary and list of checkpoints, each as the fold
    before has left them, and the result of a fold replaces the result of
    the folds before it: what the loop over the folds returns is the result
    of the last fold alone.  An exception of a fold ends the loop. *)
Theorem cv_folds_last_fold (fuel : nat) (range : list Z) (i : Z) (self : Trainer)
    (h : hyps) (ckpts : list (save_dict * bool)) (res : option results) :
  cv_folds fuel (range ++ [i]) self h ckpts res
  = match cv_folds fuel range self h ckpts res with
    | Some (Normal (_, self', h', ckpts')) =>
        match run_fold fuel self' (<["cross_val_idx" := VInt i]> h') ckpts' with
        | Some (Normal (r, s)) => Some (Normal (Some r, ls_self s, ls_hyps s, ls_ckpts s))
        | Some (Throw e self'' h'') => Some (Throw e self'' h'')
        | None => None
        end
    | Some (Throw e self' h') => Some (Throw e self' h')
    | None => None
    end.
Proof.
  revert self h ckpts res. induction range as [|j range IH]; intros self h ckpts res.
  - simpl. by destruct (run_fold _ _ _ _) as [[[r s]|]|].
  - simpl. destruct (run_fold _ _ _ _) as [[[r s]|]|]; [|done..]. apply IH.
Qed.

(** A round of ordinary training moves the epoch counter by one, sets
    [stop_training] by comparing it with [n_epochs] and saves one
    checkpoint. *)
Lemma plain_iteration_counts (env : loop_env) (s s' : loop_state) (brk : bool) :
  truthy (ls_hyps_prune s) = false ->
  iteration env s = Normal (brk, s') ->
  ls_epoch s' = ls_epoch s + 1
  /\ ls_n_epochs s' = ls_n_epochs s
  /\ ls_hyps_prune s' = ls_hyps_prune s
  /\ ls_stop_training s' = (ls_epoch s + 1 >=? ls_n_epochs s)
  /\ saved_epochs s' = (saved_epochs s ++ [ls_epoch s + 1])%list.
Proof.
  intros Hprune Hiter. unfold iteration in Hiter.
  destruct (train_phase s) as [[avg w]|]; [|done]. simpl in Hiter.
  destruct (validation_phase _ _ _) as [[[[[vl va] stop] self'] w']|]; [|done].
  simpl in Hiter. unfold pruning_phase in Hiter. simpl in Hiter.
  rewrite Hprune in Hiter. simpl in Hiter.
  destruct (at_heap _ _ (_ ≫= as_int)) as [k|]; [|done]. simpl in Hiter.
  destruct (at_heap _ _ (py_mod _ _)) as [r|]; [|done]. simpl in Hiter.
  rewrite Hprune in Hiter.
  destruct (at_heap _ _ (_ ≫= _)); [|done]. simpl in Hiter.
  injection Hiter as _ <-. simpl. rewrite Hprune. simpl. rewrite andb_true_r.
  repeat split; try done. unfold saved_epochs. simpl. by rewrite map_app.
Qed.

(** X20. With pruning off the epoch loop always ends: given a bound of
    more than [n_epochs + 1] rounds, and of two at least, it either raises or
    ends after [m] rounds, with [m] at least 1 and at most [n_epochs + 1],
    having saved one checkpoint per round, for consecutive epochs.  Neither
    the losses nor the monitor can make it run longer. *)
Theorem plain_loop_terminates (env : loop_env) (fuel : nat) (s : loop_state) :
  truthy (ls_hyps_prune s) = false -> ls_stop_training s = false ->
  (Z.to_nat (ls_n_epochs s - ls_epoch s) < fuel)%nat -> (1 < fuel)%nat ->
  match epoch_loop fuel env s with
  | None => False
  | Some (Throw _ _ _) => True
  | Some (Normal s') =>
      exists m, 1 <= m <= Z.max 1 (ls_n_epochs s - ls_epoch s)
        /\ ls_epoch s' = ls_epoch s + m
        /\ saved_epochs s' = (saved_epochs s ++ seqZ (ls_epoch s + 1) m)%list
  end.
Proof.
  revert s. induction fuel as [|fuel IH]; intros s Hprune Hrun Hfuel H1; [lia|].
  simpl. rewrite Hrun.
  destruct (iteration env s) as [[brk s1]|] eqn:Hiter; [|done].
  destruct (plain_iteration_counts env s s1 brk Hprune Hiter)
    as (He & Hn & Hp & Hstop & Hsaved).
  assert (Hone : exists m, 1 <= m <= Z.max 1 (ls_n_epochs s - ls_epoch s)
            /\ ls_epoch s1 = ls_epoch s + m
            /\ saved_epochs s1 = (saved_epochs s ++ seqZ (ls_epoch s + 1) m)%list).
  { exists 1. split; [lia|]. split; [done|]. by rewrite Hsaved. }
  destruct brk; [done|].
  destruct (ls_stop_training s1) eqn:Hstop1.
  - destruct fuel as [|fuel]; [lia|]. simpl. by rewrite Hstop1.
  - symmetry in Hstop. rewrite Z.geb_leb in Hstop. apply Z.leb_gt in Hstop.
    specialize (IH s1). rewrite Hp, Hn, He in IH.
    specialize (IH Hprune Hstop1 ltac:(lia) ltac:(lia)).
    destruct (epoch_loop fuel env s1) as [[s2|]|]; [|done..].
    destruct IH as (m & Hm & He2 & Hsaved2).
    exists (m + 1). split; [lia|]. split; [lia|].
    rewrite Hsaved2, Hsaved, <- app_assoc. f_equal.
    rewrite (seqZ_cons (ls_epoch s + 1) (m + 1)) by lia.
    simpl. do 2 f_equal; lia.
Qed.

End FoldFacts.

Lemma init_fold_zero_dict_witness :
  let s := Toy.start_state Toy.no_stopping Toy.example_hyps Toy.fresh_world 2
                           (VBool false) in
  exists names,
    ls_hyps s !! "prune_layers" = Some (VList (VStr <$> names))
    /\ (forall d, ls_zero_dict s !! d = if decide (d ∈ names) then Some ∅ else None)
    /\ (forall v, Toy.example_hyps !! "prune_layers" = Some v ->
          if eq_str v "all" || eq_nil v
          then names = removelast (conv_layer_names Toy.fresh_world)
          else layer_names v = Ok names).
Proof.
  intros s.
  refine (init_fold_zero_dict Toy.no_stopping Toy.example_hyps Toy.fresh_world []
            Toy.plain_env s _ _).
  - reflexivity.
  - reflexivity.
Defined.

(** Seven epochs asked for in a test run: two are run. *)
Lemma init_fold_test_run_witness :
  let s := Toy.start_state Toy.no_stopping
             (<["prune_intvl" := VInt 2]> (<["n_epochs" := VInt 2]> Toy.test_hyps))
             Toy.fresh_world 2 (VBool false) in
  ls_n_epochs s = 2
  /\ ls_hyps s !! "n_epochs" = Some (VInt 2)
  /\ ls_hyps s !! "prune_intvl" = Some (VInt 2).
Proof.
  intros s.
  refine (init_fold_test_run Toy.no_stopping Toy.test_hyps Toy.fresh_world []
            Toy.plain_env s _ _).
  - reflexivity.
  - reflexivity.
Defined.

(** The configuration of the examples without the option [prune]. *)
Lemma missing_prune_option_raises_witness :
  let s := Toy.start_state Toy.no_stopping Toy.no_prune_hyps Toy.fresh_world 2
                           (VBool false) in
  iteration Toy.plain_env s = Throw (KeyError "prune") Toy.no_stopping (ls_hyps s)
  /\ epoch_loop (S 3) Toy.plain_env s
     = Some (Throw (KeyError "prune") Toy.no_stopping (ls_hyps s)).
Proof.
  intros s.
  refine (missing_prune_option_raises Toy.no_stopping Toy.no_prune_hyps Toy.fresh_world []
            Toy.plain_env s (XReal.Fin (1 # 2)) (XReal.Fin (1 # 4)) (XReal.Fin (1 # 2))
            false Toy.no_stopping
            (Toy.with_mask {["conv1" := ∅]} (Toy.with_steps 2 Toy.fresh_world))
            (Toy.with_mask {["conv1" := ∅]} (Toy.with_steps 2 Toy.fresh_world))
            2 3 _ _ _ _ _ _).
  - reflexivity.
  - reflexivity.
  - reflexivity.
  - reflexivity.
  - reflexivity.
  - discriminate.
Defined.

Lemma train_loop_no_folds_witness :
  train_loop 4 Toy.no_stopping Toy.no_folds_hyps []
  = Some (Throw (UnboundLocalError "results") Toy.no_stopping (seeded Toy.no_folds_hyps)).
Proof.
  refine (train_loop_no_folds 4 Toy.no_stopping Toy.no_folds_hyps [] (VInt 8)
            (VBool true) 0 _ _ _ _ _).
  - reflexivity.
  - reflexivity.
  - reflexivity.
  - reflexivity.
  - lia.
Defined.

(** The toy run of two epochs, with a bound of four rounds. *)
Lemma plain_loop_terminates_witness :
  match epoch_loop 4 Toy.plain_env
          (Toy.start_state Toy.no_stopping Toy.example_hyps Toy.fresh_world 2 (VBool false))
  with
  | None => False
  | Some (Throw _ _ _) => True
  | Some (Normal s') =>
      exists m, 1 <= m <= Z.max 1 (2 - -1)
        /\ ls_epoch s' = -1 + m
        /\ saved_epochs s' = ([] ++ seqZ (-1 + 1) m)%list
  end.
Proof.
  refine (plain_loop_terminates Toy.plain_env 4
            (Toy.start_state Toy.no_stopping Toy.example_hyps Toy.fresh_world 2
                             (VBool false)) _ _ _ _).
  - reflexivity.
  - reflexivity.
  - simpl. lia.
  - lia.
Defined.

(** ** The retinotopic loop: how long it runs and what it returns *)

Section RetinotopicRunFacts.
Context `{Collaborators}.

(** A round of the retinotopic loop moves the epoch counter by one, sets
    [stop_training] by comparing it with [n_epochs], saves one checkpoint
    and leaves the dictionary as it was. *)
Lemma retinotopic_iteration_counts (n_epochs : Z) (s s' : retino_state) (brk : bool) :
  retinotopic_iteration n_epochs s = Normal (brk, s') ->
  rs_epoch s' = rs_epoch s + 1
  /\ rs_hyps s' = rs_hyps s
  /\ rs_stop_training s' = (rs_epoch s + 1 >=? n_epochs)
  /\ retino_saved_epochs s' = (retino_saved_epochs s ++ [rs_epoch s + 1])%list.
Proof.
  unfold retinotopic_iteration.
  destruct (train_sample (rs_world s)) as [batches w].
  destruct (at_heap _ _ (retinotopic_batches _ _ _ _)) as [[l w1]|]; [|done]. simpl.
  destruct (at_heap _ _ (py_truediv _ _)) as [avg|]; [|done]. simpl.
  destruct (at_heap _ _ (match batches with [] => _ | _ => _ end)); [|done]. simpl.
  destruct (at_heap _ _ (validate_static _ _ _)) as [[[vl ps] ts]|]; [|done]. simpl.
  destruct (at_heap _ _ (py_truediv _ _)) as [vl'|]; [|done]. simpl.
  destruct (at_heap _ _ (match ps with [] => _ | _ => _ end)); [|done]. simpl.
  destruct (at_heap _ _ (stop_early _ _)) as [[stop self']|]; [|done]. simpl.
  destruct (at_heap _ _ (getitem _ "scheduler")) as [sched|]; [|done]. simpl.
  intros [= <- <-]. simpl. repeat split; try done.
  unfold retino_saved_epochs. simpl. by rewrite map_app.
Qed.

(** X21. The epoch loop of [retinotopic_loop] always ends: given a bound
    of more than [n_epochs + 1] rounds, and of two at least, it either raises
    or ends after [m] rounds, with [m] at least 1 and at most
    [n_epochs + 1], having saved one checkpoint per round, for consecutive
    epochs.  As in [train_loop], the round of epoch [n_epochs] is run
    too when nothing stops the loop before. *)
Theorem retinotopic_loop_terminates (fuel : nat) (n_epochs : Z) (s : retino_state) :
  rs_stop_training s = false ->
  (Z.to_nat (n_epochs - rs_epoch s) < fuel)%nat -> (1 < fuel)%nat ->
  match retinotopic_epochs fuel n_epochs s with
  | None => False
  | Some (Throw _ _ _) => True
  | Some (Normal s') =>
      exists m, 1 <= m <= Z.max 1 (n_epochs - rs_epoch s)
        /\ rs_epoch s' = rs_epoch s + m
        /\ retino_saved_epochs s'
           = (retino_saved_epochs s ++ seqZ (rs_epoch s + 1) m)%list
  end.
Proof.
  revert s. induction fuel as [|fuel IH]; intros s Hrun Hfuel H1; [lia|].
  simpl. rewrite Hrun.
  destruct (retinotopic_iteration n_epochs s) as [[brk s1]|] eqn:Hiter; [|done].
  destruct (retinotopic_iteration_counts n_epochs s s1 brk Hiter)
    as (He & _ & Hstop & Hsaved).
  assert (Hone : exists m, 1 <= m <= Z.max 1 (n_epochs - rs_epoch s)
            /\ rs_epoch s1 = rs_epoch s + m
            /\ retino_saved_epochs s1
               = (retino_saved_epochs s ++ seqZ (rs_epoch s + 1) m)%list).
  { exists 1. split; [lia|]. split; [done|]. by rewrite Hsaved. }
  destruct brk; [done|].
  destruct (rs_stop_training s1) eqn:Hstop1.
  - destruct fuel as [|fuel]; [lia|]. simpl. by rewrite Hstop1.
  - symmetry in Hstop. rewrite Z.geb_leb in Hstop. apply Z.leb_gt in Hstop.
    specialize (IH s1). rewrite He in IH.
    specialize (IH Hstop1 ltac:(lia) ltac:(lia)).
    destruct (retinotopic_epochs fuel n_epochs s1) as [[s2|]|]; [|done..].
    destruct IH as (m & Hm & He2 & Hsaved2).
    exists (m + 1). split; [lia|]. split; [lia|].
    rewrite Hsaved2, Hsaved, <- app_assoc. f_equal.
    rewrite (seqZ_cons (rs_epoch s + 1) (m + 1)) by lia.
    simpl. do 2 f_equal; lia.
Qed.

(** X22. A retinotopic run whose epoch loop ends and whose dictionary has
    [prune] false returns through [Trainer.train] the dictionary of results
    of its last epoch, the save folder, the average loss, the validation
    accuracy and loss and the test correlation, without the entries of a
    [zero_dict]; nothing is printed by [Trainer.train]. *)
Theorem retinotopic_run_returns (fuel : nat) (self : Trainer) (h : hyps)
    (n_epochs : Z) (s0 s : retino_state) (folder prune : value) :
  truthy (try_key h "retinotopic" (VBool false)) = true ->
  retinotopic_init self h [] = Normal (n_epochs, s0) ->
  retinotopic_epochs fuel n_epochs s0 = Some (Normal s) ->
  rs_hyps s !! "save_folder" = Some folder ->
  rs_hyps s !! "prune" = Some prune -> truthy prune = false ->
  exists stats,
    rs_stats s = Some stats
    /\ Trainer_train fuel self h
       = Some (Normal (Some (retinotopic_results folder stats), rs_self s, rs_hyps s), []).
Proof.
  intros Hretino Hinit Hloop Hfolder Hprune Hfalse.
  assert (Hstats : is_Some (rs_stats s)).
  { apply (retinotopic_epochs_stats fuel n_epochs s0 s Hloop). left.
    unfold retinotopic_init in Hinit.
    destruct (at_heap _ _ (getitem h "batch_size")); [|done]. simpl in Hinit.
    destruct (setup_run h) as [h1 set_up].
    destruct (at_heap _ _ set_up) as [w|]; [|done]. simpl in Hinit.
    destruct (at_heap _ _ (getitem h1 "exp_name")) as [name|]; [|done]. simpl in Hinit.
    destruct (at_heap _ _ (_ ≫= as_int)) as [n|]; [|done]. simpl in Hinit.
    by injection Hinit as _ <-. }
  destruct Hstats as [stats Hstats]. exists stats. split; [done|].
  unfold Trainer_train, train, train_method. rewrite Hretino.
  unfold as_method, retinotopic_loop. rewrite Hinit, Hloop.
  unfold retinotopic_final_save.
  rewrite (getitem_Some _ _ _ Hfolder). simpl. rewrite Hstats. simpl.
  rewrite (getitem_Some _ _ _ Hprune). simpl. by rewrite Hfalse.
Qed.

End RetinotopicRunFacts.

(** The toy retinotopic run of two epochs, with a bound of four rounds. *)
Lemma retinotopic_loop_terminates_witness :
  match retinotopic_epochs 4 2 Toy.plain_retinotopic_start with
  | None => False
  | Some (Throw _ _ _) => True
  | Some (Normal s') =>
      exists m, 1 <= m <= Z.max 1 (2 - -1)
        /\ rs_epoch s' = -1 + m
        /\ retino_saved_epochs s' = ([] ++ seqZ (-1 + 1) m)%list
  end.
Proof.
  refine (retinotopic_loop_terminates 4 2 Toy.plain_retinotopic_start _ _ _).
  - reflexivity.
  - simpl. lia.
  - lia.
Defined.

Lemma retinotopic_run_returns_witness :
  exists stats,
    rs_stats Toy.plain_retinotopic_end = Some stats
    /\ Trainer_train 4 Toy.no_stopping Toy.plain_retinotopic_hyps
       = Some (Normal (Some (retinotopic_results (VStr "run") stats),
                       rs_self Toy.plain_retinotopic_end,
                       rs_hyps Toy.plain_retinotopic_end), []).
Proof.
  refine (retinotopic_run_returns 4 Toy.no_stopping Toy.plain_retinotopic_hyps 2
            Toy.plain_retinotopic_start Toy.plain_retinotopic_end (VStr "run")
            (VBool false) _ _ _ _ _ _).
  - reflexivity.
  - reflexivity.
  - reflexivity.
  - reflexivity.
  - reflexivity.
  - reflexivity.
Defined.

(** ** The sweep runner: every job is accounted for *)

Section SweepRunnerFacts.
Context `{PyFloat}.
Variable result : Type.
Variables (train_loop_method retinotopic_loop_method : method result).
Variable format_results : result -> string.


End SweepRunnerFacts.


(** A variant that fails on a value: the sweep ends on the exception, with
    a job left on the queue. *)
Lemma other_exception_propagates_witness :
  let sw := mkSweep Toy.no_stopping [] [] in
  train results Toy.failing_method Toy.failing_method (sw_trainer sw) Toy.example_hyps
  = Some (Throw ValueError Toy.no_stopping Toy.example_hyps, [])
  /\ hyper_loop results Toy.failing_method Toy.failing_method Toy.format_done
       (Toy.example_hyps :: [Toy.example_hyps]) sw
     = Some (Throw ValueError Toy.no_stopping Toy.example_hyps).
Proof.
  intros sw.
  refine (other_exception_propagates results Toy.failing_method Toy.failing_method
            Toy.format_done sw Toy.example_hyps Toy.example_hyps [Toy.example_hyps]
            Toy.no_stopping ValueError _ _).
  - discriminate.
  - reflexivity.
Defined.

(** ** [utils.find_peaks] *)

Section FindPeaksFacts.
Context {A : Type}.
Variable less : A -> A -> bool.

Lemma peaks_loop_interior (array : list A) (range maxima : list nat) :
  Forall (λ i, (1 <= i /\ i + 1 < length array)%nat) range ->
  peaks_loop less array range maxima
  = Ok (maxima ++ filter (λ i, strict_peak less array i = true) range)%list.
Proof.
  revert maxima. induction range as [|i range IH]; intros maxima Hrange.
  - simpl. by rewrite app_nil_r.
  - apply Forall_cons in Hrange as [[Hi1 Hi2] Hrange].
    destruct i as [|j]; [lia|].
    destruct (lookup_lt_is_Some_2 array j ltac:(lia)) as [a Ha].
    destruct (lookup_lt_is_Some_2 array (S j) ltac:(lia)) as [b Hb].
    destruct (lookup_lt_is_Some_2 array (S (S j)) ltac:(lia)) as [c Hc].
    cbn [peaks_loop]. unfold item.
    replace (S j - 1)%nat with j by lia. replace (S j + 1)%nat with (S (S j)) by lia.
    rewrite Ha, Hb, Hc. simpl. rewrite filter_cons.
    assert (Hpeak : strict_peak less array (S j) = less a b && less c b).
    { unfold strict_peak. by rewrite Hb, Ha, Hc. }
    destruct (less a b) eqn:Hab; simpl.
    + rewrite IH by done. destruct (less c b) eqn:Hcb.
      * rewrite decide_True by by rewrite Hpeak. by rewrite <- app_assoc.
      * rewrite decide_False by by rewrite Hpeak. done.
    + rewrite IH by done. rewrite decide_False by by rewrite Hpeak. done.
Qed.

(** X25. On an array of three elements or more, [find_peaks] raises
    nothing and returns, in increasing order, exactly the positions whose
    element is larger than each of its immediate neighbours; the first and
    the last position have one neighbour only. *)
Theorem find_peaks_long (array : list A) :
  (3 <= length array)%nat ->
  find_peaks less array
  = Ok (filter (λ i, strict_peak less array i = true) (seq 0 (length array))).
Proof.
  intros Hlen. unfold find_peaks.
  destruct (Nat.eqb_spec (length array) 2) as [|_]; [lia|]. simpl.
  destruct (Nat.leb_spec (length array) 2) as [|_]; [lia|].
  destruct (lookup_lt_is_Some_2 array 0 ltac:(lia)) as [a0 Ha0].
  destruct (lookup_lt_is_Some_2 array 1 ltac:(lia)) as [a1 Ha1].
  destruct (lookup_lt_is_Some_2 array (length array - 2) ltac:(lia)) as [x Hx].
  destruct (lookup_lt_is_Some_2 array (length array - 1) ltac:(lia)) as [y Hy].
  unfold item at 1 2. rewrite Ha0, Ha1. simpl.
  rewrite peaks_loop_interior.
  2:{ apply Forall_forall. intros i Hi. apply elem_of_seq in Hi. lia. }
  simpl. unfold item_from_end, item.
  destruct (Nat.leb_spec 2 (length array)) as [_|]; [|lia].
  destruct (Nat.leb_spec 1 (length array)) as [_|]; [|lia].
  rewrite Hx, Hy. simpl. f_equal.
  assert (Hseq : seq 0 (length array)
                 = ([0%nat] ++ seq 1 (length array - 1 - 1)
                            ++ [(length array - 1)%nat])%list).
  { replace (length array) with (1 + ((length array - 1 - 1) + 1))%nat at 1 by lia.
    rewrite seq_app, seq_app. simpl. do 3 f_equal. lia. }
  rewrite Hseq, !filter_app.
  assert (H0 : filter (λ i, strict_peak less array i = true) [0%nat]
               = if less a1 a0 then [0%nat] else []).
  { rewrite filter_cons, filter_nil. unfold strict_peak. rewrite Ha0, Ha1. simpl.
    by destruct (less a1 a0). }
  assert (Hn : filter (λ i, strict_peak less array i = true) [(length array - 1)%nat]
               = if less x y then [(length array - 1)%nat] else []).
  { rewrite filter_cons, filter_nil. unfold strict_peak. rewrite Hy.
    destruct (length array - 1)%nat as [|j] eqn:Hj; [lia|].
    replace (length array - 2)%nat with j in Hx by lia. rewrite Hx.
    rewrite (lookup_ge_None_2 array (S (S j))) by lia.
    rewrite andb_true_r. by destruct (less x y). }
  rewrite H0, Hn. destruct (less x y); [by rewrite app_assoc|].
  by rewrite !app_nil_r.
Qed.

(** X26. On an array of two elements or fewer, [find_peaks] returns
    exactly one position.  It is a position whose element is larger than its
    neighbour, if there is one, except in two cases, where it is 0: the
    empty array, which has no position 0, and two elements neither of which
    is smaller than the other. *)
Theorem find_peaks_short (array : list A) :
  (length array <= 2)%nat ->
  exists i, find_peaks less array = Ok [i]
    /\ (strict_peak less array i = true
        \/ i = 0%nat
           /\ (array = []
               \/ exists a0 a1, array = [a0; a1]
                    /\ less a1 a0 = false /\ less a0 a1 = false)).
Proof.
  intros Hlen. destruct array as [|a0 [|a1 [|a2 array]]]; simpl in Hlen; try lia.
  - exists 0%nat. split; [done|]. right. split; [done|]. by left.
  - exists 0%nat. split; [done|]. by left.
  - unfold find_peaks. simpl. destruct (less a1 a0) eqn:H10; simpl.
    + exists 0%nat. split; [done|]. left. unfold strict_peak. simpl. by rewrite H10.
    + destruct (less a0 a1) eqn:H01; simpl.
      * exists 1%nat. split; [done|]. left. unfold strict_peak. simpl. by rewrite H01.
      * exists 0%nat. split; [done|]. right. split; [done|]. right.
        by exists a0, a1.
Qed.

End FindPeaksFacts.

(** The array [[1, 3, 2, 5]]: the peaks are at the positions 1 and 3. *)
Lemma find_peaks_long_witness :
  find_peaks Z.ltb [1; 3; 2; 5]
  = Ok (filter (λ i, strict_peak Z.ltb [1; 3; 2; 5] i = true) (seq 0 (length [1; 3; 2; 5]))).
Proof. apply (find_peaks_long Z.ltb [1; 3; 2; 5]). simpl. lia. Defined.

(** The empty array. *)
Lemma find_peaks_short_witness :
  exists i, find_peaks Z.ltb [] = Ok [i]
    /\ (strict_peak Z.ltb [] i = true
        \/ i = 0%nat
           /\ (@nil Z = []
               \/ exists a0 a1, @nil Z = [a0; a1]
                    /\ (a1 <? a0) = false /\ (a0 <? a1) = false)).
Proof. apply (find_peaks_short Z.ltb []). simpl. lia. Defined.

(** ** The monitor switched off, and the single fold *)

Section SwitchedOffFacts.
Context `{PyFloat}.

(** X27. A patience of zero or less switches the monitor off: whatever its
    state and the metrics it is shown, every call returns [False] and the
    monitor is left exactly as it was; no previous value is stored. *)
Theorem stop_early_disabled (self : Trainer) (accs : list float) :
  early_stopping self <= 0 ->
  observe_all self accs = Ok (replicate (length accs) false, self).
Proof.
  intros HP. induction accs as [|acc accs IH]; simpl; [done|].
  unfold stop_early.
  destruct (Z.leb_spec (early_stopping self) 0) as [_|Hgt]; [|lia].
  simpl. by rewrite IH.
Qed.

End SwitchedOffFacts.

Lemma stop_early_disabled_witness :
  observe_all Toy.no_stopping [XReal.Fin (1 # 2); XReal.Fin (1 # 4)]
  = Ok (replicate (length [XReal.Fin (1 # 2); XReal.Fin (1 # 4)]) false, Toy.no_stopping).
Proof.
  apply (stop_early_disabled Toy.no_stopping [XReal.Fin (1 # 2); XReal.Fin (1 # 4)]).
  simpl. lia.
Defined.

Section SingleFoldFacts.
Context `{Collaborators}.

(** X28. Without cross-validation [train_loop] runs exactly one fold and
    returns its result.  The fold works on the dictionary with its seed
    set, and its index is the configured [cross_val_idx], [None] counting as
    0, brought down to [n_cv_folds - 1] when it is larger; it is not
    brought up when it is negative. *)
Theorem train_loop_single_fold (fuel : nat) (self : Trainer) (h : hyps)
    (ckpts : list (save_dict * bool)) (bs cv idx : value) (i n : Z) :
  h !! "batch_size" = Some bs -> h !! "cross_val" = Some cv -> truthy cv = false ->
  h !! "cross_val_idx" = Some idx -> (if is_None idx then Ok 0 else as_int idx) = Ok i ->
  h !! "n_cv_folds" = Some (VInt n) ->
  train_loop fuel self h ckpts
  = match run_fold fuel self (<["cross_val_idx" := VInt (Z.min (n - 1) i)]> (seeded h))
                   ckpts with
    | Some (Normal (r, s)) => Some (Normal (r, ls_self s, ls_hyps s, ls_ckpts s))
    | Some (Throw e self' h') => Some (Throw e self' h')
    | None => None
    end.
Proof.
  intros Hbs Hcv Hfalse Hidx Hi Hn. unfold train_loop.
  rewrite (getitem_Some _ _ _ Hbs). simpl. fold (seeded h).
  unfold cross_val_range.
  assert (Hcv' : seeded h !! "cross_val" = Some cv).
  { unfold seeded. by rewrite lookup_insert_ne. }
  assert (Hidx' : seeded h !! "cross_val_idx" = Some idx).
  { unfold seeded. by rewrite lookup_insert_ne. }
  assert (Hn' : seeded h !! "n_cv_folds" = Some (VInt n)).
  { unfold seeded. by rewrite lookup_insert_ne. }
  rewrite (getitem_Some _ _ _ Hcv'). simpl. rewrite Hfalse.
  rewrite (getitem_Some _ _ _ Hidx'). simpl. rewrite Hi. simpl.
  rewrite (getitem_Some _ _ _ Hn'). simpl.
  by destruct (run_fold _ _ _ _) as [[[r s]|]|].
Qed.

End SingleFoldFacts.

Lemma train_loop_single_fold_witness :
  train_loop 4 Toy.no_stopping Toy.example_hyps []
  = match run_fold 4 Toy.no_stopping
            (<["cross_val_idx" := VInt (Z.min (10 - 1) 0)]> (seeded Toy.example_hyps)) [] with
    | Some (Normal (r, s)) => Some (Normal (r, ls_self s, ls_hyps s, ls_ckpts s))
    | Some (Throw e self' h') => Some (Throw e self' h')
    | None => None
    end.
Proof.
  refine (train_loop_single_fold 4 Toy.no_stopping Toy.example_hyps [] (VInt 8)
            (VBool false) (VInt 0) 0 10 _ _ _ _ _ _).
  - reflexivity.
  - reflexivity.
  - reflexivity.
  - reflexivity.
  - reflexivity.
  - reflexivity.
Defined.

(** ** [get_data]: the shape of the stimulus and the test data *)

Section GetDataFacts.
Variables (expt container norm : Type).
Variable interneuron_expts : gset string.
Variable loadintrexpt : load_request norm -> outcome expt.
Variable DataContainer : expt -> outcome container.
Variable stats_of : container -> norm.
Variable x_shape : container -> value.

(** X29. Whatever happens while the test data are loaded has no effect on
    the rest of [get_data]: with two loaders that agree on every load that
    is not one of test data, the call raises the same exception or returns
    the same training data and leaves the same dictionary.  A failure of the
    test load, of any kind, is caught. *)
Theorem get_data_test_load_is_caught
    (loadexpt loadexpt' : load_request norm -> outcome expt) (h : hyps) :
  (forall r, load_split norm r ≠ Some "test" -> loadexpt r = loadexpt' r) ->
  train_part container
    (get_data expt container norm interneuron_expts loadintrexpt loadexpt
              DataContainer stats_of x_shape h)
  = train_part container
      (get_data expt container norm interneuron_expts loadintrexpt loadexpt'
                DataContainer stats_of x_shape h).
Proof.
  intros Hagree. unfold get_data. cbv zeta.
  destruct (getitem h "img_shape") as [img_shape|]; [|done]. simpl.
  destruct (first_item img_shape) as [depth|]; [|done]. simpl.
  destruct (getitem h "dataset") as [dataset|]; [|done]. simpl.
  destruct (in_names dataset interneuron_expts) as [[]|]; [| |done]; simpl.
  - destruct (load_keys h) as [[[d c] st]|]; [|done]. simpl.
    destruct (loadintrexpt _) as [raw|]; [|done]. simpl.
    destruct (DataContainer raw) as [train|]; [|done]. simpl.
    by destruct (loadexpt _ ≫= DataContainer), (loadexpt' _ ≫= DataContainer).
  - destruct (load_keys h) as [[[d c] st]|]; [|done]. simpl.
    rewrite <- Hagree by done.
    destruct (loadexpt _) as [raw|]; [|done]. simpl.
    destruct (DataContainer raw) as [train|]; [|done]. simpl.
    by destruct (loadexpt _ ≫= DataContainer), (loadexpt' _ ≫= DataContainer).
Qed.

(** X30. [get_data] reads [hyps['img_shape']] before anything else, also
    when [img_depth] is given, since it is the default of [hyps.get]: a
    dictionary without it raises [KeyError: 'img_shape'].  A call that
    returns has overwritten it with the shape of the training stimulus and
    has written nothing else. *)
Theorem get_data_img_shape (loadexpt : load_request norm -> outcome expt) (h : hyps) :
  match get_data expt container norm interneuron_expts loadintrexpt loadexpt
                 DataContainer stats_of x_shape h with
  | Ok (h', train_data, _, _) =>
      is_Some (h !! "img_shape") /\ h' = <["img_shape" := x_shape train_data]> h
  | Raise e => h !! "img_shape" = None -> e = KeyError "img_shape"
  end.
Proof.
  unfold get_data. cbv zeta.
  destruct (h !! "img_shape") as [img_shape|] eqn:Hshape.
  - rewrite (getitem_Some _ _ _ Hshape). simpl.
    destruct (first_item img_shape) as [depth|]; [|done]. simpl.
    destruct (getitem h "dataset") as [dataset|]; [|done]. simpl.
    destruct (in_names dataset interneuron_expts) as [intr|]; [|done]. simpl.
    match goal with
    | |- context [mbind _ (if intr then ?a else ?b)] =>
        destruct (if intr then a else b) as [[path raw]|]; [|done]
    end.
    simpl. destruct (DataContainer raw) as [train|]; [|done]. simpl.
    destruct (load_keys h ≫= _); eauto.
  - by rewrite (getitem_None _ _ Hshape).
Qed.

End GetDataFacts.

(** An experiment whose test data cannot be indexed: the call returns as if
    they could. *)
Lemma get_data_test_load_is_caught_witness :
  train_part string
    (get_data string string unit ∅ no_test_loader no_test_loader Ok (λ _, ()) VStr
              data_hyps)
  = train_part string
      (get_data string string unit ∅ no_test_loader full_loader Ok (λ _, ()) VStr
                data_hyps).
Proof.
  apply (get_data_test_load_is_caught string string unit ∅ no_test_loader Ok (λ _, ())
           VStr no_test_loader full_loader data_hyps).
  intros r Hsplit. unfold no_test_loader, full_loader. by rewrite decide_False.
Defined.
